(** * Verification of the cleaning pipeline of [web_scrapping/cleaner.py]

    The development embeds [clean_text], [categorize_unclean] and
    [clean_dataset] of [src/web_scrapping/cleaner.py] together with the
    pieces of the Python runtime they call ([str.strip], [str.lower],
    [re.sub], [pandas] row selection), and proves the properties that the
    specification states about them. *)

From Stdlib Require Import NArith ZArith Ascii String Lia DecimalString.
From stdpp Require Import gmap strings list fin_maps.

Set Default Proof Using "Type".

Local Open Scope N_scope.

(** ** Python strings

    A Python [str] is a sequence of Unicode code points; a code point is
    a number of type [N].  String literals of the source are written
    [py "..."]. *)

Abbreviation codepoint := N (only parsing).
Abbreviation str := (list N) (only parsing).

Definition ch (a : ascii) : codepoint := N_of_ascii a.

Definition py (s : string) : str := map ch (list_ascii_of_string s).

(** The empty string literal. *)
Abbreviation empty_str := (@nil N) (only parsing).

Definition amp : codepoint := ch "&".
Definition semi : codepoint := ch ";".
Definition space : codepoint := ch " ".
Definition underscore : codepoint := ch "_".

(** [not text] on a string. *)
Definition is_empty (s : str) : bool :=
  match s with [] => true | _ :: _ => false end.

Fixpoint drop_while (p : codepoint → bool) (s : str) : str :=
  match s with
  | [] => []
  | c :: r => if p c then drop_while p r else s
  end.

Fixpoint startswith (s prefix : str) : bool :=
  match prefix, s with
  | [], _ => true
  | p :: prefix', c :: s' => (c =? p) && startswith s' prefix'
  | _ :: _, [] => false
  end.

(** ** Values, rows and frames

    The cells of the raw file are JSON strings or [null]; a cell that a
    record lacks is read by [pandas] as [NaN].  These three kinds of value
    are the data model of the cleaner; [pandas] keeps them in columns of
    Python objects, and in columns of floats where a column has no
    string (see [float_column]). *)
Inductive pyval :=
| PyNone
| PyNaN
| PyStr (s : str).

#[global] Instance pyval_eq_dec : EqDecision pyval.
Proof. solve_decision. Defined.

(** The builtin [str(x)], which is also what [astype(str)] applies to
    every cell. *)
Definition py_str (v : pyval) : str :=
  match v with
  | PyNone => py "None"
  | PyNaN => py "nan"
  | PyStr s => s
  end.

(** A row ([pd.Series]) or a JSON object: field name to value. *)
Abbreviation record := (gmap string pyval) (only parsing).

(** [row.get(key, default)] *)
Definition get (row : record) (key : string) (dflt : pyval) : pyval :=
  default dflt (row !! key).

(** ** Configuration ([config.json]) *)
Record Config := {
  output_folder : string;
  raw_file : string;
  clean_file : string;
  unclean_file : string;
  min_answer_length : option Z
}.

(** ** Data frames

    A frame has a set of column labels and a list of rows, each under its
    index label.  A cell that a row does not hold reads as [NaN]. *)
Record DataFrame := {
  columns : gset string;
  rows : list (nat * gmap string pyval)
}.

Definition index (df : DataFrame) : list nat := fst <$> rows df.

Definition cell (r : record) (col : string) : pyval :=
  default PyNaN (r !! col).

Definition is_string (v : pyval) : bool :=
  match v with PyStr _ => true | _ => false end.

(** [pandas] infers the type of a column from its cells.  A column with
    a string in it is a column of Python objects, which keeps [None] and
    [NaN] apart.  A column without a string in which some cell is [NaN]
    (the record lacks the key, or has [NaN] there) is a column of floats:
    every cell of it is [NaN], also where the record has [None].  A
    column of [None] only stays a column of objects. *)
Definition float_column (data : list (gmap string pyval)) (col : string)
    : bool :=
  forallb (λ r, negb (is_string (cell r col))) data
  && existsb (λ r, bool_decide (cell r col = PyNaN)) data.

(** The cell of the frame for the record [r] of [data]. *)
Definition frame_cell (data : list (gmap string pyval)) (r : record)
    (col : string) : pyval :=
  if float_column data col then PyNaN else cell r col.

Definition frame_row (data : list (gmap string pyval)) (cols : gset string)
    (r : record) : gmap string pyval :=
  map_imap (λ col _, Some (frame_cell data r col)) (gset_to_gmap PyNaN cols).

(** [pd.DataFrame(data)] for a list of JSON objects: the columns are the
    keys that occur, the index is [0 .. len(data) - 1], and every row has
    a cell for every column. *)
Definition make_frame (data : list (gmap string pyval)) : DataFrame :=
  let cols : gset string := ⋃ (dom <$> data) in
  {| columns := cols;
     rows := imap (λ i r, (i, frame_row data cols r)) data |}.

(** [df.empty]: the frame has no row or no column. *)
Definition empty_frame (df : DataFrame) : bool :=
  match rows df with [] => true | _ :: _ => false end
  || bool_decide (columns df = ∅).

(** [keep="first"] scan of [drop_duplicates]: [seen] holds the keys of the
    rows kept so far.  Keys are compared as [pandas] compares the objects
    of a column: strings by their characters, [NaN] equal to [NaN], [None]
    equal to [None] only. *)
Fixpoint first_occurrences (key : record → pyval) (seen : list pyval)
    (l : list (nat * gmap string pyval)) : list (nat * gmap string pyval) :=
  match l with
  | [] => []
  | ir :: l' =>
      if bool_decide (key ir.2 ∈ seen) then first_occurrences key seen l'
      else ir :: first_occurrences key (key ir.2 :: seen) l'
  end.

Definition url_of (ir : nat * gmap string pyval) : pyval := cell ir.2 "url".

(** The rows that [drop_duplicates(subset=["url"])] keeps. *)
Definition deduplicated (l : list (nat * gmap string pyval))
    : list (nat * gmap string pyval) :=
  first_occurrences (λ r, cell r "url") [] l.

(** Exceptions: a [KeyError] of a subscript of the script itself, the
    decoding error of [json.load], and an exception raised inside a
    library call that touches the world outside, given by the name of its
    class ([OSError], [UnicodeEncodeError], ...). *)
Inductive exn :=
| KeyError (key : string)
| JSONDecodeError
| LibraryError (name : string).

Inductive result (A : Type) :=
| Ok (a : A)
| Raise (e : exn).
Arguments Ok {A} a.
Arguments Raise {A} e.

(** The files after a write to [p] that raised: the file is as it was
    when it could not be opened, and holds what was written until the
    failure otherwise. *)
Definition left_behind {content : Type} (partial : option content)
    (p : string) (fs : gmap string content) : gmap string content :=
  match partial with
  | Some c => <[p := c]> fs
  | None => fs
  end.

(** Lines that [clean_dataset] prints. *)
Inductive message :=
| MsgRawNotFound
| MsgLoaded (total_raw : nat) (path : string)
| MsgComplete
| MsgSavedClean (path : string)
| MsgSavedUnclean (path : string)
| MsgSummary
| MsgTotalRaw (n : nat)
| MsgTotalClean (n : nat)
| MsgTotalUnclean (n : nat)
| MsgBreakdown
| MsgReasonCounts (reasons : list pyval).

Section Cleaner.

(** CPython answers character-class questions from a table of its own for
    code points below 128 and from the Unicode database above.  The three
    database lookups used by the cleaner are parameters of the model; the
    ASCII tables are written out. *)
Variable uni_isspace : codepoint → bool.
Variable uni_isalnum : codepoint → bool.
Variable uni_lower : str → str.

Definition is_ascii (c : codepoint) : bool := c <? 128.

(** [_Py_ascii_whitespace]: TAB, LF, VT, FF, CR, FS, GS, RS, US, SPACE. *)
Definition ascii_isspace (c : codepoint) : bool :=
  ((9 <=? c) && (c <=? 13)) || ((28 <=? c) && (c <=? 32)).

Definition ascii_isalnum (c : codepoint) : bool :=
  ((48 <=? c) && (c <=? 57)) || ((65 <=? c) && (c <=? 90))
  || ((97 <=? c) && (c <=? 122)).

(** [str.isspace] on one character; also the class [\s] of [re]. *)
Definition isspace (c : codepoint) : bool :=
  if is_ascii c then ascii_isspace c else uni_isspace c.

Definition isalnum (c : codepoint) : bool :=
  if is_ascii c then ascii_isalnum c else uni_isalnum c.

(** The class [\w] of [re] on [str] patterns: alphanumeric or underscore. *)
Definition isword (c : codepoint) : bool := isalnum c || (c =? underscore).

(** *** [str.strip], [str.lower] *)

Definition lstrip (s : str) : str := drop_while isspace s.
Definition rstrip (s : str) : str := rev (drop_while isspace (rev s)).
Definition strip (s : str) : str := rstrip (lstrip s).

Definition ascii_lower (c : codepoint) : codepoint :=
  if (65 <=? c) && (c <=? 90) then c + 32 else c.

(** [str.lower]: CPython lowers an all-ASCII string bytewise and hands
    every other string to the Unicode case mapping. *)
Definition lower (s : str) : str :=
  if forallb is_ascii s then map ascii_lower s else uni_lower s.

(** *** [re.sub]

    A pattern is given by its anchored matcher: [m s] is [Some rest] when
    the pattern matches a prefix of [s] and [rest] is the text after the
    match.  [re_sub m repl s] scans [s] from the left, replaces every
    match by [repl] and resumes after it, and copies the characters at
    which the pattern does not match.  Both patterns of the cleaner
    consume at least one character, so the length of the text is enough
    fuel. *)
Fixpoint re_sub_fuel (m : str → option str) (repl : str) (fuel : nat)
    (s : str) : str :=
  match fuel with
  | O => []
  | S fuel' =>
      match s with
      | [] => []
      | c :: r =>
          match m s with
          | Some rest => repl ++ re_sub_fuel m repl fuel' rest
          | None => c :: re_sub_fuel m repl fuel' r
          end
      end
  end.

Definition re_sub (m : str → option str) (repl : str) (s : str) : str :=
  re_sub_fuel m repl (length s) s.

(** [\w*;] — the rest of an entity after its first word character.  The
    run [\w*] is greedy; no shorter run can be followed by [;], because
    inside the run every character is a word character and [;] is not. *)
Fixpoint word_run_semi (s : str) : option str :=
  match s with
  | [] => None
  | c :: r =>
      if isword c then word_run_semi r
      else if c =? semi then Some r else None
  end.

(** [&\w+;] *)
Definition match_entity (s : str) : option str :=
  match s with
  | a :: c :: r => if (a =? amp) && isword c then word_run_semi r else None
  | _ => None
  end.

(** [\s+] *)
Definition match_spaces (s : str) : option str :=
  match s with
  | c :: r => if isspace c then Some (drop_while isspace r) else None
  | [] => None
  end.

(** ** [clean_text]

    [text] is a [str] or [None]; [None] and the empty string are the
    falsy inputs. *)
Definition clean_text (text : option str) : str :=
  match text with
  | None => []
  | Some text =>
      if is_empty text then []
      else
        let text := re_sub match_entity (py " ") text in
        let text := re_sub match_spaces (py " ") text in
        strip text
  end.

(** ** The loaded configuration *)

Variable config : Config.

(** [MIN_ANSWER_LEN = config.get("min_answer_length", 15)] *)
Definition MIN_ANSWER_LEN : Z := default 15%Z (min_answer_length config).

(** ** [categorize_unclean] *)
Definition categorize_unclean (row : record) : str :=
  let ans := strip (py_str (get row "answer" (PyStr empty_str))) in
  let q := strip (py_str (get row "question" (PyStr empty_str))) in
  let url := get row "url" (PyStr empty_str) in
  if bool_decide (lower ans ∈ [empty_str; py "none"; py "nan"]) then
    py "No Answer"
  else if match url with
          | PyStr u => negb (startswith u (py "https"))
          | _ => true
          end then
    py "Malformed Entry"
  else if (Z.of_nat (length ans) <? MIN_ANSWER_LEN)%Z then
    py "Too Short"
  else
    py "Other".

(** [df[col] = df[col].astype(str).apply(f)] *)
Definition apply_column (f : str → str) (col : string) (df : DataFrame)
    : DataFrame :=
  {| columns := columns df;
     rows := prod_map id (λ r, <[col := PyStr (f (py_str (cell r col)))]> r)
               <$> rows df |}.

(** Step 2 of [clean_dataset], one column. *)
Definition clean_column (df : DataFrame) (col : string) : DataFrame :=
  if bool_decide (col ∈ columns df) then
    apply_column (λ s, clean_text (Some s)) col df
  else df.

(** [df.drop_duplicates(subset=[col], inplace=True)]: an empty frame is
    returned as it is, before the column is looked for. *)
Definition drop_duplicates (col : string) (df : DataFrame)
    : result DataFrame :=
  if empty_frame df then Ok df
  else if bool_decide (col ∈ columns df) then
    Ok {| columns := columns df;
          rows := first_occurrences (λ r, cell r col) [] (rows df) |}
  else Raise (KeyError col).

(** [df[col] = df.apply(f, axis=1)] *)
Definition assign_apply (col : string) (f : record → str) (df : DataFrame)
    : DataFrame :=
  {| columns := {[col]} ∪ columns df;
     rows := prod_map id (λ r, <[col := PyStr (f r)]> r) <$> rows df |}.

(** Elementwise column tests of Step 5; comparisons with a missing value
    are [False], except [!=], which is [True]. *)
Definition eq_str (v : pyval) (s : str) : bool :=
  match v with PyStr t => bool_decide (t = s) | _ => false end.

Definition notna (v : pyval) : bool :=
  match v with PyStr _ => true | _ => false end.

Definition str_strip_ne (v : pyval) (s : str) : bool :=
  match v with PyStr t => bool_decide (strip t ≠ s) | _ => true end.

Definition str_len_ge (v : pyval) (n : Z) : bool :=
  match v with PyStr t => (n <=? Z.of_nat (length t))%Z | _ => false end.

Definition clean_mask (r : record) : bool :=
  eq_str (cell r "reason") (py "Other")
  && notna (cell r "answer")
  && str_strip_ne (cell r "answer") empty_str
  && str_len_ge (cell r "answer") MIN_ANSWER_LEN.

(** [df[mask]] *)
Definition select (mask : nat * gmap string pyval → bool) (df : DataFrame)
    : DataFrame :=
  {| columns := columns df; rows := List.filter mask (rows df) |}.

(** [index.isin(labels)] for one label *)
Definition isin (i : nat) (labels : list nat) : bool :=
  bool_decide (i ∈ labels).

(** Steps 5 and 6: the clean and the unclean frame. *)
Definition partition (df : DataFrame) : result (DataFrame * DataFrame) :=
  if negb (bool_decide ("reason" ∈ columns df)) then Raise (KeyError "reason")
  else if negb (bool_decide ("answer" ∈ columns df)) then
    Raise (KeyError "answer")
  else
    let clean_df := select (λ ir, clean_mask ir.2) df in
    let unclean_df := select (λ ir, negb (isin ir.1 (index clean_df))) df in
    Ok (clean_df, unclean_df).

(** Steps 2 to 4: normalise, deduplicate, classify. *)
Definition classify_frame (df : DataFrame) : result DataFrame :=
  let df := foldl clean_column df ["question"; "body"; "answer"] in
  match drop_duplicates "url" df with
  | Raise e => Raise e
  | Ok df => Ok (assign_apply "reason" categorize_unclean df)
  end.

(** Steps 2 to 6 on the loaded data:
    the classified frame, the clean frame and the unclean frame. *)
Definition process (data : list (gmap string pyval))
    : result (DataFrame * DataFrame * DataFrame) :=
  match classify_frame (make_frame data) with
  | Raise e => Raise e
  | Ok df =>
      match partition df with
      | Raise e => Raise e
      | Ok (clean_df, unclean_df) => Ok (df, clean_df, unclean_df)
      end
  end.

(** ** The file system and the console

    [clean_dataset] reads one file, writes two and prints.  The world it
    runs in is the map from paths to file contents and the lines printed
    so far.  Parsing JSON, rendering CSV and joining paths are left to
    the libraries that do them. *)
Variable content : Type.
Variable json_load : content → option (list (gmap string pyval)).
Variable to_csv : DataFrame → content.

(** What goes wrong in [open] and the reading of the text, in [mkdir]
    and in [to_csv], which depends on the files, the path and the frame:
    nothing ([None]), or an exception given by the name of its class.
    When [to_csv] fails after it has opened the file (a text that cannot
    be encoded), the file is left with what was written until then. *)
Variable open_error : gmap string content → string → option string.
Variable mkdir_error : gmap string content → string → option string.
Variable to_csv_error :
  gmap string content → string → DataFrame → option (string * option content).

Variable path_join : string → string → string.

Record World := {
  files : gmap string content;
  console : list message
}.

(** State and exception monad of the script. *)
Definition IO (A : Type) : Type := World → World * result A.

#[local] Instance io_ret : MRet IO := λ A a w, (w, Ok a).

#[local] Instance io_bind : MBind IO := λ A B k m w,
  match m w with
  | (w', Ok a) => k a w'
  | (w', Raise e) => (w', Raise e)
  end.

Definition print (msg : message) : IO unit :=
  λ w, ({| files := files w; console := console w ++ [msg] |}, Ok tt).

Definition path_exists (p : string) : IO bool :=
  λ w, (w, Ok (bool_decide (is_Some (files w !! p)))).

(** [with open(p) as f: json.load(f)] *)
Definition read_json (p : string) : IO (list (gmap string pyval)) :=
  λ w, match open_error (files w) p with
       | Some name => (w, Raise (LibraryError name))
       | None =>
           match files w !! p ≫= json_load with
           | Some data => (w, Ok data)
           | None => (w, Raise JSONDecodeError)
           end
       end.

(** [df.to_csv(p, index=False, encoding="utf-8")] *)
Definition write_csv (df : DataFrame) (p : string) : IO unit :=
  λ w, match to_csv_error (files w) p df with
       | None =>
           ({| files := <[p := to_csv df]> (files w); console := console w |},
            Ok tt)
       | Some (name, partial) =>
           ({| files := left_behind partial p (files w);
               console := console w |},
            Raise (LibraryError name))
       end.

(** [output_folder.mkdir(parents=True, exist_ok=True)]: directories are
    not part of [files]. *)
Definition mkdir (p : string) : IO unit :=
  λ w, match mkdir_error (files w) p with
       | None => (w, Ok tt)
       | Some name => (w, Raise (LibraryError name))
       end.

Definition lift {A} (r : result A) : IO A := λ w, (w, r).

Definition RAW_PATH : string :=
  path_join (output_folder config) (raw_file config).
Definition CLEAN_PATH : string :=
  path_join (output_folder config) (clean_file config).
Definition UNCLEAN_PATH : string :=
  path_join (output_folder config) (unclean_file config).

(** ** [clean_dataset] *)
Definition clean_dataset : IO unit :=
  found ← path_exists RAW_PATH;
  if negb found then
    print MsgRawNotFound
  else
    data ← read_json RAW_PATH;
    let total_raw := length data in
    print (MsgLoaded total_raw RAW_PATH);;
    '(df, clean_df, unclean_df) ← lift (process data);
    mkdir (output_folder config);;
    write_csv clean_df CLEAN_PATH;;
    write_csv unclean_df UNCLEAN_PATH;;
    let total_clean := length (rows clean_df) in
    let total_unclean := length (rows unclean_df) in
    print MsgComplete;;
    print (MsgSavedClean CLEAN_PATH);;
    print (MsgSavedUnclean UNCLEAN_PATH);;
    print MsgSummary;;
    print (MsgTotalRaw total_raw);;
    print (MsgTotalClean total_clean);;
    print (MsgTotalUnclean total_unclean);;
    print MsgBreakdown;;
    print (MsgReasonCounts ((λ ir, cell ir.2 "reason") <$> rows unclean_df)).

(** ** Vocabulary of the specification *)

(** A matcher makes progress when what it leaves is a proper suffix. *)
Definition progresses (m : str → option str) : Prop :=
  ∀ s rest,
    m s = Some rest → rest `suffix_of` s ∧ (length rest < length s)%nat.

(** The strings matched by [&\w+;]. *)
Definition entity (e : str) : Prop :=
  ∃ w, e = amp :: w ++ [semi] ∧ w ≠ [] ∧ Forall (λ c, isword c = true) w.

(** Some substring of the text matches the entity pattern. *)
Definition contains_entity (s : str) : Prop :=
  ∃ pre e post, s = pre ++ e ++ post ∧ entity e.

(** No position of the text starts a match of the entity pattern. *)
Definition entity_free (s : str) : Prop :=
  ∀ pre suf, s = pre ++ suf → match_entity suf = None.

(** Two adjacent whitespace characters. *)
Definition has_space_run (s : str) : Prop :=
  ∃ pre a b post,
    s = pre ++ a :: b :: post ∧ isspace a = true ∧ isspace b = true.

Definition has_leading_space (s : str) : Prop :=
  ∃ c r, s = c :: r ∧ isspace c = true.

Definition has_trailing_space (s : str) : Prop :=
  ∃ r c, s = r ++ [c] ∧ isspace c = true.

Definition starts_black (s : str) : Prop :=
  match s with [] => True | c :: _ => isspace c = false end.

(** Every whitespace character is a space and is followed by a character
    that is not whitespace, or by nothing. *)
Fixpoint single_spaced (s : str) : Prop :=
  match s with
  | [] => True
  | c :: r => (isspace c = true → c = space ∧ starts_black r) ∧ single_spaced r
  end.

(** The quantities the classifier looks at. *)
Definition trimmed_answer (row : record) : str :=
  strip (py_str (get row "answer" (PyStr empty_str))).

Definition no_answer (row : record) : Prop :=
  lower (trimmed_answer row) ∈ [empty_str; py "none"; py "nan"].

(** The url is not a string, or is a string that does not begin with
    ["https"]. *)
Definition malformed_url (row : record) : Prop :=
  ∀ u, get row "url" (PyStr empty_str) = PyStr u →
       startswith u (py "https") = false.

Definition too_short (row : record) : Prop :=
  (Z.of_nat (length (trimmed_answer row)) < MIN_ANSWER_LEN)%Z.

Definition reasons : list str :=
  [py "No Answer"; py "Malformed Entry"; py "Too Short"; py "Other"].

(** The rule of the specification for the clean frame. *)
Definition passes_recheck (r : record) : Prop :=
  cell r "reason" = PyStr (py "Other")
  ∧ ∃ a, cell r "answer" = PyStr a
         ∧ strip a ≠ empty_str
         ∧ (MIN_ANSWER_LEN ≤ Z.of_nat (length (strip a)))%Z.

(** The test of Step 5 as the code writes it: the length compared with
    the threshold is that of the answer as it is stored. *)
Definition passes_mask (r : record) : Prop :=
  cell r "reason" = PyStr (py "Other")
  ∧ ∃ a, cell r "answer" = PyStr a
         ∧ strip a ≠ empty_str
         ∧ (MIN_ANSWER_LEN ≤ Z.of_nat (length a))%Z.

(** The answer of the row, when it is a string, has no whitespace at its
    ends: the answer of a normalised record. *)
Definition answer_trimmed (r : record) : Prop :=
  ∀ a, cell r "answer" = PyStr a → strip a = a.

(** A frame is classified when the [reason] of every row is what the
    classifier says about that row. *)
Definition classified (df : DataFrame) : Prop :=
  Forall (λ ir, cell ir.2 "reason" = PyStr (categorize_unclean ir.2))
    (rows df).

(** Every answer is a string without leading or trailing whitespace, as
    [clean_text] returns them. *)
Definition answers_normalised (l : list (nat * gmap string pyval)) : Prop :=
  Forall (λ ir, ∃ a, ir.2 !! "answer" = Some (PyStr a) ∧ strip a = a) l.

(** * Properties *)

(** ** Characters and the string primitives *)

(** The characters of the entity pattern and the replacement character
    lie in different classes. *)
Lemma separator_classes :
  isword amp = false ∧ isword semi = false ∧ isword space = false
  ∧ isspace amp = false ∧ isspace semi = false ∧ isspace space = true.
Proof. by repeat split. Qed.

Lemma str_length_ind (P : str → Prop) :
  (∀ s, (∀ t, (length t < length s)%nat → P t) → P s) → ∀ s, P s.
Proof.
  intros step s. remember (length s) as n eqn:Hn.
  revert s Hn. induction n as [n IH] using lt_wf_ind.
  intros s ->. apply step. intros t Ht. by apply (IH (length t)).
Qed.

Lemma drop_while_suffix p (s : str) : drop_while p s `suffix_of` s.
Proof.
  induction s as [|c r IH]; simpl; [done|].
  destruct (p c); [by apply suffix_cons_r | done].
Qed.

Lemma drop_while_head p (s : str) c r :
  drop_while p s = c :: r → p c = false.
Proof.
  induction s as [|d s IH]; simpl; [done|].
  destruct (p d) eqn:Hd; [done|]. by intros [= <- _].
Qed.

Lemma drop_while_id p (s : str) :
  match s with [] => True | c :: _ => p c = false end → drop_while p s = s.
Proof. destruct s as [|c r]; simpl; [done|]. by intros ->. Qed.

Lemma rstrip_prefix (s : str) : rstrip s `prefix_of` s.
Proof.
  unfold rstrip. destruct (drop_while_suffix isspace (rev s)) as [k Hk].
  exists (rev k). rewrite <- rev_app_distr, <- Hk. by rewrite rev_involutive.
Qed.

Lemma rstrip_last (s r : str) c : rstrip s = r ++ [c] → isspace c = false.
Proof.
  unfold rstrip. intros H.
  apply (f_equal (@rev N)) in H. rewrite rev_involutive, rev_unit in H.
  by apply drop_while_head in H.
Qed.

Lemma lstrip_id (s : str) :
  match s with [] => True | c :: _ => isspace c = false end → lstrip s = s.
Proof. apply drop_while_id. Qed.

Lemma rstrip_id (s : str) :
  (∀ r c, s = r ++ [c] → isspace c = false) → rstrip s = s.
Proof.
  intros H. unfold rstrip. rewrite drop_while_id; [apply rev_involutive|].
  destruct (rev s) as [|c r] eqn:E; [done|].
  apply (H (rev r)). by rewrite <- (rev_involutive s), E.
Qed.

(** ** [re.sub] *)

Lemma re_sub_fuel_enough m repl : progresses m →
  ∀ n k s, (length s ≤ n)%nat → (length s ≤ k)%nat →
    re_sub_fuel m repl n s = re_sub_fuel m repl k s.
Proof.
  intros Hm. induction n as [|n IH]; intros [|k] [|c r] Hn Hk;
    simpl in *; try done; try lia.
  destruct (m (c :: r)) as [rest|] eqn:E.
  - apply Hm in E as [_ E]. simpl in E. f_equal. apply IH; lia.
  - f_equal. apply IH; lia.
Qed.

Lemma re_sub_cons m repl c r : progresses m →
  re_sub m repl (c :: r) =
    match m (c :: r) with
    | Some rest => repl ++ re_sub m repl rest
    | None => c :: re_sub m repl r
    end.
Proof.
  intros Hm. unfold re_sub at 1. simpl.
  destruct (m (c :: r)) as [rest|] eqn:E.
  - apply Hm in E as [_ E]. simpl in E. f_equal.
    apply re_sub_fuel_enough; [done|lia|done].
  - done.
Qed.

Lemma word_run_semi_suffix s rest :
  word_run_semi s = Some rest → rest `suffix_of` s ∧ (length rest < length s)%nat.
Proof.
  induction s as [|c r IH]; simpl; [done|].
  destruct (isword c).
  - intros [H1 H2]%IH. split; [by apply suffix_cons_r | lia].
  - destruct (c =? semi); [|done]. intros [= ->].
    split; [by apply suffix_cons_r | lia].
Qed.

Lemma match_entity_progresses : progresses match_entity.
Proof.
  intros [|a [|c r]] rest; simpl; try done.
  destruct ((a =? amp) && isword c); [|done].
  intros [H1 H2]%word_run_semi_suffix.
  split; [by do 2 apply suffix_cons_r | simpl; lia].
Qed.

Lemma match_spaces_progresses : progresses match_spaces.
Proof.
  intros [|c r] rest; simpl; [done|].
  destruct (isspace c); [|done]. intros [= <-].
  pose proof (drop_while_suffix isspace r) as H. split.
  - by apply suffix_cons_r.
  - apply suffix_length in H. simpl. lia.
Qed.

(** ** HTML entities *)

Lemma word_run_semi_words w post :
  Forall (λ c, isword c = true) w →
  word_run_semi (w ++ semi :: post) = Some post.
Proof.
  induction 1 as [|c w Hc _ IH]; [reflexivity|].
  simpl. by rewrite Hc.
Qed.

Lemma match_entity_complete e post :
  entity e → match_entity (e ++ post) = Some post.
Proof.
  intros (w & -> & Hne & Hw). destruct Hw as [|c w Hc Hw]; [done|].
  change (match_entity ((amp :: (c :: w) ++ [semi]) ++ post))
    with (if (amp =? amp) && isword c
          then word_run_semi ((w ++ [semi]) ++ post) else None).
  rewrite N.eqb_refl, Hc. simpl.
  rewrite <- app_assoc. by apply word_run_semi_words.
Qed.

Lemma word_run_semi_sound s rest :
  word_run_semi s = Some rest →
  ∃ w, s = w ++ semi :: rest ∧ Forall (λ c, isword c = true) w.
Proof.
  induction s as [|c r IH]; simpl; [done|].
  destruct (isword c) eqn:Hc.
  - intros (w & -> & Hw)%IH. exists (c :: w). by split; [|constructor].
  - destruct (c =? semi) eqn:E; [|done]. intros [= ->].
    apply N.eqb_eq in E as ->. by exists [].
Qed.

Lemma match_entity_sound s rest :
  match_entity s = Some rest → ∃ e, s = e ++ rest ∧ entity e.
Proof.
  destruct s as [|a [|c r]]; simpl; try done.
  destruct (a =? amp) eqn:Ea; [|done]. destruct (isword c) eqn:Hc; [|done].
  simpl. intros (w & -> & Hw)%word_run_semi_sound.
  apply N.eqb_eq in Ea as ->.
  exists (amp :: (c :: w) ++ [semi]). split.
  - simpl. by rewrite <- app_assoc.
  - exists (c :: w). by repeat split; [|constructor].
Qed.

Lemma entity_free_spec s : entity_free s ↔ ¬ contains_entity s.
Proof.
  split.
  - intros Hfree (pre & e & post & -> & He).
    specialize (Hfree pre (e ++ post) eq_refl).
    by rewrite (match_entity_complete _ _ He) in Hfree.
  - intros Hno pre suf ->.
    destruct (match_entity suf) as [rest|] eqn:E; [|done].
    apply match_entity_sound in E as (e & -> & He).
    destruct Hno. by exists pre, e, rest.
Qed.

Lemma entity_free_nil : entity_free [].
Proof. by intros [|? ?] [|? ?]. Qed.

Lemma entity_free_cons c s :
  entity_free (c :: s) ↔ match_entity (c :: s) = None ∧ entity_free s.
Proof.
  split.
  - intros H. split; [by apply (H [])|].
    intros pre suf ->. by apply (H (c :: pre)).
  - intros [H1 H2] [|d pre] suf E; simpl in E.
    + by subst.
    + injection E as -> ->. by apply (H2 pre).
Qed.

Lemma entity_free_suffix s t : t `suffix_of` s → entity_free s → entity_free t.
Proof.
  intros [k ->] H pre suf ->. apply (H (k ++ pre)). by rewrite app_assoc.
Qed.

Lemma word_run_semi_app s rest x :
  word_run_semi s = Some rest → word_run_semi (s ++ x) = Some (rest ++ x).
Proof.
  induction s as [|c r IH]; simpl; [done|].
  destruct (isword c); [done|]. destruct (c =? semi); [|done]. by intros [= ->].
Qed.

Lemma match_entity_app s rest x :
  match_entity s = Some rest → match_entity (s ++ x) = Some (rest ++ x).
Proof.
  destruct s as [|a [|c r]]; simpl; try done.
  destruct ((a =? amp) && isword c); [|done]. apply word_run_semi_app.
Qed.

Lemma entity_free_prefix s t : t `prefix_of` s → entity_free s → entity_free t.
Proof.
  intros [k ->] H pre suf ->.
  destruct (match_entity suf) as [rest|] eqn:E; [|done].
  apply (match_entity_app _ _ k) in E.
  by rewrite (H pre (suf ++ k)) in E; [|by rewrite app_assoc].
Qed.

Lemma match_entity_not_amp c s : c ≠ amp → match_entity (c :: s) = None.
Proof.
  intros Hc. destruct s as [|d r]; [done|]. simpl.
  by apply N.eqb_neq in Hc as ->.
Qed.

(** Replacing matches of any pattern by a space creates no entity: the
    space is neither [&], nor [;], nor a word character. *)
Section sub_space.
Variable m : str → option str.
Hypothesis m_progresses : progresses m.

Lemma word_run_semi_sub s :
  word_run_semi s = None → word_run_semi (re_sub m (py " ") s) = None.
Proof using m_progresses.
  induction s as [|c r IH]; [done|].
  rewrite re_sub_cons by done. destruct (m (c :: r)); [done|].
  simpl. destruct (isword c); [done|]. by destruct (c =? semi).
Qed.

Lemma match_entity_sub c s :
  match_entity (c :: s) = None →
  match_entity (c :: re_sub m (py " ") s) = None.
Proof using m_progresses.
  destruct s as [|d r]; [done|].
  rewrite re_sub_cons by done. destruct (m (d :: r)).
  - intros _. simpl. by rewrite andb_false_r.
  - simpl. destruct ((c =? amp) && isword d); [|done].
    apply word_run_semi_sub.
Qed.

Lemma entity_free_sub s :
  (∀ pre suf, s = pre ++ suf → m suf = None → match_entity suf = None) →
  entity_free (re_sub m (py " ") s).
Proof using m_progresses.
  induction s as [s IH] using str_length_ind. intros Hs.
  destruct s as [|c r]; [apply entity_free_nil|].
  rewrite re_sub_cons by done.
  destruct (m (c :: r)) as [rest|] eqn:E.
  - apply m_progresses in E as [[k Hk] Hlen].
    apply entity_free_cons. split; [by apply match_entity_not_amp|].
    apply IH; [done|]. intros pre suf -> Hsuf.
    apply (Hs (k ++ pre)); [|done]. by rewrite Hk, app_assoc.
  - apply entity_free_cons. split.
    + apply match_entity_sub. by apply (Hs []).
    + apply IH; [simpl; lia|]. intros pre suf -> Hsuf.
      by apply (Hs (c :: pre)).
Qed.

End sub_space.

(** ** Whitespace *)

Lemma starts_black_sub_spaces s :
  starts_black s → starts_black (re_sub match_spaces (py " ") s).
Proof.
  destruct s as [|c r]; [done|]. simpl. intros Hc.
  rewrite re_sub_cons by apply match_spaces_progresses.
  simpl. by rewrite Hc.
Qed.

Lemma starts_black_drop_while s : starts_black (drop_while isspace s).
Proof.
  destruct (drop_while isspace s) as [|c r] eqn:E; [done|].
  simpl. by apply drop_while_head in E.
Qed.

Lemma single_spaced_sub_spaces s :
  single_spaced (re_sub match_spaces (py " ") s).
Proof.
  induction s as [s IH] using str_length_ind.
  destruct s as [|c r]; [done|].
  rewrite re_sub_cons by apply match_spaces_progresses.
  simpl. destruct (isspace c) eqn:Hc.
  - change (py " " ++ ?x) with (space :: x). simpl. split.
    + intros _. split; [done|].
      apply starts_black_sub_spaces, starts_black_drop_while.
    + apply IH. pose proof (drop_while_suffix isspace r) as H.
      apply suffix_length in H. simpl. lia.
  - simpl. split; [by rewrite Hc|]. apply IH. simpl. lia.
Qed.

Lemma single_spaced_suffix s t :
  t `suffix_of` s → single_spaced s → single_spaced t.
Proof.
  intros [k ->]. induction k as [|c k IH]; [done|]. simpl. intros [_ H]. auto.
Qed.

Lemma starts_black_prefix (s k : str) : starts_black (s ++ k) → starts_black s.
Proof. by destruct s. Qed.

Lemma single_spaced_prefix s t :
  t `prefix_of` s → single_spaced s → single_spaced t.
Proof.
  intros [k ->]. induction t as [|c t IH]; [done|]. simpl.
  intros [H1 H2]. split; [|auto].
  intros Hc. destruct (H1 Hc) as [-> Hb]. eauto using starts_black_prefix.
Qed.

Lemma single_spaced_no_run s : single_spaced s → ¬ has_space_run s.
Proof.
  intros Hs (pre & a & b & post & -> & Ha & Hb).
  apply (single_spaced_suffix _ (a :: b :: post)) in Hs; [|by eexists].
  destruct Hs as [Hs _]. destruct (Hs Ha) as [_ Hs']. simpl in Hs'. congruence.
Qed.

Lemma sub_entity_id s : entity_free s → re_sub match_entity (py " ") s = s.
Proof.
  induction s as [|c r IH]; [done|].
  intros [H1 H2]%entity_free_cons.
  rewrite re_sub_cons by apply match_entity_progresses.
  rewrite H1. f_equal. auto.
Qed.

Lemma sub_spaces_id s : single_spaced s → re_sub match_spaces (py " ") s = s.
Proof.
  induction s as [|c r IH]; [done|]. simpl. intros [H1 H2].
  rewrite re_sub_cons by apply match_spaces_progresses.
  simpl. destruct (isspace c); [|f_equal; auto].
  destruct H1 as [-> Hr]; [done|].
  rewrite drop_while_id by done. change (py " " ++ ?x) with (space :: x).
  f_equal. auto.
Qed.

(** *** [strip] *)

Lemma strip_no_leading s : ¬ has_leading_space (strip s).
Proof.
  intros (c & r & E & Hc). unfold strip in E.
  destruct (rstrip_prefix (lstrip s)) as [k Hk]. rewrite E in Hk.
  apply drop_while_head in Hk. congruence.
Qed.

Lemma strip_no_trailing s : ¬ has_trailing_space (strip s).
Proof. intros (r & c & E & Hc). apply rstrip_last in E. congruence. Qed.

Lemma strip_id s :
  ¬ has_leading_space s → ¬ has_trailing_space s → strip s = s.
Proof.
  intros Hl Ht. unfold strip. rewrite lstrip_id.
  - apply rstrip_id. intros r c ->.
    destruct (isspace c) eqn:Hc; [|done]. destruct Ht. by exists r, c.
  - destruct s as [|c r]; [done|].
    destruct (isspace c) eqn:Hc; [|done]. destruct Hl. by exists c, r.
Qed.

Lemma strip_entity_free s : entity_free s → entity_free (strip s).
Proof.
  intros H. apply (entity_free_prefix (lstrip s)); [apply rstrip_prefix|].
  by apply (entity_free_suffix s); [apply drop_while_suffix|].
Qed.

Lemma strip_single_spaced s : single_spaced s → single_spaced (strip s).
Proof.
  intros H. apply (single_spaced_prefix (lstrip s)); [apply rstrip_prefix|].
  by apply (single_spaced_suffix s); [apply drop_while_suffix|].
Qed.

(** ** [clean_text] *)

Lemma clean_text_entity_free text : entity_free (clean_text text).
Proof.
  destruct text as [[|c r]|]; try apply entity_free_nil.
  unfold clean_text, is_empty.
  apply strip_entity_free, entity_free_sub; [apply match_spaces_progresses|].
  intros pre suf E _. revert pre suf E.
  apply entity_free_sub; [apply match_entity_progresses | done].
Qed.

Lemma clean_text_single_spaced text : single_spaced (clean_text text).
Proof.
  destruct text as [[|c r]|]; try done.
  apply strip_single_spaced, single_spaced_sub_spaces.
Qed.

Lemma clean_text_no_leading text : ¬ has_leading_space (clean_text text).
Proof.
  destruct text as [[|c r]|]; try by intros (? & ? & ? & ?).
  apply strip_no_leading.
Qed.

Lemma clean_text_no_trailing text : ¬ has_trailing_space (clean_text text).
Proof.
  destruct text as [[|c r]|]; try by intros ([|? ?] & ? & ? & ?).
  apply strip_no_trailing.
Qed.

Lemma clean_text_stripped text : strip (clean_text text) = clean_text text.
Proof.
  apply strip_id; [apply clean_text_no_leading | apply clean_text_no_trailing].
Qed.

(** C8: whatever the input — a string or [None], which gives the empty
    string — the text returned by [clean_text] contains no match of the
    entity pattern [&\w+;], no two adjacent whitespace characters, and
    neither starts nor ends with a whitespace character. *)
Theorem clean_text_normal_form (text : option str) :
  clean_text None = []
  ∧ ¬ contains_entity (clean_text text)
  ∧ ¬ has_space_run (clean_text text)
  ∧ ¬ has_leading_space (clean_text text)
  ∧ ¬ has_trailing_space (clean_text text).
Proof.
  split; [done|]. split; [|split; [|split]].
  - apply entity_free_spec, clean_text_entity_free.
  - apply single_spaced_no_run, clean_text_single_spaced.
  - apply clean_text_no_leading.
  - apply clean_text_no_trailing.
Qed.

(** C3: [clean_text] is idempotent,
    [clean_text(clean_text(s)) == clean_text(s)] for every string [s]. *)
Theorem clean_text_idempotent (s : str) :
  clean_text (Some (clean_text (Some s))) = clean_text (Some s).
Proof.
  set (t := clean_text (Some s)).
  unfold clean_text at 1. destruct (is_empty t) eqn:E.
  - by destruct t.
  - rewrite sub_entity_id by apply clean_text_entity_free.
    rewrite sub_spaces_id by apply clean_text_single_spaced.
    apply clean_text_stripped.
Qed.

(** ** [categorize_unclean] *)

Lemma malformed_url_decide row :
  match get row "url" (PyStr empty_str) with
  | PyStr u => negb (startswith u (py "https"))
  | _ => true
  end = true ↔ malformed_url row.
Proof.
  unfold malformed_url. destruct (get row "url" _) as [| |u]; [done..|].
  rewrite negb_true_iff. split; [by intros H ? [= <-] | auto].
Qed.

Lemma reasons_distinct : NoDup reasons.
Proof. apply (bool_decide_unpack _). by vm_compute. Qed.

Lemma categorize_unclean_cases (row : record) :
  (no_answer row ∧ categorize_unclean row = py "No Answer")
  ∨ (¬ no_answer row ∧ malformed_url row
     ∧ categorize_unclean row = py "Malformed Entry")
  ∨ (¬ no_answer row ∧ ¬ malformed_url row ∧ too_short row
     ∧ categorize_unclean row = py "Too Short")
  ∨ (¬ no_answer row ∧ ¬ malformed_url row ∧ ¬ too_short row
     ∧ categorize_unclean row = py "Other").
Proof.
  pose proof (malformed_url_decide row) as Hurl.
  unfold categorize_unclean, too_short, no_answer, trimmed_answer in *.
  case_bool_decide as Hna; [by left|right].
  destruct (match get row "url" (PyStr empty_str) with
            | PyStr u => negb (startswith u (py "https"))
            | _ => true
            end).
  { left. by repeat split; [|apply Hurl]. }
  right. assert (¬ malformed_url row) as Hwf by (rewrite <- Hurl; discriminate).
  destruct (Z.ltb_spec (Z.of_nat (length (strip (py_str
              (get row "answer" (PyStr empty_str)))))) MIN_ANSWER_LEN).
  - by left.
  - right. split; [done|]. split; [done|]. split; [lia|done].
Qed.

Ltac reason_iff :=
  split;
  [ let H := fresh in
    intros H; try (vm_compute in H; discriminate H); tauto
  | intros ?; try reflexivity; tauto ].

(** C1: the classifier returns one of the four reasons, and which one is
    decided by the first rule that applies: ["No Answer"] when the trimmed,
    lowercased answer is empty, ["none"] or ["nan"]; otherwise
    ["Malformed Entry"] when the url is not a string or does not begin with
    ["https"]; otherwise ["Too Short"] when the trimmed answer is shorter
    than the configured minimum (15 when the configuration gives none);
    otherwise ["Other"].  The record
    with url ["https://x"], an empty answer and question ["q"] gets
    ["No Answer"]. *)
Theorem categorize_unclean_first_match (row : record) :
  categorize_unclean row ∈ reasons
  ∧ NoDup reasons
  ∧ (categorize_unclean row = py "No Answer" ↔ no_answer row)
  ∧ (categorize_unclean row = py "Malformed Entry" ↔
       ¬ no_answer row ∧ malformed_url row)
  ∧ (categorize_unclean row = py "Too Short" ↔
       ¬ no_answer row ∧ ¬ malformed_url row ∧ too_short row)
  ∧ (categorize_unclean row = py "Other" ↔
       ¬ no_answer row ∧ ¬ malformed_url row ∧ ¬ too_short row)
  ∧ (min_answer_length config = None → MIN_ANSWER_LEN = 15%Z)
  ∧ categorize_unclean
      {[ "url" := PyStr (py "https://x"); "answer" := PyStr empty_str;
         "question" := PyStr (py "q") ]} = py "No Answer".
Proof.
  assert (∀ x : str, x ∈ reasons ↔
            x = py "No Answer" ∨ x = py "Malformed Entry"
            ∨ x = py "Too Short" ∨ x = py "Other") as Hin.
  { intros x. unfold reasons. rewrite !elem_of_cons, elem_of_nil. tauto. }
  split.
  { apply Hin.
    destruct (categorize_unclean_cases row)
      as [(_ & E)|[(_ & _ & E)|[(_ & _ & _ & E)|(_ & _ & _ & E)]]]; tauto. }
  split; [apply reasons_distinct|].
  do 4 (split;
    [destruct (categorize_unclean_cases row)
       as [(H1 & E)|[(H1 & H2 & E)|[(H1 & H2 & H3 & E)|(H1 & H2 & H3 & E)]]];
     rewrite E; reason_iff|]).
  split; [unfold MIN_ANSWER_LEN; by intros ->|].
  by vm_compute.
Qed.

Lemma categorize_unclean_insert (row : record) (k : string) v :
  k ≠ "answer" → k ≠ "url" →
  categorize_unclean (<[k := v]> row) = categorize_unclean row.
Proof.
  intros Ha Hu. unfold categorize_unclean, get.
  by rewrite !lookup_insert_ne.
Qed.

(** C9: the classifier reads the [answer] and [url] fields only.  Two
    records with the same [answer] and the same [url] (each present with
    that value, or absent in both) get the same reason, whatever their
    [question], [body] or other fields are and whether they have them. *)
Theorem categorize_unclean_answer_url_only (r1 r2 : record) :
  r1 !! "answer" = r2 !! "answer" →
  r1 !! "url" = r2 !! "url" →
  categorize_unclean r1 = categorize_unclean r2.
Proof.
  intros Ha Hu. unfold categorize_unclean, get. by rewrite Ha, Hu.
Qed.

(** C10: a record whose [answer] is present and [None] is classified
    ["No Answer"]: [str(None)] is ["None"], not the empty string, and its
    trimmed,
    lowercased form is the literal ["none"] of the first rule. *)
Theorem categorize_unclean_none_answer (row : record) :
  row !! "answer" = Some PyNone →
  categorize_unclean row = py "No Answer"
  ∧ py_str PyNone = py "None"
  ∧ py_str PyNone ≠ empty_str
  ∧ lower (strip (py_str PyNone)) = py "none".
Proof.
  intros H. unfold categorize_unclean, get. rewrite H. by vm_compute.
Qed.

(** ** [drop_duplicates] *)

Lemma first_occurrences_snoc key seen l x :
  first_occurrences key seen (l ++ [x]) =
    first_occurrences key seen l ++
      (if bool_decide (key x.2 ∈ seen ++ ((λ ir, key ir.2) <$> l))
       then [] else [x]).
Proof.
  revert seen. induction l as [|y l IH]; intros seen.
  { simpl. rewrite app_nil_r. by case_bool_decide. }
  rewrite fmap_cons. simpl.
  destruct (bool_decide (key y.2 ∈ seen)) eqn:Hy; rewrite IH; simpl;
    match goal with
    | |- context [bool_decide ?P] =>
        match goal with
        | |- _ = ?rhs =>
            match rhs with
            | context [bool_decide ?Q] => rewrite (bool_decide_ext P Q); [done|]
            end
        end
    end; repeat (rewrite elem_of_app || rewrite elem_of_cons).
  - apply bool_decide_eq_true_1 in Hy. intuition congruence.
  - tauto.
Qed.

Lemma first_occurrences_sublist key seen l :
  first_occurrences key seen l `sublist_of` l.
Proof.
  revert seen. induction l as [|y l IH]; intros seen; simpl; [done|].
  case_bool_decide; [by apply sublist_cons | by apply sublist_skip].
Qed.

Lemma first_occurrences_fresh key seen l ir :
  ir ∈ first_occurrences key seen l → key ir.2 ∉ seen.
Proof.
  revert seen. induction l as [|y l IH]; intros seen; simpl.
  { by intros ?%elem_of_nil. }
  case_bool_decide as Hy; [by auto|].
  intros [->|Hin]%elem_of_cons; [done|]. apply IH in Hin.
  by apply not_elem_of_cons in Hin as [_ ?].
Qed.

Lemma first_occurrences_NoDup key seen l :
  NoDup ((λ ir, key ir.2) <$> first_occurrences key seen l).
Proof.
  revert seen. induction l as [|y l IH]; intros seen; simpl.
  { apply NoDup_nil_2. }
  case_bool_decide as Hy; [done|]. rewrite fmap_cons.
  apply NoDup_cons. split; [|done].
  intros (ir & E & Hin%first_occurrences_fresh)%list_elem_of_fmap.
  apply Hin. rewrite <- E. by left.
Qed.

Lemma empty_columns (df : DataFrame) (col : string) :
  col ∈ columns df → empty_frame df = match rows df with [] => true | _ => false end.
Proof.
  intros Hcol. unfold empty_frame. rewrite bool_decide_eq_false_2, orb_false_r; [done|].
  intros E. rewrite E in Hcol. by apply not_elem_of_empty in Hcol.
Qed.

(** On a frame with the column, empty or not, [drop_duplicates] returns
    the rows of the keep-first scan. *)
Lemma drop_duplicates_column (col : string) (df : DataFrame) :
  col ∈ columns df →
  drop_duplicates col df =
    Ok {| columns := columns df;
          rows := first_occurrences (λ r, cell r col) [] (rows df) |}.
Proof.
  intros Hcol. unfold drop_duplicates. rewrite (empty_columns df col Hcol).
  destruct df as [cols [|ir l]]; cbn [rows columns] in *; [done|].
  by rewrite bool_decide_eq_true_2.
Qed.

(** C5: [drop_duplicates(subset=["url"])] keeps a record exactly when no
    record before it has the same url: the first record of each url stays,
    later ones are dropped, and the records kept are records of the input,
    unchanged and in their original order.  On
    [[{url: "a"}, {url: "b"}, {url: "a"}]] it leaves
    [[{url: "a"}, {url: "b"}]]. *)
Theorem drop_duplicates_keeps_first :
  (∀ df, "url" ∈ columns df →
     drop_duplicates "url" df =
       Ok {| columns := columns df; rows := deduplicated (rows df) |})
  ∧ deduplicated [] = []
  ∧ (∀ l x, deduplicated (l ++ [x]) =
       deduplicated l ++
         (if bool_decide (url_of x ∈ url_of <$> l) then [] else [x]))
  ∧ (∀ l, deduplicated l `sublist_of` l)
  ∧ (∀ l, NoDup (url_of <$> deduplicated l))
  ∧ drop_duplicates "url"
      (make_frame [ {[ "url" := PyStr (py "a") ]};
                    {[ "url" := PyStr (py "b") ]};
                    {[ "url" := PyStr (py "a") ]} ]) =
      Ok {| columns := {[ "url" ]};
            rows := [ (0%nat, {[ "url" := PyStr (py "a") ]});
                      (1%nat, {[ "url" := PyStr (py "b") ]}) ] |}.
Proof.
  split; [|split; [|split; [|split; [|split]]]].
  - intros df Hdf. by apply drop_duplicates_column.
  - done.
  - intros l x. apply (first_occurrences_snoc (λ r, cell r "url") []).
  - intros l. apply first_occurrences_sublist.
  - intros l. apply (first_occurrences_NoDup (λ r, cell r "url") []).
  - by vm_compute.
Qed.

(** ** The partition into clean and unclean rows *)

Lemma elem_of_select {A} (f : A → bool) (l : list A) x :
  x ∈ List.filter f l ↔ x ∈ l ∧ f x = true.
Proof. rewrite !list_elem_of_In. apply filter_In. Qed.

Lemma index_label_unique (l : list (nat * gmap string pyval)) ir ir' :
  NoDup (l.*1) → ir ∈ l → ir' ∈ l → ir.1 = ir'.1 → ir = ir'.
Proof.
  induction l as [|x l IH]; simpl; [by intros _ ?%elem_of_nil|].
  intros [Hx Hl]%NoDup_cons [->|H1]%elem_of_cons [->|H2]%elem_of_cons E;
    [done| | |by apply IH].
  - destruct Hx. rewrite E. by apply list_elem_of_fmap_2.
  - destruct Hx. rewrite <- E. by apply list_elem_of_fmap_2.
Qed.

(** With unique index labels, excluding the labels of the selected rows
    is the same as negating the mask. *)
Lemma isin_selected (f : nat * gmap string pyval → bool) l ir :
  NoDup (l.*1) → ir ∈ l → isin ir.1 ((List.filter f l).*1) = f ir.
Proof.
  intros Hl Hir. unfold isin. destruct (f ir) eqn:E.
  - apply bool_decide_eq_true_2, list_elem_of_fmap_2. by apply elem_of_select.
  - apply bool_decide_eq_false_2.
    intros (ir' & E' & [Hin Hf]%elem_of_select)%list_elem_of_fmap.
    assert (ir = ir') as <- by by apply (index_label_unique l). congruence.
Qed.

Lemma select_complement (f : nat * gmap string pyval → bool) l :
  NoDup (l.*1) →
  List.filter (λ ir, negb (isin ir.1 ((List.filter f l).*1))) l =
  List.filter (λ ir, negb (f ir)) l.
Proof.
  intros Hl. apply filter_ext_in. intros ir Hir%list_elem_of_In.
  by rewrite isin_selected.
Qed.

Lemma filter_split {A} (f : A → bool) (l : list A) :
  List.filter f l ++ List.filter (λ x, negb (f x)) l ≡ₚ l.
Proof.
  induction l as [|x l IH]; simpl; [done|]. destruct (f x); simpl.
  - by f_equiv.
  - rewrite <- Permutation_middle. by f_equiv.
Qed.

Lemma partition_rows (df : DataFrame) :
  NoDup (index df) → "reason" ∈ columns df → "answer" ∈ columns df →
  partition df =
    Ok ({| columns := columns df;
            rows := List.filter (λ ir, clean_mask ir.2) (rows df) |},
        {| columns := columns df;
            rows := List.filter (λ ir, negb (clean_mask ir.2)) (rows df) |}).
Proof.
  intros Hidx Hr Ha. unfold partition, select, index. simpl.
  rewrite !bool_decide_eq_true_2 by done. simpl.
  by rewrite (select_complement (λ ir, clean_mask ir.2)).
Qed.

(** C2: on a frame of classified records with pairwise different index
    labels, the partition step returns a clean and an unclean frame such
    that every record of the input is in one of them, no record is in
    both, and together they hold the records of the input, each as often
    as the input does. *)
Theorem partition_exhaustive_disjoint (df : DataFrame) :
  NoDup (index df) → "reason" ∈ columns df → "answer" ∈ columns df →
  ∃ clean_df unclean_df,
    partition df = Ok (clean_df, unclean_df)
    ∧ (∀ ir, ir ∈ rows df ↔ ir ∈ rows clean_df ∨ ir ∈ rows unclean_df)
    ∧ (∀ ir, ¬ (ir ∈ rows clean_df ∧ ir ∈ rows unclean_df))
    ∧ rows clean_df ++ rows unclean_df ≡ₚ rows df.
Proof.
  intros Hidx Hr Ha. eexists _, _. split; [by apply partition_rows|]. simpl.
  split; [|split].
  - intros ir. rewrite !elem_of_select. destruct (clean_mask ir.2); simpl.
    + split; [by left | by intros [[? _]|[_ ?]]].
    + split; [by right | by intros [[_ ?]|[? _]]].
  - intros ir. rewrite !elem_of_select.
    destruct (clean_mask ir.2); simpl; by intros [[_ ?] [_ ?]].
  - apply (filter_split (λ ir, clean_mask ir.2)).
Qed.

Lemma strip_length s : (length (strip s) ≤ length s)%nat.
Proof.
  unfold strip. pose proof (rstrip_prefix (lstrip s)) as H1%prefix_length.
  pose proof (drop_while_suffix isspace s) as H2%suffix_length.
  unfold lstrip in *. lia.
Qed.

Lemma cell_get (r : record) k a d : cell r k = PyStr a → get r k d = PyStr a.
Proof. unfold cell, get. destruct (r !! k); simpl; [done|discriminate]. Qed.

(** The mask of Step 5 as the code writes it: the length compared with
    the threshold is that of the answer as stored. *)
Lemma clean_mask_literal (r : record) :
  clean_mask r = true ↔
    cell r "reason" = PyStr (py "Other")
    ∧ ∃ a, cell r "answer" = PyStr a
           ∧ strip a ≠ empty_str
           ∧ (MIN_ANSWER_LEN ≤ Z.of_nat (length a))%Z.
Proof.
  unfold clean_mask. rewrite !andb_true_iff. split.
  - intros [[[Hr _] Hs] Hl].
    destruct (cell r "reason") as [| |t]; [done..|].
    destruct (cell r "answer") as [| |a]; [done..|].
    apply bool_decide_eq_true_1 in Hr as ->. split; [done|]. exists a.
    split; [done|]. split; [by apply bool_decide_eq_true_1 in Hs|].
    by apply Z.leb_le.
  - intros [-> (a & -> & Hs & Hl)]. simpl.
    rewrite !bool_decide_eq_true_2 by done. repeat split. by apply Z.leb_le.
Qed.

Lemma clean_mask_spec (r : record) :
  cell r "reason" = PyStr (categorize_unclean r) →
  clean_mask r = true ↔ passes_recheck r.
Proof.
  intros Hcl. unfold clean_mask, passes_recheck.
  rewrite !andb_true_iff. split.
  - intros [[[Hr Hn] Hs] Hl]. destruct (cell r "answer") as [| |a] eqn:Ea;
      [done..|].
    destruct (cell r "reason") as [| |t] eqn:Er; [done..|].
    apply bool_decide_eq_true_1 in Hr as ->. split; [done|].
    exists a. split; [done|]. split; [by apply bool_decide_eq_true_1 in Hs|].
    injection Hcl as Hcl. symmetry in Hcl.
    destruct (categorize_unclean_cases r)
      as [(_ & E)|[(_ & _ & E)|[(_ & _ & _ & E)|(_ & _ & H & _)]]];
      try (rewrite E in Hcl; vm_compute in Hcl; discriminate Hcl).
    unfold too_short, trimmed_answer in H.
    rewrite (cell_get _ _ a) in H by done. simpl in H. lia.
  - intros [Hr (a & Ea & Hne & Hlen)]. rewrite Hr, Ea. simpl.
    rewrite !bool_decide_eq_true_2 by done.
    repeat split. apply Z.leb_le. pose proof (strip_length a). lia.
Qed.

Lemma clean_mask_passes (r : record) : clean_mask r = true ↔ passes_mask r.
Proof. apply clean_mask_literal. Qed.

Lemma passes_mask_recheck (r : record) :
  answer_trimmed r → passes_mask r ↔ passes_recheck r.
Proof.
  intros Htrim. unfold passes_mask, passes_recheck.
  split; intros [Hr (a & Ha & Hne & Hlen)]; (split; [exact Hr|]);
    exists a; (split; [exact Ha|]); (split; [exact Hne|]).
  - by rewrite (Htrim a Ha).
  - by rewrite (Htrim a Ha) in Hlen.
Qed.

(** C4: the clean frame holds exactly the records that pass the test of
    Step 5, whatever their reason tag is, and the unclean frame holds the
    others.  The test compares the length of the answer as stored.  For a
    record whose answer is trimmed, as the answers of normalised records
    are, it is the rule of the specification: the reason is ["Other"],
    the answer is not null, is not empty after trimming, and after
    trimming is at least as long as the threshold.  A record tagged
    ["Other"] that fails the rule is in the unclean frame. *)
Theorem partition_clean_rule (df : DataFrame) :
  NoDup (index df) → "reason" ∈ columns df → "answer" ∈ columns df →
  ∃ clean_df unclean_df,
    partition df = Ok (clean_df, unclean_df)
    ∧ (∀ ir, ir ∈ rows clean_df ↔ ir ∈ rows df ∧ passes_mask ir.2)
    ∧ (∀ ir, ir ∈ rows unclean_df ↔ ir ∈ rows df ∧ ¬ passes_mask ir.2)
    ∧ (∀ ir, answer_trimmed ir.2 →
         (ir ∈ rows clean_df ↔ ir ∈ rows df ∧ passes_recheck ir.2)
         ∧ (ir ∈ rows unclean_df ↔ ir ∈ rows df ∧ ¬ passes_recheck ir.2)).
Proof.
  intros Hidx Hr Ha. eexists _, _. split; [by apply partition_rows|].
  cbn [rows fst snd].
  assert (∀ ir : nat * gmap string pyval,
            ir ∈ List.filter (λ ir, clean_mask ir.2) (rows df)
            ↔ ir ∈ rows df ∧ passes_mask ir.2) as Hclean.
  { intros ir. by rewrite elem_of_select, clean_mask_passes. }
  assert (∀ ir : nat * gmap string pyval,
            ir ∈ List.filter (λ ir, negb (clean_mask ir.2)) (rows df)
            ↔ ir ∈ rows df ∧ ¬ passes_mask ir.2) as Hunclean.
  { intros ir. rewrite elem_of_select, <- clean_mask_passes.
    destruct (clean_mask ir.2); cbn [negb];
      split; intros [Hin H]; (split; [exact Hin|]); [done|by destruct H|done|done]. }
  split; [exact Hclean|]. split; [exact Hunclean|].
  intros ir Htrim. rewrite Hclean, Hunclean.
  by rewrite (passes_mask_recheck ir.2 Htrim).
Qed.

(** ** The pipeline: normalise, deduplicate, classify, partition *)

Lemma make_frame_index data : index (make_frame data) = seq 0 (length data).
Proof.
  unfold index, make_frame. simpl. rewrite fmap_imap.
  rewrite (imap_ext _ (λ i _, id i)) by done.
  rewrite imap_seq_0. apply list_fmap_id.
Qed.

Lemma apply_column_index f col df : index (apply_column f col df) = index df.
Proof.
  unfold index, apply_column. simpl. rewrite <- list_fmap_compose.
  apply list_fmap_ext. by intros _ [i r] _.
Qed.

Lemma clean_column_index df col : index (clean_column df col) = index df.
Proof.
  unfold clean_column. case_bool_decide; [apply apply_column_index | done].
Qed.

Lemma clean_column_columns df col : columns (clean_column df col) = columns df.
Proof. unfold clean_column. by case_bool_decide. Qed.

Lemma clean_column_answer df :
  "answer" ∈ columns df →
  answers_normalised (rows (clean_column df "answer")).
Proof.
  intros H. unfold clean_column. rewrite bool_decide_eq_true_2 by done.
  unfold answers_normalised, apply_column. simpl.
  apply Forall_fmap, Forall_true. intros [i r].
  eexists. split; [apply lookup_insert_eq|].
  apply (clean_text_stripped (Some (py_str (cell r "answer")))).
Qed.

Lemma assign_apply_index col f df : index (assign_apply col f df) = index df.
Proof.
  unfold index, assign_apply. simpl. rewrite <- list_fmap_compose.
  apply list_fmap_ext. by intros _ [i r] _.
Qed.

Lemma assign_reason_classified df :
  classified (assign_apply "reason" categorize_unclean df).
Proof.
  unfold classified, assign_apply. simpl.
  apply Forall_fmap, Forall_true. intros [i r]. simpl.
  unfold cell. rewrite lookup_insert_eq. simpl.
  by rewrite categorize_unclean_insert.
Qed.

Lemma assign_reason_answers df :
  answers_normalised (rows df) →
  answers_normalised (rows (assign_apply "reason" categorize_unclean df)).
Proof.
  unfold answers_normalised, assign_apply. simpl. intros H.
  apply Forall_fmap. eapply Forall_impl; [exact H|].
  intros [i r] (a & Ha & Hs). simpl in *. exists a.
  by rewrite lookup_insert_ne.
Qed.

Lemma Ok_inj {A} (a b : A) : Ok a = Ok b → a = b.
Proof. by intros [= ->]. Qed.

Lemma drop_duplicates_returns (col : string) (df df' : DataFrame) :
  drop_duplicates col df = Ok df' →
  columns df' = columns df ∧ rows df' `sublist_of` rows df.
Proof.
  unfold drop_duplicates. destruct (empty_frame df); [by intros [= <-]|].
  case_bool_decide; [|done]. intros [= <-]. split; [done|].
  apply first_occurrences_sublist.
Qed.

(** What Steps 2 to 4 establish. *)
Lemma classify_frame_spec data df :
  classify_frame (make_frame data) = Ok df →
  NoDup (index df)
  ∧ classified df
  ∧ "reason" ∈ columns df
  ∧ ("answer" ∈ columns df → answers_normalised (rows df)).
Proof.
  unfold classify_frame.
  change (foldl clean_column (make_frame data) ["question"; "body"; "answer"])
    with (clean_column (clean_column (clean_column (make_frame data)
            "question") "body") "answer").
  set (df1 := clean_column (make_frame data) "question").
  set (df2 := clean_column df1 "body").
  set (df3 := clean_column df2 "answer").
  destruct (drop_duplicates "url" df3) as [df4|] eqn:Edup; [|done].
  apply drop_duplicates_returns in Edup as [Hcols Hsub].
  intros <-%Ok_inj.
  split; [|split; [|split]].
  - rewrite assign_apply_index.
    assert (NoDup (index df3)) as Hnd.
    { unfold df3, df2, df1. rewrite !clean_column_index, make_frame_index.
      apply NoDup_seq. }
    apply (sublist_NoDup _ _ Hnd).
    unfold index. by apply fmap_sublist.
  - apply assign_reason_classified.
  - cbn [columns assign_apply]. apply elem_of_union_l. by apply elem_of_singleton.
  - cbn [columns assign_apply]. intros Hin.
    apply elem_of_union in Hin as [E|Ha];
      [apply elem_of_singleton in E; discriminate E|].
    apply assign_reason_answers.
    assert (answers_normalised (rows df3)) as Hnorm.
    { apply clean_column_answer. revert Ha. rewrite Hcols.
      unfold df3. by rewrite (clean_column_columns df2). }
    unfold answers_normalised in *. rewrite Forall_forall in *.
    intros ir Hin. apply Hnorm. by apply (elem_of_sublist _ _ _ Hin).
Qed.

Lemma other_passes_recheck (r : record) :
  (∃ a, r !! "answer" = Some (PyStr a) ∧ strip a = a) →
  cell r "reason" = PyStr (categorize_unclean r) →
  categorize_unclean r = py "Other" →
  clean_mask r = true.
Proof.
  intros (a & Ha & Hs) Hcl Hother. apply clean_mask_spec; [done|].
  split; [by rewrite Hcl, Hother|]. exists a.
  assert (cell r "answer" = PyStr a) as Hcell by (unfold cell; by rewrite Ha).
  split; [done|].
  destruct (categorize_unclean_cases r)
    as [(_ & E)|[(_ & _ & E)|[(_ & _ & _ & E)|(Hna & _ & Hlen & _)]]];
    try (rewrite E in Hother; vm_compute in Hother; discriminate Hother).
  unfold too_short, no_answer, trimmed_answer in *.
  rewrite (cell_get _ _ a) in Hna, Hlen by done. simpl in *.
  split; [|lia]. intros E. apply Hna. rewrite E. vm_compute. by left.
Qed.

Lemma process_spec data df clean_df unclean_df :
  process data = Ok (df, clean_df, unclean_df) →
  classified df
  ∧ rows clean_df = List.filter (λ ir, clean_mask ir.2) (rows df)
  ∧ rows unclean_df = List.filter (λ ir, negb (clean_mask ir.2)) (rows df)
  ∧ ∀ ir, ir ∈ rows df → categorize_unclean ir.2 = py "Other" →
          clean_mask ir.2 = true.
Proof.
  unfold process.
  destruct (classify_frame (make_frame data)) as [df'|] eqn:Ecl; [|done].
  apply classify_frame_spec in Ecl as (Hidx & Hcl & Hr & Hnorm).
  destruct (decide ("answer" ∈ columns df')) as [Ha|Ha].
  - rewrite partition_rows by done. intros [= <- <- <-]. simpl.
    repeat split; [done|]. intros ir Hin Hother.
    unfold classified, answers_normalised in *.
    rewrite Forall_forall in Hcl. specialize (Hnorm Ha).
    rewrite Forall_forall in Hnorm. apply other_passes_recheck; auto.
  - unfold partition. rewrite (bool_decide_eq_true_2 _ Hr).
    by rewrite (bool_decide_eq_false_2 _ Ha).
Qed.

Lemma classify_frame_returns data :
  "url" ∈ columns (make_frame data) →
  ∃ df, classify_frame (make_frame data) = Ok df
    ∧ columns df = {["reason"]} ∪ columns (make_frame data).
Proof.
  intros Hurl. unfold classify_frame.
  change (foldl clean_column (make_frame data) ["question"; "body"; "answer"])
    with (clean_column (clean_column (clean_column (make_frame data)
            "question") "body") "answer").
  rewrite drop_duplicates_column by by rewrite !clean_column_columns.
  eexists. split; [reflexivity|].
  cbn [columns assign_apply]. by rewrite !clean_column_columns.
Qed.

(** The pipeline returns its three frames as soon as some record has a
    [url] key and some record has an [answer] key; the scraper writes
    both keys into every record. *)
Lemma process_returns data :
  "url" ∈ columns (make_frame data) →
  "answer" ∈ columns (make_frame data) →
  ∃ df clean_df unclean_df, process data = Ok (df, clean_df, unclean_df).
Proof.
  intros Hurl Ha. unfold process.
  destruct (classify_frame_returns data Hurl) as (df & E & Hcols).
  rewrite E. apply classify_frame_spec in E as (Hidx & _ & Hr & _).
  rewrite partition_rows; [by eexists _, _, _|done..|].
  rewrite Hcols. by apply elem_of_union_r.
Qed.

(** C6, as the code has it: in every run of the pipeline each record
    carries the reason the classifier gives it, a record classified
    ["Other"] passes the re-check of the partition step and is in the
    clean frame, and no record of the unclean frame has reason
    ["Other"]. *)
Theorem process_other_is_clean data df clean_df unclean_df :
  process data = Ok (df, clean_df, unclean_df) →
  classified df
  ∧ (∀ ir, ir ∈ rows df → categorize_unclean ir.2 = py "Other" →
       ir ∈ rows clean_df ∧ ir ∉ rows unclean_df)
  ∧ (∀ ir, ir ∈ rows unclean_df → cell ir.2 "reason" ≠ PyStr (py "Other")).
Proof.
  intros (Hcl & -> & -> & Hother)%process_spec. split; [done|]. split.
  - intros ir Hin Ho. rewrite !elem_of_select, (Hother ir Hin Ho). simpl.
    split; [done | by intros [_ ?]].
  - intros ir [Hin Hm]%elem_of_select Hr.
    unfold classified in Hcl. rewrite Forall_forall in Hcl.
    rewrite (Hcl ir Hin) in Hr. injection Hr as Hr.
    rewrite (Hother ir Hin Hr) in Hm. discriminate Hm.
Qed.

(** ** [clean_dataset] on a missing raw file *)

Lemma io_bind_unfold {A B} (m : IO A) (k : A → IO B) (w : World) :
  (m ≫= k) w =
    match m w with
    | (w', Ok a) => k a w'
    | (w', Raise e) => (w', Raise e)
    end.
Proof. reflexivity. Qed.

(** C7: when the raw file does not exist, [clean_dataset] prints the
    message and returns normally; the files, and with them the clean and
    the unclean output, are as they were, and nothing else is printed. *)
Theorem clean_dataset_missing_input (w : World) :
  files w !! RAW_PATH = None →
  ∃ w', clean_dataset w = (w', Ok tt)
    ∧ files w' = files w
    ∧ files w' !! CLEAN_PATH = files w !! CLEAN_PATH
    ∧ files w' !! UNCLEAN_PATH = files w !! UNCLEAN_PATH
    ∧ console w' = console w ++ [MsgRawNotFound].
Proof.
  intros H.
  exists {| files := files w; console := console w ++ [MsgRawNotFound] |}.
  split; [|done].
  unfold clean_dataset. rewrite io_bind_unfold. unfold path_exists.
  rewrite H, bool_decide_eq_false_2 by (by intros [? ?]). reflexivity.
Qed.

(** * Further properties of the cleaner *)

(** ** [clean_text]: length, fixed points, what is left untouched *)

Lemma re_sub_space_length m s :
  progresses m → (length (re_sub m (py " ") s) ≤ length s)%nat.
Proof.
  intros Hm. induction s as [s IH] using str_length_ind.
  destruct s as [|c r]; [done|]. rewrite re_sub_cons by done.
  destruct (m (c :: r)) as [rest|] eqn:E.
  - apply Hm in E as [_ E]. change (py " " ++ ?x) with (space :: x).
    specialize (IH rest E). simpl in *. lia.
  - specialize (IH r). simpl in *. lia.
Qed.


(** Every whitespace character of the text is the plain space. *)
Definition plain_spaces (s : str) : Prop :=
  ∀ c, c ∈ s → isspace c = true → c = space.

Lemma single_spaced_plain s : single_spaced s → plain_spaces s.
Proof.
  induction s as [|c r IH]; simpl; [by intros _ ? ?%elem_of_nil|].
  intros [H1 H2] d [->|Hd]%elem_of_cons Hsp.
  - by destruct (H1 Hsp).
  - by apply IH.
Qed.

Lemma single_spaced_intro s :
  ¬ has_space_run s → plain_spaces s → single_spaced s.
Proof.
  induction s as [|c r IH]; [done|]. intros Hrun Hpl. simpl. split.
  - intros Hc. split; [apply Hpl; [by left|done]|].
    destruct r as [|d r']; [done|]. simpl.
    destruct (isspace d) eqn:Hd; [|done]. destruct Hrun.
    by exists [], c, d, r'.
  - apply IH.
    + intros (pre & a & b & post & -> & Ha & Hb). apply Hrun.
      by exists (c :: pre), a, b, post.
    + intros d Hd. apply Hpl. by right.
Qed.

(** X2: the texts that [clean_text] leaves as they are are exactly the
    texts without an entity, without two adjacent whitespace characters,
    without leading or trailing whitespace, and whose only whitespace
    character is the plain space. *)
Theorem clean_text_fixed_points (s : str) :
  clean_text (Some s) = s ↔
    ¬ contains_entity s ∧ ¬ has_space_run s
    ∧ ¬ has_leading_space s ∧ ¬ has_trailing_space s ∧ plain_spaces s.
Proof.
  split.
  - intros E. rewrite <- E. split; [|split; [|split; [|split]]].
    + apply entity_free_spec, clean_text_entity_free.
    + apply single_spaced_no_run, clean_text_single_spaced.
    + apply clean_text_no_leading.
    + apply clean_text_no_trailing.
    + apply single_spaced_plain, clean_text_single_spaced.
  - intros (Hent & Hrun & Hl & Ht & Hpl). destruct s as [|c r]; [done|].
    unfold clean_text, is_empty.
    rewrite sub_entity_id by by apply entity_free_spec.
    rewrite sub_spaces_id by by apply single_spaced_intro.
    by apply strip_id.
Qed.

(** The characters of a text that are not whitespace, in order. *)
Definition black (s : str) : str := List.filter (λ c, negb (isspace c)) s.

Lemma black_drop_while s : black (drop_while isspace s) = black s.
Proof.
  induction s as [|c r IH]; [done|]. simpl.
  destruct (isspace c) eqn:Hc; simpl; [done|]. by rewrite Hc.
Qed.

Lemma black_strip s : black (strip s) = black s.
Proof.
  unfold strip, rstrip, lstrip, black.
  rewrite filter_rev. fold (black (drop_while isspace (rev (drop_while isspace s)))).
  rewrite black_drop_while. unfold black. rewrite filter_rev, rev_involutive.
  apply black_drop_while.
Qed.

Lemma black_sub_spaces s : black (re_sub match_spaces (py " ") s) = black s.
Proof.
  induction s as [s IH] using str_length_ind.
  destruct s as [|c r]; [done|].
  rewrite re_sub_cons by apply match_spaces_progresses.
  simpl. destruct (isspace c) eqn:Hc.
  - change (py " " ++ ?x) with (space :: x). simpl. rewrite IH.
    + apply black_drop_while.
    + pose proof (drop_while_suffix isspace r) as H%suffix_length. simpl. lia.
  - simpl. rewrite Hc. simpl. f_equal. apply IH. simpl. lia.
Qed.

(** X3: on a text without entities, cleaning touches whitespace only:
    the other characters come out unchanged and in the same order. *)
Theorem clean_text_keeps_black (s : str) :
  ¬ contains_entity s → black (clean_text (Some s)) = black s.
Proof.
  intros H%entity_free_spec. destruct s as [|c r]; [done|].
  unfold clean_text, is_empty.
  by rewrite black_strip, black_sub_spaces, sub_entity_id.
Qed.

(** ** [categorize_unclean]: whitespace around the answer *)

Lemma drop_while_all p (s t : str) :
  forallb p s = true → drop_while p (s ++ t) = drop_while p t.
Proof.
  induction s as [|c r IH]; [done|]. simpl.
  intros [-> H]%andb_true_iff. auto.
Qed.

Lemma drop_while_app p (s t : str) :
  forallb p s = false → drop_while p (s ++ t) = drop_while p s ++ t.
Proof.
  induction s as [|c r IH]; [done|]. simpl.
  destruct (p c); simpl; [auto|done].
Qed.

Lemma drop_while_nil p (s : str) : forallb p s = true → drop_while p s = [].
Proof.
  intros H. rewrite <- (app_nil_r s). by rewrite drop_while_all.
Qed.

Lemma forallb_reverse p (s : str) : forallb p (rev s) = forallb p s.
Proof.
  induction s as [|c r IH]; [done|]. simpl.
  rewrite forallb_app, IH. simpl. rewrite andb_true_r. apply andb_comm.
Qed.

Lemma strip_padding (pre a post : str) :
  forallb isspace pre = true → forallb isspace post = true →
  strip (pre ++ a ++ post) = strip a.
Proof.
  intros Hpre Hpost. unfold strip, lstrip. rewrite drop_while_all by done.
  destruct (forallb isspace a) eqn:Ha.
  - rewrite drop_while_all by done.
    by rewrite (drop_while_nil _ post), (drop_while_nil _ a).
  - rewrite drop_while_app by done. unfold rstrip.
    rewrite rev_app_distr, drop_while_all; [done|].
    by rewrite forallb_reverse.
Qed.

Lemma no_answer_reason (row : record) :
  no_answer row → categorize_unclean row = py "No Answer".
Proof.
  intros H.
  by destruct (categorize_unclean_cases row)
    as [(_ & E)|[(? & _)|[(? & _)|(? & _)]]].
Qed.

Lemma categorize_unclean_trimmed (r1 r2 : record) :
  trimmed_answer r1 = trimmed_answer r2 →
  r1 !! "url" = r2 !! "url" →
  categorize_unclean r1 = categorize_unclean r2.
Proof.
  unfold trimmed_answer, categorize_unclean, get. by intros -> ->.
Qed.

Lemma trimmed_answer_insert (row : record) (a : str) :
  trimmed_answer (<["answer" := PyStr a]> row) = strip a.
Proof. unfold trimmed_answer, get. by rewrite lookup_insert_eq. Qed.

(** X4: the classifier ignores whitespace before and after the answer;
    an answer made of whitespace only counts as no answer. *)
Theorem categorize_unclean_padding (row : record) (pre a post : str) :
  forallb isspace pre = true → forallb isspace post = true →
  categorize_unclean (<["answer" := PyStr (pre ++ a ++ post)]> row) =
    categorize_unclean (<["answer" := PyStr a]> row)
  ∧ categorize_unclean (<["answer" := PyStr (pre ++ post)]> row) =
    py "No Answer".
Proof.
  intros Hpre Hpost. split.
  - apply categorize_unclean_trimmed.
    + by rewrite !trimmed_answer_insert, strip_padding.
    + by rewrite !lookup_insert_ne.
  - apply no_answer_reason. unfold no_answer.
    rewrite trimmed_answer_insert.
    rewrite <- (app_nil_l post), strip_padding by done. by left.
Qed.

(** ** The pipeline: when it returns, and what the frames hold *)

(** The frame after Step 2. *)
Definition cleaned_frame (data : list (gmap string pyval)) : DataFrame :=
  foldl clean_column (make_frame data) ["question"; "body"; "answer"].

Lemma columns_make_frame data (k : string) :
  k ∈ columns (make_frame data) ↔ ∃ r, r ∈ data ∧ is_Some (r !! k).
Proof.
  unfold make_frame. cbn [columns]. rewrite elem_of_union_list. split.
  - intros (X & (r & -> & Hr)%list_elem_of_fmap & Hk%elem_of_dom). eauto.
  - intros (r & Hr & Hk). exists (dom r). split.
    + by apply list_elem_of_fmap_2.
    + by apply elem_of_dom.
Qed.

(** The frame has no column exactly when every record is empty. *)
Lemma columns_make_frame_empty data :
  columns (make_frame data) = ∅ ↔ ∀ r, r ∈ data → r = ∅.
Proof.
  split.
  - intros Hcols r Hr. apply map_empty. intros k.
    destruct (r !! k) as [v|] eqn:E; [|done].
    assert (k ∈ columns (make_frame data)) as Hk
      by (apply columns_make_frame; by eauto).
    rewrite Hcols in Hk. by apply not_elem_of_empty in Hk.
  - intros Hall. apply leibniz_equiv, elem_of_equiv_empty.
    intros k (r & Hr & [v Hv])%columns_make_frame.
    by rewrite (Hall r Hr) in Hv.
Qed.

Lemma cleaned_frame_unfold data :
  cleaned_frame data =
    clean_column (clean_column (clean_column (make_frame data)
      "question") "body") "answer".
Proof. reflexivity. Qed.

Lemma cleaned_frame_columns data :
  columns (cleaned_frame data) = columns (make_frame data).
Proof. by rewrite cleaned_frame_unfold, !clean_column_columns. Qed.

Lemma cleaned_frame_index data :
  index (cleaned_frame data) = seq 0 (length data).
Proof.
  by rewrite cleaned_frame_unfold, !clean_column_index, make_frame_index.
Qed.

(** Step 2 on one row, for a frame with the columns [cols]. *)
Definition clean_cell (cols : gset string) (col : string) (r : record)
    : record :=
  if bool_decide (col ∈ cols) then
    <[col := PyStr (clean_text (Some (py_str (cell r col))))]> r
  else r.

(** A record of the raw data as a row of the frame after Step 2. *)
Definition cleaned_record (data : list (gmap string pyval)) (r0 : record)
    : record :=
  let cols := columns (make_frame data) in
  clean_cell cols "answer" (clean_cell cols "body" (clean_cell cols "question"
    (frame_row data cols r0))).

Lemma rows_clean_column df col :
  rows (clean_column df col) =
    prod_map id (clean_cell (columns df) col) <$> rows df.
Proof.
  unfold clean_column, clean_cell. case_bool_decide; [done|].
  rewrite <- (list_fmap_id (rows df)) at 1. apply list_fmap_ext.
  by intros _ [i r] _.
Qed.

Lemma rows_cleaned_frame data :
  rows (cleaned_frame data) = imap (λ i r0, (i, cleaned_record data r0)) data.
Proof.
  rewrite cleaned_frame_unfold, !rows_clean_column, !clean_column_columns.
  rewrite <- !list_fmap_compose. unfold make_frame at 4. cbn [rows].
  rewrite fmap_imap. by apply imap_ext.
Qed.

Lemma empty_cleaned_frame data :
  empty_frame (cleaned_frame data) = bool_decide (columns (make_frame data) = ∅).
Proof.
  unfold empty_frame. rewrite rows_cleaned_frame, cleaned_frame_columns.
  destruct data as [|r data]; [|done].
  cbn [imap orb]. symmetry. by apply bool_decide_eq_true_2.
Qed.

Lemma lookup_frame_row data cols r (k : string) :
  frame_row data cols r !! k =
    if bool_decide (k ∈ cols) then Some (frame_cell data r k) else None.
Proof.
  unfold frame_row. rewrite map_lookup_imap. case_bool_decide as Hk.
  - by rewrite (proj2 (lookup_gset_to_gmap_Some PyNaN cols k PyNaN)).
  - by rewrite (proj2 (lookup_gset_to_gmap_None PyNaN cols k)).
Qed.

(** A cell of the frame reads as [frame_cell] says, also for a key that
    is no column. *)
Lemma cell_frame_row data r (k : string) :
  r ∈ data →
  cell (frame_row data (columns (make_frame data)) r) k = frame_cell data r k.
Proof.
  intros Hr. unfold cell at 1. rewrite lookup_frame_row.
  case_bool_decide as Hk; [done|]. cbn [default].
  assert (r !! k = None) as Hnone.
  { destruct (r !! k) as [v|] eqn:E; [|done]. destruct Hk.
    apply columns_make_frame. by eauto. }
  unfold frame_cell, cell. rewrite Hnone. by destruct (float_column data k).
Qed.

(** A column in which no cell is [NaN] is no column of floats. *)
Lemma frame_cell_present data (k : string) r :
  (∀ r', r' ∈ data → cell r' k ≠ PyNaN) → frame_cell data r k = cell r k.
Proof.
  intros Hall. unfold frame_cell, float_column.
  replace (existsb _ data) with false; [by rewrite andb_false_r|].
  symmetry. apply not_true_is_false.
  intros (r' & Hr'%list_elem_of_In & E%bool_decide_eq_true_1)%existsb_exists.
  by apply (Hall r').
Qed.

(** So is a column with a string. *)
Lemma frame_cell_string data (k : string) r r' a :
  r' ∈ data → cell r' k = PyStr a → frame_cell data r k = cell r k.
Proof.
  intros Hr' Ha. unfold frame_cell, float_column.
  replace (forallb _ data) with false; [done|].
  symmetry. apply not_true_is_false. intros H.
  rewrite forallb_forall in H. specialize (H r').
  rewrite Ha in H. by specialize (H (proj1 (list_elem_of_In _ _) Hr')).
Qed.

Lemma cell_clean_cell_ne cols (col k : string) r :
  col ≠ k → cell (clean_cell cols col r) k = cell r k.
Proof.
  intros H. unfold clean_cell, cell. case_bool_decide; [|done].
  by rewrite lookup_insert_ne.
Qed.

Lemma cleaned_record_url data r0 :
  r0 ∈ data → cell (cleaned_record data r0) "url" = frame_cell data r0 "url".
Proof.
  intros Hr. unfold cleaned_record.
  by rewrite !cell_clean_cell_ne, cell_frame_row.
Qed.

Lemma cleaned_record_answer data r0 :
  "answer" ∈ columns (make_frame data) → r0 ∈ data →
  cleaned_record data r0 !! "answer" =
    Some (PyStr (clean_text (Some (py_str (frame_cell data r0 "answer"))))).
Proof.
  intros H Hr. unfold cleaned_record. unfold clean_cell at 1.
  rewrite bool_decide_eq_true_2, lookup_insert_eq by done.
  by rewrite !cell_clean_cell_ne, cell_frame_row.
Qed.

Lemma classify_frame_unfold data :
  classify_frame (make_frame data) =
    if bool_decide (columns (make_frame data) = ∅) then
      Ok (assign_apply "reason" categorize_unclean (cleaned_frame data))
    else if bool_decide ("url" ∈ columns (make_frame data)) then
      Ok (assign_apply "reason" categorize_unclean
            {| columns := columns (cleaned_frame data);
               rows := deduplicated (rows (cleaned_frame data)) |})
    else Raise (KeyError "url").
Proof.
  unfold classify_frame. fold (cleaned_frame data). unfold drop_duplicates.
  rewrite empty_cleaned_frame, cleaned_frame_columns.
  by repeat case_bool_decide.
Qed.

(** The partition step on the classified frame of [data]. *)
Lemma partition_classified (df : DataFrame) :
  partition (assign_apply "reason" categorize_unclean df) =
    if bool_decide ("answer" ∈ columns df) then
      let df' := assign_apply "reason" categorize_unclean df in
      let clean_df := select (λ ir, clean_mask ir.2) df' in
      Ok (clean_df, select (λ ir, negb (isin ir.1 (index clean_df))) df')
    else Raise (KeyError "answer").
Proof.
  unfold partition. cbn [columns assign_apply].
  rewrite (bool_decide_eq_true_2 ("reason" ∈ _))
    by (apply elem_of_union_l; by apply elem_of_singleton).
  cbn [negb].
  rewrite (bool_decide_ext ("answer" ∈ {["reason"]} ∪ columns df)
             ("answer" ∈ columns df)).
  - by case_bool_decide.
  - rewrite elem_of_union, elem_of_singleton. split; [|by right].
    by intros [E|?]; [discriminate E|].
Qed.

Lemma process_raises data e :
  process data = Raise e → e = KeyError "url" ∨ e = KeyError "answer".
Proof.
  unfold process. rewrite classify_frame_unfold.
  case_bool_decide.
  { rewrite partition_classified. case_bool_decide; [done|].
    intros [= <-]. by right. }
  case_bool_decide; [|intros [= <-]; by left].
  rewrite partition_classified. case_bool_decide; [done|].
  intros [= <-]. by right.
Qed.


(** *** Where the rows of the classified frame come from *)

(** A row survives deduplication exactly at a position before which its
    url does not occur. *)
Lemma elem_of_deduplicated l x :
  x ∈ deduplicated l ↔
    ∃ p, l !! p = Some x
         ∧ ∀ q y, (q < p)%nat → l !! q = Some y → url_of y ≠ url_of x.
Proof.
  assert (x ∈ deduplicated l ↔
            ∃ l1 l2, l = l1 ++ x :: l2 ∧ url_of x ∉ url_of <$> l1) as ->.
  { induction l as [|y l IH] using rev_ind.
    { split; [by intros ?%elem_of_nil | by intros ([|? ?] & ? & ? & _)]. }
    unfold deduplicated in *.
    rewrite (first_occurrences_snoc (λ r, cell r "url") []).
    rewrite elem_of_app, IH. simpl. split.
    - intros [(l1 & l2 & -> & H)|Hx].
      + exists l1, (l2 ++ [y]). by rewrite <- app_assoc.
      + case_bool_decide as Hy; [by apply elem_of_nil in Hx|].
        apply list_elem_of_singleton in Hx as ->. by exists l, [].
    - intros (l1 & l2 & E & H).
      destruct l2 as [|z l2 _] using rev_ind.
      + apply app_inj_tail in E as [-> ->]. right.
        rewrite bool_decide_eq_false_2 by done. by apply list_elem_of_singleton.
      + rewrite app_comm_cons, app_assoc in E.
        apply app_inj_tail in E as [-> ->]. left. by exists l1, l2. }
  split.
  - intros (l1 & l2 & -> & H). exists (length l1). split.
    + by apply list_lookup_middle.
    + intros q y Hq Hy E. rewrite lookup_app_l in Hy by done.
      apply H. rewrite <- E. by apply list_elem_of_fmap_2, list_elem_of_lookup_2 with q.
  - intros (p & Hp & H). exists (take p l), (drop (S p) l). split.
    + by rewrite take_drop_middle.
    + intros (y & E & (q & Hy)%list_elem_of_lookup_1)%list_elem_of_fmap.
      pose proof (lookup_lt_Some _ _ _ Hy) as Hlen.
      rewrite length_take in Hlen.
      rewrite lookup_take_lt in Hy by lia. apply (H q y); [lia|done|done].
Qed.

Lemma process_rows data df clean_df unclean_df :
  process data = Ok (df, clean_df, unclean_df) →
  rows df =
    prod_map id (λ r, <["reason" := PyStr (categorize_unclean r)]> r)
      <$> deduplicated (rows (cleaned_frame data))
  ∧ "answer" ∈ columns (make_frame data).
Proof.
  unfold process. rewrite classify_frame_unfold.
  case_bool_decide as Hcols.
  { rewrite partition_classified, cleaned_frame_columns, Hcols.
    rewrite bool_decide_eq_false_2; [done|]. apply not_elem_of_empty. }
  case_bool_decide as Hurl; [|done].
  rewrite partition_classified. cbn [columns].
  rewrite cleaned_frame_columns.
  case_bool_decide as Ha; [|done].
  intros H%Ok_inj. apply pair_equal_spec in H as [H _].
  by apply pair_equal_spec in H as [<- _].
Qed.

Lemma elem_of_cleaned_frame data i r :
  (i, r) ∈ deduplicated (rows (cleaned_frame data)) ↔
    ∃ r0, data !! i = Some r0
      ∧ (∀ j r1, (j < i)%nat → data !! j = Some r1 →
                 frame_cell data r1 "url" ≠ frame_cell data r0 "url")
      ∧ r = cleaned_record data r0.
Proof.
  rewrite elem_of_deduplicated, rows_cleaned_frame. split.
  - intros (p & Hp & H). rewrite list_lookup_imap in Hp.
    destruct (data !! p) as [r0|] eqn:E; [|done].
    apply (inj Some), pair_equal_spec in Hp as [<- <-].
    exists r0. split; [done|]. split; [|done].
    intros j r1 Hj Hr1.
    specialize (H j (j, cleaned_record data r1) Hj).
    rewrite list_lookup_imap, Hr1 in H. specialize (H eq_refl).
    unfold url_of in H. cbn [snd] in H.
    rewrite !cleaned_record_url in H by by eapply list_elem_of_lookup_2.
    exact H.
  - intros (r0 & Hi & H & ->). exists i. split.
    + by rewrite list_lookup_imap, Hi.
    + intros q [j r'] Hq Hy. rewrite list_lookup_imap in Hy.
      destruct (data !! q) as [r1|] eqn:E; [|done].
      apply (inj Some), pair_equal_spec in Hy as [<- <-].
      unfold url_of. cbn [snd].
      rewrite !cleaned_record_url by by eapply list_elem_of_lookup_2.
      by apply (H q).
Qed.

Lemma process_rows_full data df clean_df unclean_df :
  process data = Ok (df, clean_df, unclean_df) →
  (∀ i r, (i, r) ∈ rows df →
     ∃ r0, data !! i = Some r0
       ∧ (∀ j r1, (j < i)%nat → data !! j = Some r1 →
                  frame_cell data r1 "url" ≠ frame_cell data r0 "url")
       ∧ cell r "url" = frame_cell data r0 "url"
       ∧ cell r "answer" =
           PyStr (clean_text (Some (py_str (frame_cell data r0 "answer"))))
       ∧ cell r "reason" = PyStr (categorize_unclean r))
  ∧ (∀ i r0, data !! i = Some r0 →
       (∀ j r1, (j < i)%nat → data !! j = Some r1 →
                frame_cell data r1 "url" ≠ frame_cell data r0 "url") →
       ∃ r, (i, r) ∈ rows df).
Proof.
  intros [Hrows Ha]%process_rows. rewrite Hrows. split.
  - intros i r ([j r'] & E & Hin)%list_elem_of_fmap.
    apply pair_equal_spec in E as [-> ->]. cbn [fst snd id].
    apply elem_of_cleaned_frame in Hin as (r0 & Hi & Hfirst & ->).
    assert (r0 ∈ data) as Hr0 by by eapply list_elem_of_lookup_2.
    exists r0. split; [done|]. split; [done|]. unfold cell.
    rewrite lookup_insert_eq, !lookup_insert_ne by done.
    rewrite categorize_unclean_insert by done.
    fold (cell (cleaned_record data r0) "url").
    by rewrite cleaned_record_url, cleaned_record_answer.
  - intros i r0 Hi Hfirst.
    set (r' := cleaned_record data r0).
    exists (<["reason" := PyStr (categorize_unclean r')]> r').
    apply list_elem_of_fmap. exists (i, r'). split; [done|].
    apply elem_of_cleaned_frame. by exists r0.
Qed.


Lemma clean_text_twice (x : str) :
  clean_text (Some (clean_text (Some x))) = clean_text (Some x).
Proof.
  set (t := clean_text (Some x)).
  unfold clean_text at 1. destruct (is_empty t) eqn:E; [by destruct t|].
  rewrite sub_entity_id by apply clean_text_entity_free.
  rewrite sub_spaces_id by apply clean_text_single_spaced.
  apply clean_text_stripped.
Qed.

Lemma url_of_rows_df data df clean_df unclean_df :
  process data = Ok (df, clean_df, unclean_df) →
  url_of <$> rows df = url_of <$> deduplicated (rows (cleaned_frame data)).
Proof.
  intros [-> _]%process_rows. rewrite <- list_fmap_compose.
  apply list_fmap_ext. intros _ [i r] _. unfold url_of, cell. simpl.
  by rewrite lookup_insert_ne.
Qed.

Lemma well_formed_url (r : record) :
  ¬ malformed_url r →
  ∃ link, cell r "url" = PyStr link ∧ startswith link (py "https") = true.
Proof.
  unfold malformed_url, get, cell. intros H.
  destruct (r !! "url") as [[| |link]|]; simpl in *.
  - by destruct H.
  - by destruct H.
  - exists link. split; [done|].
    destruct (startswith link (py "https")) eqn:E; [done|].
    destruct H. by intros ? [= <-].
  - destruct H. by intros ? [= <-].
Qed.

(** X7: what the clean frame guarantees.  Every row has reason ["Other"],
    a url that is a string beginning with ["https"], and an answer that
    is a string in the normal form of [clean_text], at least as long as
    the threshold and, lowercased, neither ["none"] nor ["nan"]; no two
    rows have the same url. *)
Theorem process_clean_rows data df clean_df unclean_df :
  process data = Ok (df, clean_df, unclean_df) →
  NoDup (url_of <$> rows clean_df)
  ∧ ∀ ir, ir ∈ rows clean_df →
      cell ir.2 "reason" = PyStr (py "Other")
      ∧ (∃ link, cell ir.2 "url" = PyStr link
                 ∧ startswith link (py "https") = true)
      ∧ ∃ a, cell ir.2 "answer" = PyStr a
             ∧ clean_text (Some a) = a
             ∧ (MIN_ANSWER_LEN ≤ Z.of_nat (length a))%Z
             ∧ lower a ∉ [empty_str; py "none"; py "nan"].
Proof.
  intros Hp. pose proof (url_of_rows_df _ _ _ _ Hp) as Hurls.
  destruct (process_rows_full data df clean_df unclean_df Hp) as [Horigin _].
  apply process_spec in Hp as (Hcl & Hc & _ & _). rewrite Hc. split.
  - apply (sublist_NoDup _ (url_of <$> rows df)).
    + rewrite Hurls. apply (first_occurrences_NoDup (λ r, cell r "url") []).
    + apply fmap_sublist. clear. induction (rows df) as [|x l IH]; [done|].
      simpl. destruct (clean_mask x.2); by constructor.
  - intros [i r] [Hin Hm]%elem_of_select. cbn [snd] in *.
    apply clean_mask_literal in Hm as [Hr (a & Ha & Hne & Hlen)].
    destruct (Horigin i r Hin) as (r0 & _ & _ & _ & Ha0 & Hreason).
    rewrite Hr in Hreason. injection Hreason as Hreason. symmetry in Hreason.
    destruct (categorize_unclean_cases r)
      as [(_ & E)|[(_ & _ & E)|[(_ & _ & _ & E)|(Hna & Hurl & _ & _)]]];
      try (rewrite E in Hreason; vm_compute in Hreason; discriminate Hreason).
    split; [done|]. split; [by apply well_formed_url|].
    exists a. split; [done|].
    assert (a = clean_text (Some (py_str (frame_cell data r0 "answer"))))
      as Ea by congruence.
    split; [rewrite Ea; apply clean_text_twice|]. split; [done|].
    unfold no_answer, trimmed_answer in Hna.
    rewrite (cell_get _ _ _ _ Ha) in Hna. cbn [py_str] in Hna.
    rewrite Ea in Hna |- *. by rewrite clean_text_stripped in Hna.
Qed.

Lemma first_occurrences_covers key seen l v :
  v ∈ (λ ir, key ir.2) <$> l →
  v ∈ seen ∨ v ∈ (λ ir, key ir.2) <$> first_occurrences key seen l.
Proof.
  revert seen. induction l as [|y l IH]; intros seen; simpl.
  { by intros ?%elem_of_nil. }
  intros [->|Hv]%elem_of_cons.
  - case_bool_decide; [by left|]. right. rewrite fmap_cons. by left.
  - case_bool_decide.
    + by apply IH.
    + destruct (IH (key y.2 :: seen) Hv) as [[->|?]%elem_of_cons|?].
      * right. rewrite fmap_cons. by left.
      * by left.
      * right. rewrite fmap_cons. by right.
Qed.

Lemma url_of_cleaned_frame data :
  url_of <$> rows (cleaned_frame data)
  = (λ r, frame_cell data r "url") <$> data.
Proof.
  rewrite rows_cleaned_frame, fmap_imap.
  rewrite (imap_ext _ (const (λ r, frame_cell data r "url")));
    [apply imap_const|].
  intros i r Hi. unfold url_of. simpl. apply cleaned_record_url.
  by eapply list_elem_of_lookup_2.
Qed.

Lemma select_length {A} (f : A → bool) (l : list A) :
  (length (List.filter f l) + length (List.filter (λ x, negb (f x)) l)
   = length l)%nat.
Proof.
  induction l as [|x l IH]; [done|]. simpl. destruct (f x); simpl; lia.
Qed.

Lemma process_length data df clean_df unclean_df :
  process data = Ok (df, clean_df, unclean_df) →
  (length (rows clean_df) + length (rows unclean_df) = length (rows df))%nat
  ∧ (length (rows df) ≤ length data)%nat.
Proof.
  intros Hp. pose proof (process_rows _ _ _ _ Hp) as [Hrows _].
  apply process_spec in Hp as (_ & -> & -> & _).
  split; [apply select_length|].
  rewrite Hrows, length_fmap.
  pose proof (first_occurrences_sublist (λ r, cell r "url") []
                (rows (cleaned_frame data))) as Hsub%sublist_length.
  unfold deduplicated. rewrite Hsub.
  by rewrite rows_cleaned_frame, length_imap.
Qed.


(** ** [clean_dataset] on an existing raw file *)

(** The lines of the summary. *)
Definition summary_lines (total_raw : nat) (clean_df unclean_df : DataFrame)
    : list message :=
  [ MsgComplete;
    MsgSavedClean CLEAN_PATH;
    MsgSavedUnclean UNCLEAN_PATH;
    MsgSummary;
    MsgTotalRaw total_raw;
    MsgTotalClean (length (rows clean_df));
    MsgTotalUnclean (length (rows unclean_df));
    MsgBreakdown;
    MsgReasonCounts ((λ ir, cell ir.2 "reason") <$> rows unclean_df) ].

(** Steps 7 to 9 on the frames, in a world [w] where the load line has
    been printed. *)
Definition save_and_report (total_raw : nat) (clean_df unclean_df : DataFrame)
    (w : World) : World * result unit :=
  match mkdir_error (files w) (output_folder config) with
  | Some name => (w, Raise (LibraryError name))
  | None =>
      match to_csv_error (files w) CLEAN_PATH clean_df with
      | Some (name, partial) =>
          ({| files := left_behind partial CLEAN_PATH (files w);
              console := console w |}, Raise (LibraryError name))
      | None =>
          let fs := <[CLEAN_PATH := to_csv clean_df]> (files w) in
          match to_csv_error fs UNCLEAN_PATH unclean_df with
          | Some (name, partial) =>
              ({| files := left_behind partial UNCLEAN_PATH fs;
                  console := console w |}, Raise (LibraryError name))
          | None =>
              ({| files := <[UNCLEAN_PATH := to_csv unclean_df]> fs;
                  console := console w
                             ++ summary_lines total_raw clean_df unclean_df |},
               Ok tt)
          end
      end
  end.

Lemma clean_dataset_found (w : World) f :
  files w !! RAW_PATH = Some f →
  clean_dataset w =
    match open_error (files w) RAW_PATH with
    | Some name => (w, Raise (LibraryError name))
    | None =>
        match json_load f with
        | None => (w, Raise JSONDecodeError)
        | Some data =>
            let w1 := {| files := files w;
                         console := console w
                                    ++ [MsgLoaded (length data) RAW_PATH] |} in
            match process data with
            | Raise e => (w1, Raise e)
            | Ok (df, clean_df, unclean_df) =>
                save_and_report (length data) clean_df unclean_df w1
            end
        end
    end.
Proof.
  intros Hf. unfold clean_dataset. rewrite io_bind_unfold.
  unfold path_exists.
  rewrite bool_decide_eq_true_2 by (rewrite Hf; by eexists).
  cbn [negb]. rewrite io_bind_unfold. unfold read_json.
  destruct (open_error (files w) RAW_PATH) as [name|]; [done|].
  rewrite Hf.
  cbn [mbind option_bind]. destruct (json_load f) as [data|]; [|done].
  rewrite !io_bind_unfold. unfold print at 1, lift. cbn [files console].
  destruct (process data) as [[[df clean_df] unclean_df]|e]; [|done].
  unfold save_and_report. cbn [files console].
  rewrite io_bind_unfold. cbv beta iota.
  rewrite io_bind_unfold. unfold mkdir at 1. cbn [files console].
  destruct (mkdir_error (files w) (output_folder config)) as [name|]; [done|].
  rewrite io_bind_unfold. unfold write_csv at 1. cbn [files console].
  destruct (to_csv_error (files w) CLEAN_PATH clean_df) as [[name partial]|];
    [done|].
  rewrite io_bind_unfold. unfold write_csv at 1. cbn [files console].
  destruct (to_csv_error _ UNCLEAN_PATH unclean_df) as [[name partial]|];
    [done|].
  unfold print, mret, io_ret, summary_lines.
  repeat (rewrite io_bind_unfold; cbv beta iota).
  cbn [files console]. by repeat rewrite <- app_assoc.
Qed.

(** [mkdir] and the two writes go well on the frames. *)
Definition writes_succeed (w : World) (clean_df unclean_df : DataFrame)
    : Prop :=
  mkdir_error (files w) (output_folder config) = None
  ∧ to_csv_error (files w) CLEAN_PATH clean_df = None
  ∧ to_csv_error (<[CLEAN_PATH := to_csv clean_df]> (files w))
      UNCLEAN_PATH unclean_df = None.

Lemma save_and_report_succeeds total_raw clean_df unclean_df (w : World) :
  writes_succeed w clean_df unclean_df →
  save_and_report total_raw clean_df unclean_df w =
    ({| files := <[UNCLEAN_PATH := to_csv unclean_df]>
                   (<[CLEAN_PATH := to_csv clean_df]> (files w));
        console := console w
                   ++ summary_lines total_raw clean_df unclean_df |}, Ok tt).
Proof.
  intros (Hm & Hc & Hu). unfold save_and_report. by rewrite Hm, Hc, Hu.
Qed.

(** What a failure of Steps 7 to 9 leaves: nothing is printed, and no file
    but the two outputs is touched. *)
Lemma save_and_report_raises total_raw clean_df unclean_df (w w' : World) e :
  save_and_report total_raw clean_df unclean_df w = (w', Raise e) →
  (∃ name, e = LibraryError name)
  ∧ console w' = console w
  ∧ ∀ p, p ≠ CLEAN_PATH → p ≠ UNCLEAN_PATH → files w' !! p = files w !! p.
Proof.
  unfold save_and_report.
  destruct (mkdir_error _ _) as [name|].
  { intros [= <- <-]. split; [by eexists|]. by split. }
  destruct (to_csv_error (files w) _ _) as [[name partial]|].
  { intros [= <- <-]. split; [by eexists|]. split; [done|].
    intros p Hc _. cbn [files]. destruct partial; cbn [left_behind]; [|done].
    by rewrite lookup_insert_ne. }
  destruct (to_csv_error _ _ _) as [[name partial]|]; [|done].
  intros [= <- <-]. split; [by eexists|]. split; [done|].
  intros p Hc Hu. cbn [files]. destruct partial; cbn [left_behind].
  - by rewrite !lookup_insert_ne.
  - by rewrite lookup_insert_ne.
Qed.


Lemma clean_dataset_not_found (w : World) :
  files w !! RAW_PATH = None →
  clean_dataset w =
    ({| files := files w; console := console w ++ [MsgRawNotFound] |}, Ok tt).
Proof.
  intros H. unfold clean_dataset. rewrite io_bind_unfold. unfold path_exists.
  rewrite H, bool_decide_eq_false_2 by (by intros [? ?]). reflexivity.
Qed.

(** How a run can raise. *)
Lemma clean_dataset_raise_cases (w w' : World) (e : exn) :
  clean_dataset w = (w', Raise e) →
  (∀ p, p ≠ CLEAN_PATH → p ≠ UNCLEAN_PATH → files w' !! p = files w !! p)
  ∧ ((e = JSONDecodeError ∧ files w' = files w ∧ console w' = console w)
     ∨ ((e = KeyError "url" ∨ e = KeyError "answer") ∧ files w' = files w
        ∧ ∃ n, console w' = console w ++ [MsgLoaded n RAW_PATH])
     ∨ ((∃ name, e = LibraryError name)
        ∧ ((files w' = files w ∧ console w' = console w)
           ∨ ∃ n, console w' = console w ++ [MsgLoaded n RAW_PATH]))).
Proof.
  destruct (files w !! RAW_PATH) as [f|] eqn:Hf.
  - rewrite (clean_dataset_found w f Hf).
    destruct (open_error (files w) RAW_PATH) as [name|].
    { intros [= <- <-]. split; [done|]. right. right.
      split; [by eexists|]. by left. }
    destruct (json_load f) as [data|].
    + cbv zeta.
      destruct (process data) as [[[df c] u]|e'] eqn:Hp.
      * intros (Hname & Hcon & Hfiles)%save_and_report_raises.
        cbn [files console] in *. split; [exact Hfiles|].
        right. right. split; [exact Hname|]. right. by eexists.
      * intros [= <- <-]. split; [done|]. right. left.
        split; [by apply (process_raises data)|]. split; [done|by eexists].
    + intros [= <- <-]. split; [done|]. by left.
  - by rewrite clean_dataset_not_found.
Qed.



(** X24: the second write fails.  When [mkdir] and the write of the clean
    frame go well and the write of the unclean frame raises, the run
    raises that exception after the load line: no summary is printed,
    the clean file has been written, and the unclean file is as it was
    or holds what was written before the failure. *)
Theorem clean_dataset_unclean_write_fails (w : World) f data df clean_df
    unclean_df name partial :
  files w !! RAW_PATH = Some f →
  open_error (files w) RAW_PATH = None →
  json_load f = Some data →
  process data = Ok (df, clean_df, unclean_df) →
  mkdir_error (files w) (output_folder config) = None →
  to_csv_error (files w) CLEAN_PATH clean_df = None →
  to_csv_error (<[CLEAN_PATH := to_csv clean_df]> (files w))
    UNCLEAN_PATH unclean_df = Some (name, partial) →
  ∃ w', clean_dataset w = (w', Raise (LibraryError name))
    ∧ console w' = console w ++ [MsgLoaded (length data) RAW_PATH]
    ∧ (CLEAN_PATH ≠ UNCLEAN_PATH →
       files w' !! CLEAN_PATH = Some (to_csv clean_df))
    ∧ files w' !! UNCLEAN_PATH =
        match partial with
        | Some c => Some c
        | None => if bool_decide (CLEAN_PATH = UNCLEAN_PATH)
                  then Some (to_csv clean_df)
                  else files w !! UNCLEAN_PATH
        end.
Proof.
  intros Hf Ho Hj Hp Hm Hc Hu. rewrite (clean_dataset_found w f Hf), Ho, Hj.
  cbv zeta. rewrite Hp. unfold save_and_report. cbn [files console].
  rewrite Hm, Hc, Hu. eexists. split; [reflexivity|]. cbn [files console].
  split; [done|]. destruct partial as [c|]; cbn [left_behind].
  - split; [|apply lookup_insert_eq].
    intros Hne. by rewrite lookup_insert_ne, lookup_insert_eq.
  - split; [intros _; apply lookup_insert_eq|].
    case_bool_decide as E.
    + rewrite <- E. apply lookup_insert_eq.
    + by rewrite lookup_insert_ne.
Qed.

End Cleaner.

Arguments files {content} _.
Arguments console {content} _.
Arguments Build_World {content} _ _.

(** * Runs on concrete data

    The runs below use ASCII text, on which CPython never consults the
    Unicode database; the three lookups are instantiated by tables that
    know no character above 127. *)

Definition ascii_only : N → bool := λ _, false.
Definition ascii_case : list N → list N := id.

Definition sample_config : Config :=
  {| output_folder := "data"; raw_file := "raw_data.json";
     clean_file := "cleaned_data.csv"; unclean_file := "uncleaned_data.csv";
     min_answer_length := None |}.

(** A scraped record: the scraper always writes the four keys. *)
Definition qa (url answer : string) : gmap string pyval :=
  {[ "url" := PyStr (py url); "question" := PyStr (py "q");
     "body" := PyStr (py "b"); "answer" := PyStr (py answer) ]}.

Definition sample_data : list (gmap string pyval) :=
  [ qa "https://x" "this is a sufficiently long answer text";
    qa "ftp://x" "a valid full answer here";
    qa "https://y" "short";
    <[ "answer" := PyNone ]> (qa "https://z" "-");
    qa "https://x" "a later record of the first url, dropped";
    qa "https://w" "  fifteen&nbsp;chars!!  " ].

(** Index label, reason and answer of every row. *)
Definition summary (df : DataFrame) : list (nat * str * str) :=
  (λ ir, (ir.1, py_str (cell ir.2 "reason"), py_str (cell ir.2 "answer")))
    <$> rows df.

(** The frame of [sample_data] after Steps 2 to 4. *)
Definition sample_frame : DataFrame :=
  match classify_frame ascii_only ascii_only ascii_case sample_config
          (make_frame sample_data) with
  | Ok df => df
  | Raise _ => {| columns := ∅; rows := [] |}
  end.

(** A world without files, and the simplest file contents. *)
Definition empty_world : World unit := {| files := ∅; console := [] |}.

(** A file system on which [open], [mkdir] and [to_csv] do not fail. *)
Definition open_works {content : Type}
    : gmap string content → string → option string :=
  λ _ _, None.

Definition mkdir_works {content : Type}
    : gmap string content → string → option string :=
  λ _ _, None.

Definition to_csv_works {content : Type}
    : gmap string content → string → DataFrame
      → option (string * option content) :=
  λ _ _ _, None.

Definition slash (dir file : string) : string :=
  String.append dir (String.append "/" file).

Example clean_text_nbsp :
  clean_text ascii_only ascii_only (Some (py "a&nbsp;b   c")) = py "a b c".
Proof. by vm_compute. Qed.

Example categorize_unclean_ftp :
  categorize_unclean ascii_only ascii_case sample_config
    (qa "ftp://x" "a valid full answer here") = py "Malformed Entry".
Proof. by vm_compute. Qed.

Example categorize_unclean_short :
  categorize_unclean ascii_only ascii_case sample_config
    (qa "https://x" "short") = py "Too Short".
Proof. by vm_compute. Qed.

Example categorize_unclean_long :
  categorize_unclean ascii_only ascii_case sample_config
    (qa "https://x" "this is a sufficiently long answer text") = py "Other".
Proof. by vm_compute. Qed.

Example process_sample_data :
  match process ascii_only ascii_only ascii_case sample_config sample_data with
  | Ok (df, clean_df, unclean_df) =>
      summary clean_df =
        [ (0%nat, py "Other", py "this is a sufficiently long answer text");
          (5%nat, py "Other", py "fifteen chars!!") ]
      ∧ summary unclean_df =
        [ (1%nat, py "Malformed Entry", py "a valid full answer here");
          (2%nat, py "Too Short", py "short");
          (3%nat, py "No Answer", py "None") ]
  | Raise _ => False
  end.
Proof. by vm_compute. Qed.

(** A url column without a string in which a key is missing is a column
    of floats: the [None] of the first record reads as [NaN], which is
    also the url of the second, and one row is kept. *)
Example process_null_and_missing_url :
  match process ascii_only ascii_only ascii_case sample_config
          [ {[ "url" := PyNone;
               "answer" := PyStr (py "an answer of some length") ]};
            {[ "answer" := PyStr (py "another answer, as long") ]} ] with
  | Ok (df, clean_df, unclean_df) =>
      (λ ir, (ir.1, cell ir.2 "url", py_str (cell ir.2 "reason"))) <$> rows df
      = [ (0%nat, PyNaN, py "Malformed Entry") ]
  | Raise _ => False
  end.
Proof. by vm_compute. Qed.

(** So is an answer column: both answers are stored as ["nan"].  A column
    that holds [None] and nothing else keeps it, stored as ["None"]. *)
Example process_null_and_missing_answer :
  match process ascii_only ascii_only ascii_case sample_config
          [ {[ "url" := PyStr (py "https://a"); "answer" := PyNone ]};
            {[ "url" := PyStr (py "https://b") ]} ] with
  | Ok (df, clean_df, unclean_df) =>
      summary df = [ (0%nat, py "No Answer", py "nan");
                     (1%nat, py "No Answer", py "nan") ]
  | Raise _ => False
  end
  ∧ match process ascii_only ascii_only ascii_case sample_config
            [ {[ "url" := PyStr (py "https://a"); "answer" := PyNone ]} ] with
    | Ok (df, clean_df, unclean_df) =>
        summary df = [ (0%nat, py "No Answer", py "None") ]
    | Raise _ => False
    end.
Proof. split; by vm_compute. Qed.

Lemma process_sample_returns :
  match process ascii_only ascii_only ascii_case sample_config sample_data with
  | Ok _ => True
  | Raise _ => False
  end.
Proof. by vm_compute. Defined.

(** ** Instances of the theorems with hypotheses *)

Lemma categorize_unclean_answer_url_only_witness :
  let r1 := qa "https://x" "this is a sufficiently long answer text" in
  let r2 := delete "question" (<[ "body" := PyNaN ]> r1) in
  r1 !! "answer" = r2 !! "answer"
  ∧ r1 !! "url" = r2 !! "url"
  ∧ r1 !! "question" ≠ r2 !! "question"
  ∧ categorize_unclean ascii_only ascii_case sample_config r1 =
    categorize_unclean ascii_only ascii_case sample_config r2.
Proof.
  split; [by vm_compute|]. split; [by vm_compute|]. split; [by vm_compute|].
  apply categorize_unclean_answer_url_only; by vm_compute.
Defined.

Lemma categorize_unclean_none_answer_witness :
  let row := <[ "answer" := PyNone ]> (qa "https://z" "-") in
  row !! "answer" = Some PyNone
  ∧ categorize_unclean ascii_only ascii_case sample_config row = py "No Answer".
Proof.
  split; [by vm_compute|].
  apply (categorize_unclean_none_answer ascii_only ascii_case sample_config).
  by vm_compute.
Defined.

Lemma sample_frame_index : NoDup (index sample_frame).
Proof. apply (bool_decide_unpack _). by vm_compute. Defined.

Lemma sample_frame_reason : "reason" ∈ columns sample_frame.
Proof. apply (bool_decide_unpack _). by vm_compute. Defined.

Lemma sample_frame_answer : "answer" ∈ columns sample_frame.
Proof. apply (bool_decide_unpack _). by vm_compute. Defined.

Lemma sample_frame_classified :
  classified ascii_only ascii_case sample_config sample_frame.
Proof. apply (bool_decide_unpack _). by vm_compute. Defined.

Lemma partition_exhaustive_disjoint_witness :
  NoDup (index sample_frame)
  ∧ "reason" ∈ columns sample_frame
  ∧ "answer" ∈ columns sample_frame
  ∧ ∃ clean_df unclean_df,
      partition ascii_only sample_config sample_frame =
        Ok (clean_df, unclean_df)
      ∧ (∀ ir, ir ∈ rows sample_frame ↔
               ir ∈ rows clean_df ∨ ir ∈ rows unclean_df)
      ∧ (∀ ir, ¬ (ir ∈ rows clean_df ∧ ir ∈ rows unclean_df))
      ∧ rows clean_df ++ rows unclean_df ≡ₚ rows sample_frame.
Proof.
  split; [apply sample_frame_index|].
  split; [apply sample_frame_reason|].
  split; [apply sample_frame_answer|].
  apply partition_exhaustive_disjoint.
  - apply sample_frame_index.
  - apply sample_frame_reason.
  - apply sample_frame_answer.
Defined.

(** A frame of three tagged records with trimmed answers: one passes the
    rule, one is tagged ["Other"] with an answer below the threshold, and
    one is long enough under another tag. *)
Definition tagged (reason answer : string) : gmap string pyval :=
  {[ "reason" := PyStr (py reason); "answer" := PyStr (py answer) ]}.

Definition tagged_frame : DataFrame :=
  {| columns := {[ "answer"; "reason" ]};
     rows := [ (0%nat, tagged "Other" "an answer of some length");
               (1%nat, tagged "Other" "short");
               (2%nat, tagged "Too Short" "an answer of some length") ] |}.

Lemma tagged_frame_trimmed ir :
  ir ∈ rows tagged_frame → answer_trimmed ascii_only ir.2.
Proof.
  cbn [rows tagged_frame]. rewrite !elem_of_cons, elem_of_nil.
  intros [->|[->|[->|[]]]] a [= <-]; reflexivity.
Defined.

Lemma partition_clean_rule_witness :
  NoDup (index tagged_frame)
  ∧ "reason" ∈ columns tagged_frame
  ∧ "answer" ∈ columns tagged_frame
  ∧ ∃ clean_df unclean_df,
      partition ascii_only sample_config tagged_frame =
        Ok (clean_df, unclean_df)
      ∧ (∀ ir, ir ∈ rows tagged_frame →
           (ir ∈ rows clean_df ↔
              ir ∈ rows tagged_frame
              ∧ passes_recheck ascii_only sample_config ir.2)
           ∧ (ir ∈ rows unclean_df ↔
                ir ∈ rows tagged_frame
                ∧ ¬ passes_recheck ascii_only sample_config ir.2))
      ∧ index clean_df = [0%nat]
      ∧ index unclean_df = [1%nat; 2%nat].
Proof.
  assert (NoDup (index tagged_frame)) as Hidx
    by (apply (bool_decide_unpack _); by vm_compute).
  assert ("reason" ∈ columns tagged_frame) as Hr
    by (apply (bool_decide_unpack _); by vm_compute).
  assert ("answer" ∈ columns tagged_frame) as Ha
    by (apply (bool_decide_unpack _); by vm_compute).
  split; [exact Hidx|]. split; [exact Hr|]. split; [exact Ha|].
  destruct (partition_clean_rule ascii_only sample_config tagged_frame
              Hidx Hr Ha) as (c & u & Hp & _ & _ & Hrule).
  exists c, u. split; [exact Hp|].
  split; [intros ir Hin; apply Hrule; by apply tagged_frame_trimmed|].
  assert (partition ascii_only sample_config tagged_frame =
            Ok (select (λ ir, clean_mask ascii_only sample_config ir.2)
                  tagged_frame,
                select (λ ir, negb (clean_mask ascii_only sample_config ir.2))
                  tagged_frame)) as Hp' by (by vm_compute).
  rewrite Hp' in Hp. apply Ok_inj, pair_equal_spec in Hp as [<- <-].
  split; by vm_compute.
Defined.

Lemma process_other_is_clean_witness :
  ∃ df clean_df unclean_df,
    process ascii_only ascii_only ascii_case sample_config sample_data =
      Ok (df, clean_df, unclean_df)
    ∧ classified ascii_only ascii_case sample_config df
    ∧ (∀ ir, ir ∈ rows df →
         categorize_unclean ascii_only ascii_case sample_config ir.2 =
           py "Other" →
         ir ∈ rows clean_df ∧ ir ∉ rows unclean_df)
    ∧ (∀ ir, ir ∈ rows unclean_df →
         cell ir.2 "reason" ≠ PyStr (py "Other")).
Proof.
  destruct (process ascii_only ascii_only ascii_case sample_config sample_data)
    as [[[df clean_df] unclean_df]|e] eqn:E.
  - exists df, clean_df, unclean_df. split; [done|].
    by apply (process_other_is_clean ascii_only ascii_only ascii_case
                sample_config sample_data).
  - exfalso. pose proof process_sample_returns as H.
    rewrite E in H. exact H.
Defined.

Lemma clean_dataset_missing_input_witness :
  files empty_world !! RAW_PATH sample_config slash = None
  ∧ ∃ w', clean_dataset ascii_only ascii_only ascii_case sample_config unit
            (λ _, None) (λ _, tt) open_works mkdir_works to_csv_works slash empty_world
          = (w', Ok tt)
      ∧ files w' = files empty_world
      ∧ files w' !! CLEAN_PATH sample_config slash =
          files empty_world !! CLEAN_PATH sample_config slash
      ∧ files w' !! UNCLEAN_PATH sample_config slash =
          files empty_world !! UNCLEAN_PATH sample_config slash
      ∧ console w' = console empty_world ++ [MsgRawNotFound].
Proof.
  split; [done|]. by apply clean_dataset_missing_input.
Defined.

(** ** The open question of the specification *)

(** What the specification suspects: some run of the pipeline reports
    in the unclean frame, with reason ["Other"], a record that the
    classifier classified ["Other"] and the partition step kept out of
    the clean frame. *)
Definition other_reported_unclean : Prop :=
  ∃ (uni_isspace uni_isalnum : N → bool) (uni_lower : list N → list N)
    (config : Config) (data : list (gmap string pyval))
    (df clean_df unclean_df : DataFrame) (ir : nat * gmap string pyval),
    process uni_isspace uni_isalnum uni_lower config data =
      Ok (df, clean_df, unclean_df)
    ∧ ir ∈ rows df
    ∧ categorize_unclean uni_isspace uni_lower config ir.2 = py "Other"
    ∧ (ir ∉ rows clean_df)
    ∧ ir ∈ rows unclean_df
    ∧ cell ir.2 "reason" = PyStr (py "Other").

(** No run does so, whatever the tables, the threshold and the data; on
    [sample_data] the two records classified ["Other"] are the clean
    frame, one of them exactly as long as the threshold. *)
Lemma other_never_reported_unclean :
  ¬ other_reported_unclean
  ∧ match process ascii_only ascii_only ascii_case sample_config sample_data
    with
    | Ok (df, clean_df, unclean_df) =>
        summary clean_df =
          [ (0%nat, py "Other", py "this is a sufficiently long answer text");
            (5%nat, py "Other", py "fifteen chars!!") ]
        ∧ ((λ t, t.1.2) <$> summary unclean_df) =
          [ py "Malformed Entry"; py "Too Short"; py "No Answer" ]
    | Raise _ => False
    end.
Proof.
  split; [|by vm_compute].
  intros (sp & al & lo & cfg & data & df & c & u & ir
          & Hp & Hin & Hcat & Hnc & _).
  apply process_spec in Hp as (_ & Hc & _ & Hother).
  apply Hnc. rewrite Hc. apply elem_of_select. split; [done|].
  by apply Hother.
Qed.

(** ** Instances of the further properties *)

(** A world whose raw file holds [sample_data]; file contents are lists
    of records, already parsed, and a frame is rendered as its rows. *)
Definition render (df : DataFrame) : list (gmap string pyval) :=
  snd <$> rows df.

Definition sample_world : World (list (gmap string pyval)) :=
  {| files := {[ slash "data" "raw_data.json" := sample_data ]};
     console := [] |}.

(** The world the scraper leaves when it found no question. *)
Definition empty_raw_world : World (list (gmap string pyval)) :=
  {| files := {[ slash "data" "raw_data.json" := [] ]}; console := [] |}.

Lemma clean_text_keeps_black_witness :
  let s := py "  two   words	here " in
  ¬ contains_entity ascii_only s
  ∧ black ascii_only (clean_text ascii_only ascii_only (Some s)) =
    black ascii_only s.
Proof.
  assert (¬ contains_entity ascii_only (py "  two   words	here ")) as H.
  { apply entity_free_spec.
    repeat (apply entity_free_cons; split; [reflexivity|]).
    apply entity_free_nil. }
  split; [exact H|]. by apply clean_text_keeps_black.
Defined.

Lemma categorize_unclean_padding_witness :
  let row := qa "https://x" "-" in
  forallb (isspace ascii_only) (py "  ") = true
  ∧ forallb (isspace ascii_only) (py " 	") = true
  ∧ categorize_unclean ascii_only ascii_case sample_config
      (<["answer" := PyStr (py "  " ++ py "short" ++ py " 	")]> row) =
    categorize_unclean ascii_only ascii_case sample_config
      (<["answer" := PyStr (py "short")]> row).
Proof.
  split; [reflexivity|]. split; [reflexivity|].
  by apply (categorize_unclean_padding ascii_only ascii_case sample_config).
Defined.


Lemma process_clean_rows_witness :
  ∃ df clean_df unclean_df,
    process ascii_only ascii_only ascii_case sample_config sample_data =
      Ok (df, clean_df, unclean_df)
    ∧ NoDup (url_of <$> rows clean_df).
Proof.
  destruct (process ascii_only ascii_only ascii_case sample_config sample_data)
    as [[[df clean_df] unclean_df]|e] eqn:E.
  - exists df, clean_df, unclean_df. split; [done|].
    by apply (process_clean_rows ascii_only ascii_only ascii_case
                sample_config sample_data df clean_df unclean_df).
  - exfalso. pose proof process_sample_returns as H.
    rewrite E in H. exact H.
Defined.


Lemma sample_data_url :
  ∃ r, r ∈ sample_data ∧ is_Some (r !! "url").
Proof. eexists. split; [by left|]. by eexists. Defined.

Lemma sample_data_answer :
  ∃ r, r ∈ sample_data ∧ is_Some (r !! "answer").
Proof. eexists. split; [by left|]. by eexists. Defined.

Lemma sample_world_writes df clean_df unclean_df :
  process ascii_only ascii_only ascii_case sample_config sample_data =
    Ok (df, clean_df, unclean_df) →
  writes_succeed sample_config _ render mkdir_works to_csv_works slash
    sample_world clean_df unclean_df.
Proof. by intros _. Defined.


(** A file system on which the unclean file cannot be written: writing
    it raises before the file is opened. *)
Definition unclean_unwritable
    : gmap string (list (gmap string pyval)) → string → DataFrame
      → option (string * option (list (gmap string pyval))) :=
  λ _ p _, if String.eqb p "data/uncleaned_data.csv"
           then Some ("IsADirectoryError", None) else None.

Lemma sample_data_processed :
  ∃ df clean_df unclean_df,
    process ascii_only ascii_only ascii_case sample_config sample_data =
      Ok (df, clean_df, unclean_df).
Proof.
  destruct (process ascii_only ascii_only ascii_case sample_config sample_data)
    as [[[df clean_df] unclean_df]|e] eqn:E.
  - by exists df, clean_df, unclean_df.
  - exfalso. pose proof process_sample_returns as H.
    rewrite E in H. exact H.
Defined.

(** The run on [sample_data] when the unclean file cannot be written. *)
Lemma sample_unwritable_run :
  ∃ w' clean_df,
    clean_dataset ascii_only ascii_only ascii_case sample_config _
      Some render open_works mkdir_works unclean_unwritable slash sample_world
    = (w', Raise (LibraryError "IsADirectoryError"))
    ∧ files w' !! CLEAN_PATH sample_config slash = Some (render clean_df).
Proof.
  destruct sample_data_processed as (df & c & u & Hp).
  eexists _, c.
  rewrite (clean_dataset_found ascii_only ascii_only ascii_case sample_config
             _ Some render open_works mkdir_works unclean_unwritable slash
             sample_world sample_data eq_refl).
  change (open_works _ _) with (@None string).
  cbv beta iota zeta. rewrite Hp. unfold save_and_report.
  change (mkdir_works _ _) with (@None string).
  cbv beta iota.
  change (unclean_unwritable _ (CLEAN_PATH sample_config slash) c)
    with (@None (string * option (list (gmap string pyval)))).
  cbv beta iota zeta.
  change (unclean_unwritable _ (UNCLEAN_PATH sample_config slash) u)
    with (Some ("IsADirectoryError", @None (list (gmap string pyval)))).
  cbv beta iota. split; [reflexivity|].
  cbn [files left_behind]. apply lookup_insert_eq.
Defined.


(** A raw file whose one record has a question and nothing else. *)
Definition question_only : gmap string pyval :=
  {[ "question" := PyStr (py "q") ]}.

Definition question_world : World (list (gmap string pyval)) :=
  {| files := {[ slash "data" "raw_data.json" := [question_only] ]};
     console := [] |}.


Lemma clean_dataset_unclean_write_fails_witness :
  ∃ w' clean_df,
    clean_dataset ascii_only ascii_only ascii_case sample_config _
      Some render open_works mkdir_works unclean_unwritable slash sample_world
    = (w', Raise (LibraryError "IsADirectoryError"))
    ∧ console w' = [MsgLoaded 6 (slash "data" "raw_data.json")]
    ∧ files w' !! CLEAN_PATH sample_config slash = Some (render clean_df)
    ∧ files w' !! UNCLEAN_PATH sample_config slash = None.
Proof.
  destruct sample_data_processed as (df & c & u & Hp).
  destruct (clean_dataset_unclean_write_fails ascii_only ascii_only
              ascii_case sample_config _ Some render open_works mkdir_works
              unclean_unwritable slash sample_world sample_data sample_data
              df c u "IsADirectoryError" None eq_refl eq_refl eq_refl Hp
              eq_refl eq_refl eq_refl)
    as (w' & Hrun & Hcon & Hc & Hu).
  exists w', c. split; [exact Hrun|]. split; [exact Hcon|].
  split; [by apply Hc|]. rewrite Hu. reflexivity.
Defined.

(** * The script [cleaner.py] and its configuration *)

(** ** [utils.load_config] and the module initialisation *)

(** The object in [config.json], entry by entry; an entry may be
    missing.  The paths are strings and the threshold is an integer. *)
Record ConfigObject := {
  cfg_output_folder : option string;
  cfg_raw_file : option string;
  cfg_clean_file : option string;
  cfg_unclean_file : option string;
  cfg_min_answer_length : option Z
}.

(** What can go wrong before [clean_dataset] is called: [load_config]
    does not find the file, [json.load] rejects it, or [config[key]]
    misses a key ([KeyError]). *)
Inductive startup_exn :=
| FileNotFoundError (path : string)
| ConfigDecodeError
| ConfigKeyError (key : string).

(** How a run of the script ends. *)
Inductive outcome :=
| Startup (e : startup_exn)
| Run (r : result unit).

(** [config[key]] *)
Definition subscript (key : string) (entry : option string)
    : startup_exn + string :=
  match entry with
  | Some v => inr v
  | None => inl (ConfigKeyError key)
  end.

(** Lines 26 to 29 of [cleaner.py]: the entries are read in the order
    [output_folder], [raw_file], [clean_file], [unclean_file]. *)
Definition cleaner_config (c : ConfigObject) : startup_exn + Config :=
  match subscript "output_folder" (cfg_output_folder c) with
  | inl e => inl e
  | inr folder =>
  match subscript "raw_file" (cfg_raw_file c) with
  | inl e => inl e
  | inr raw =>
  match subscript "clean_file" (cfg_clean_file c) with
  | inl e => inl e
  | inr clean =>
  match subscript "unclean_file" (cfg_unclean_file c) with
  | inl e => inl e
  | inr unclean =>
      inr {| output_folder := folder; raw_file := raw; clean_file := clean;
             unclean_file := unclean;
             min_answer_length := cfg_min_answer_length c |}
  end end end end.

Section Script.

Variable uni_isspace : N → bool.
Variable uni_isalnum : N → bool.
Variable uni_lower : list N → list N.
Variable content : Type.
Variable json_load : content → option (list (gmap string pyval)).
Variable to_csv : DataFrame → content.
Variable open_error : gmap string content → string → option string.
Variable mkdir_error : gmap string content → string → option string.
Variable to_csv_error :
  gmap string content → string → DataFrame → option (string * option content).
Variable path_join : string → string → string.

(** [json.load] on the configuration file. *)
Variable json_load_config : content → option ConfigObject.

(** [load_config(path)] *)
Definition load_config (path : string) (w : World content)
    : startup_exn + ConfigObject :=
  match files w !! path with
  | None => inl (FileNotFoundError path)
  | Some f =>
      match json_load_config f with
      | None => inl ConfigDecodeError
      | Some c => inr c
      end
  end.

(** [python cleaner.py]: the module is initialised, then [clean_dataset]
    runs. *)
Definition cleaner_script (w : World content) : World content * outcome :=
  match load_config "config.json" w with
  | inl e => (w, Startup e)
  | inr c =>
      match cleaner_config c with
      | inl e => (w, Startup e)
      | inr config =>
          let '(w', r) :=
            clean_dataset uni_isspace uni_isalnum uni_lower config content
              json_load to_csv open_error mkdir_error to_csv_error path_join w in
          (w', Run r)
      end
  end.

(** The path entries of the configuration that are missing. *)
Definition missing_entries (c : ConfigObject) : list string :=
  let missing key (entry : option string) :=
    match entry with Some _ => [] | None => [key] end in
  missing "output_folder" (cfg_output_folder c)
  ++ missing "raw_file" (cfg_raw_file c)
  ++ missing "clean_file" (cfg_clean_file c)
  ++ missing "unclean_file" (cfg_unclean_file c).

Lemma cleaner_config_missing (c : ConfigObject) :
  match cleaner_config c with
  | inr config =>
      missing_entries c = []
      ∧ MIN_ANSWER_LEN config = default 15%Z (cfg_min_answer_length c)
  | inl e => ∃ rest, missing_entries c = match e with
                                         | ConfigKeyError key => key :: rest
                                         | _ => []
                                         end
                     ∧ ∃ key, e = ConfigKeyError key
  end.
Proof.
  unfold cleaner_config, missing_entries, subscript.
  destruct (cfg_output_folder c), (cfg_raw_file c), (cfg_clean_file c),
    (cfg_unclean_file c); simpl; eauto.
Qed.



End Script.

(** * The records that [scraper.py] saves *)

(** What the selectors of [scrape_question_page] find in the page that
    [requests.get(url)] returned: the text of the tag matched by
    ["h1 a"], by [".s-prose"], by [".answer.accepted-answer .s-prose"]
    and by [".answer .s-prose"], each [None] when nothing matches. *)
Record Page := {
  title_text : option (list N);
  body_text : option (list N);
  accepted_answer_text : option (list N);
  first_answer_text : option (list N)
}.

(** The dictionary that [scrape_question_page(url)] returns. *)
Definition scrape_question_page (url : list N) (page : Page)
    : gmap string pyval :=
  let question_title := default (py "Untitled Question") (title_text page) in
  let question_body := default [] (body_text page) in
  let answer_tag :=
    match accepted_answer_text page with
    | Some a => Some a
    | None => first_answer_text page
    end in
  let answer_text :=
    match answer_tag with Some a => PyStr a | None => PyNone end in
  {[ "url" := PyStr url; "question" := PyStr question_title;
     "body" := PyStr question_body; "answer" := answer_text ]}.

(** [q_url] of [scrape_stackoverflow] for a link with the given [href]. *)
Definition question_url (href : list N) : list N :=
  py "https://stackoverflow.com" ++ href.

(** The records saved for a list of links and the pages behind them. *)
Definition scraped (links : list (list N * Page)) : list (gmap string pyval) :=
  (λ lp, scrape_question_page (question_url lp.1) lp.2) <$> links.

Section Scraped.

Variable uni_isspace : N → bool.
Variable uni_isalnum : N → bool.
Variable uni_lower : list N → list N.
Variable config : Config.

Lemma question_url_https href : startswith (question_url href) (py "https") = true.
Proof. reflexivity. Qed.

Lemma scraped_keys lp (k : string) :
  k ∈ ["url"; "question"; "body"; "answer"] →
  is_Some (scrape_question_page (question_url lp.1) lp.2 !! k).
Proof.
  unfold scrape_question_page. intros Hk.
  repeat (apply elem_of_cons in Hk as [->|Hk]); [| | | |by apply elem_of_nil in Hk].
  all: rewrite ?lookup_insert_eq, ?lookup_insert_ne by done; by eexists.
Qed.

Lemma scraped_lookup links i :
  scraped links !! i =
    (λ lp, scrape_question_page (question_url lp.1) lp.2) <$> links !! i.
Proof. apply list_lookup_fmap. Qed.

Lemma scraped_url url page :
  cell (scrape_question_page url page) "url" = PyStr url.
Proof. reflexivity. Qed.

(** The scraper writes the four keys into every record, none with [NaN]:
    the frame has no column of floats and its cells are the values of
    the records. *)
Lemma scraped_cell links (k : string) r :
  k ∈ ["url"; "question"; "body"; "answer"] →
  frame_cell (scraped links) r k = cell r k.
Proof.
  intros Hk. apply frame_cell_present.
  intros r' (lp & -> & _)%list_elem_of_fmap.
  unfold scrape_question_page, cell.
  repeat (apply elem_of_cons in Hk as [->|Hk]);
    [| | | |by apply elem_of_nil in Hk].
  all: rewrite ?lookup_insert_eq, ?lookup_insert_ne by done; cbn [default].
  all: try discriminate.
  by destruct (accepted_answer_text lp.2), (first_answer_text lp.2).
Qed.

Lemma scraped_returns links :
  links ≠ [] →
  ∃ df clean_df unclean_df,
    process uni_isspace uni_isalnum uni_lower config (scraped links) =
      Ok (df, clean_df, unclean_df).
Proof.
  destruct links as [|lp links]; [done|]. intros _.
  assert (∀ k : string, k ∈ ["url"; "question"; "body"; "answer"] →
            k ∈ columns (make_frame (scraped (lp :: links)))) as Hcol.
  { intros k Hk. apply columns_make_frame.
    exists (scrape_question_page (question_url lp.1) lp.2).
    split; [by left | by apply scraped_keys]. }
  apply process_returns; apply Hcol; rewrite !elem_of_cons; tauto.
Qed.

Lemma scraped_rows (links : list (list N * Page)) df clean_df unclean_df :
  process uni_isspace uni_isalnum uni_lower config (scraped links) =
    Ok (df, clean_df, unclean_df) →
  ∀ i r, (i, r) ∈ rows df →
    (∃ href page, links !! i = Some (href, page)
                  ∧ cell r "url" = PyStr (question_url href))
    ∧ cell r "reason" ≠ PyStr (py "Malformed Entry").
Proof.
  intros Hp i r Hin.
  destruct (process_rows_full _ _ _ _ _ _ _ _ Hp) as [Horigin _].
  destruct (Horigin i r Hin) as (r0 & Hi & _ & Hurl & _ & Hreason).
  rewrite scraped_cell in Hurl by (rewrite !elem_of_cons; tauto).
  rewrite scraped_lookup in Hi.
  destruct (links !! i) as [[href page]|] eqn:E; [|done].
  injection Hi as <-. rewrite scraped_url in Hurl. split; [by eauto|].
  rewrite Hreason. intros [= Hm].
  destruct (categorize_unclean_cases uni_isspace uni_lower config r)
    as [(_ & E')|[(_ & Hmal & _)|[(_ & _ & _ & E')|(_ & _ & _ & E')]]];
    try (rewrite E' in Hm; vm_compute in Hm; discriminate Hm).
  specialize (Hmal (question_url href)).
  rewrite (cell_get _ _ _ _ Hurl) in Hmal. by specialize (Hmal eq_refl).
Qed.

(** X14: the cleaner accepts what the scraper saves.  On the records of a
    non-empty list of scraped links the pipeline returns its frames; every
    row has the url ["https://stackoverflow.com"] followed by the link's
    [href], and no row gets the reason ["Malformed Entry"]. *)
Theorem scraped_process (links : list (list N * Page)) :
  links ≠ [] →
  ∃ df clean_df unclean_df,
    process uni_isspace uni_isalnum uni_lower config (scraped links) =
      Ok (df, clean_df, unclean_df)
    ∧ ∀ i r, (i, r) ∈ rows df →
        (∃ href page, links !! i = Some (href, page)
                      ∧ cell r "url" = PyStr (question_url href))
        ∧ cell r "reason" ≠ PyStr (py "Malformed Entry").
Proof.
  intros Hne. destruct (scraped_returns links Hne) as (df & c & u & Hp).
  exists df, c, u. split; [done|]. by apply (scraped_rows links df c u).
Qed.

(** X15: a question for which the scraper found no answer is reported.
    If the page of a link has no answer and no earlier link has the same
    [href], then the unclean frame has a row for it, with the answer text
    ["None"] and the reason ["No Answer"]. *)
Theorem scraped_unanswered (links : list (list N * Page)) i href page
    df clean_df unclean_df :
  links !! i = Some (href, page) →
  accepted_answer_text page = None → first_answer_text page = None →
  (∀ j href' page', (j < i)%nat → links !! j = Some (href', page') →
                    href' ≠ href) →
  process uni_isspace uni_isalnum uni_lower config (scraped links) =
    Ok (df, clean_df, unclean_df) →
  ∃ r, (i, r) ∈ rows unclean_df
       ∧ cell r "answer" = PyStr (py "None")
       ∧ cell r "reason" = PyStr (py "No Answer").
Proof.
  intros Hi Hacc Hfirst Hnew Hp.
  destruct (process_rows_full _ _ _ _ _ _ _ _ Hp) as [Horigin Hrow].
  destruct (Hrow i (scrape_question_page (question_url href) page)) as [r Hin].
  { by rewrite scraped_lookup, Hi. }
  { intros j r1 Hj Hr1. rewrite scraped_lookup in Hr1.
    destruct (links !! j) as [[href' page']|] eqn:E; [|done].
    injection Hr1 as <-.
    rewrite !scraped_cell by (rewrite !elem_of_cons; tauto).
    rewrite !scraped_url. intros [= Heq].
    by apply (Hnew j href' page'). }
  destruct (Horigin i r Hin) as (r0 & Hi0 & _ & _ & Ha & Hreason).
  rewrite scraped_cell in Ha by (rewrite !elem_of_cons; tauto).
  rewrite scraped_lookup, Hi in Hi0. injection Hi0 as <-.
  assert (cell (scrape_question_page (question_url href) page) "answer"
          = PyNone) as Hnone.
  { unfold scrape_question_page. rewrite Hacc, Hfirst. reflexivity. }
  rewrite Hnone in Ha.
  assert (cell r "answer" = PyStr (py "None")) as Ha' by (rewrite Ha; reflexivity).
  assert (categorize_unclean uni_isspace uni_lower config r = py "No Answer")
    as Hcat.
  { apply no_answer_reason. unfold no_answer, trimmed_answer.
    rewrite (cell_get _ _ _ _ Ha'). vm_compute. by right; left. }
  rewrite Hcat in Hreason. exists r. split; [|done].
  apply process_spec in Hp as (_ & _ & -> & _).
  apply elem_of_select. split; [done|]. apply negb_true_iff.
  destruct (clean_mask uni_isspace config r) eqn:Hm; [|done].
  apply clean_mask_literal in Hm as [Hm _]. rewrite Hreason in Hm.
  vm_compute in Hm. discriminate Hm.
Qed.

End Scraped.

(** ** [scrape_stackoverflow] *)

(** The entries of [config.json] that the scraper reads: [base_url] when
    the module is loaded, the others when the code comes to them, so
    that they may be missing.  The two sleep entries hold the arguments
    of [rate_limit]; [headers] is handed to [requests] inside the [try]
    blocks. *)
Record ScraperConfig (wait : Type) := {
  base_url : list N;
  scrape_pages : option Z;
  sleep_between_questions : option wait;
  sleep_between_pages : option wait;
  scraper_output_folder : option string;
  scraper_raw_file : option string
}.
Arguments base_url {wait} _.
Arguments scrape_pages {wait} _.
Arguments sleep_between_questions {wait} _.
Arguments sleep_between_pages {wait} _.
Arguments scraper_output_folder {wait} _.
Arguments scraper_raw_file {wait} _.

(** Lines that the scraper prints; [rate_limit] prints one before it
    sleeps. *)
Inductive scraper_message :=
| MsgStarting (pages : Z)
| MsgListPage (page : nat)
| MsgListError (page : nat)
| MsgFound (n : nat)
| MsgQuestionError (url : list N)
| MsgSleeping
| MsgSaved (n : nat) (path : string).

(** What the request for a list page gives: [requests.get] or
    [raise_for_status] raises, which the loop catches; or
    [BeautifulSoup] raises on the response, which nothing catches; or
    the selector finds the question links, each given by its [href],
    [None] for a link without one. *)
Inductive list_response :=
| FetchFailed
| ParseFailed (name : string)
| Questions (links : list (option (list N))).

(** How a call of [rate_limit] ends: it has slept, or it raised the
    exception [name], before or after it printed its line. *)
Inductive sleep_outcome :=
| Slept
| SleepFailed (said : bool) (name : string).

(** [str(page)] *)
Definition decimal (n : nat) : list N :=
  py (NilEmpty.string_of_uint (Nat.to_uint n)).

Section Scraper.

(** The world outside: a request, and the random delay of [rate_limit],
    may change its state. *)
Variable net : Type.
Variable get_list : list N → net → net * list_response.
Variable get_page : list N → net → net * option Page.

(** [rate_limit] called with the value [range] of a sleep entry. *)
Variable wait : Type.
Variable sleep : wait → net → net * sleep_outcome.

Variable content : Type.
Variable json_dump : list (gmap string pyval) → content.

(** What goes wrong in [mkdir] and in writing the raw file. *)
Variable mkdir_error : gmap string content → string → option string.
Variable dump_error :
  gmap string content → string → list (gmap string pyval)
  → option (string * option content).

Variable path_join : string → string → string.
Variable config : ScraperConfig wait.

(** The state of a run: the world outside, the module-level list
    [RESULTS], the lines printed and the files. *)
Record Scraping := {
  network : net;
  RESULTS : list (gmap string pyval);
  printed : list scraper_message;
  saved_files : gmap string content
}.

Definition say (msg : scraper_message) (st : Scraping) : Scraping :=
  {| network := network st; RESULTS := RESULTS st;
     printed := printed st ++ [msg]; saved_files := saved_files st |}.

Definition connected (n : net) (st : Scraping) : Scraping :=
  {| network := n; RESULTS := RESULTS st;
     printed := printed st; saved_files := saved_files st |}.

(** [rate_limit] called with the entry [key] of the configuration. *)
Definition rate_limit (key : string) (entry : option wait) (st : Scraping)
    : Scraping * result unit :=
  match entry with
  | None => (st, Raise (KeyError key))
  | Some range =>
      let '(n, outcome) := sleep range (network st) in
      let st := connected n st in
      match outcome with
      | Slept => (say MsgSleeping st, Ok tt)
      | SleepFailed said name =>
          (if said then say MsgSleeping st else st, Raise (LibraryError name))
      end
  end.

(** The loop over the question links of one list page. *)
Fixpoint scrape_questions (questions : list (option (list N)))
    (st : Scraping) : Scraping * result unit :=
  match questions with
  | [] => (st, Ok tt)
  | q :: rest =>
      match q with
      | None => (st, Raise (KeyError "href"))
      | Some href =>
          let q_url := question_url href in
          let '(n, response) := get_page q_url (network st) in
          let st :=
            match response with
            | Some page =>
                {| network := n;
                   RESULTS := RESULTS st ++ [scrape_question_page q_url page];
                   printed := printed st; saved_files := saved_files st |}
            | None => say (MsgQuestionError q_url) (connected n st)
            end in
          match rate_limit "sleep_between_questions"
                  (sleep_between_questions config) st with
          | (st, Raise e) => (st, Raise e)
          | (st, Ok _) => scrape_questions rest st
          end
      end
  end.

Definition list_url (page : nat) : list N :=
  base_url config ++ py "?tab=newest&page=" ++ decimal page.

(** The loop over the list pages. *)
Fixpoint scrape_list_pages (pages : list nat) (st : Scraping)
    : Scraping * result unit :=
  match pages with
  | [] => (st, Ok tt)
  | page :: rest =>
      let st := say (MsgListPage page) st in
      let '(n, response) := get_list (list_url page) (network st) in
      let st := connected n st in
      match response with
      | FetchFailed => scrape_list_pages rest (say (MsgListError page) st)
      | ParseFailed name => (st, Raise (LibraryError name))
      | Questions questions =>
          let st := say (MsgFound (length questions)) st in
          match scrape_questions questions st with
          | (st, Raise e) => (st, Raise e)
          | (st, Ok _) =>
              match rate_limit "sleep_between_pages"
                      (sleep_between_pages config) st with
              | (st, Raise e) => (st, Raise e)
              | (st, Ok _) => scrape_list_pages rest st
              end
          end
      end
  end.

(** [pages or config.get("scrape_pages", 5)] *)
Definition pages_or_default (pages : option Z) : Z :=
  match pages with
  | Some p => if (p =? 0)%Z then default 5%Z (scrape_pages config) else p
  | None => default 5%Z (scrape_pages config)
  end.

(** The saving of the results, lines 127 to 135. *)
Definition save_results (st : Scraping) : Scraping * result unit :=
  match scraper_output_folder config with
  | None => (st, Raise (KeyError "output_folder"))
  | Some output_folder =>
      match mkdir_error (saved_files st) output_folder with
      | Some name => (st, Raise (LibraryError name))
      | None =>
          match scraper_raw_file config with
          | None => (st, Raise (KeyError "raw_file"))
          | Some raw_file =>
              let raw_path := path_join output_folder raw_file in
              match dump_error (saved_files st) raw_path (RESULTS st) with
              | Some (name, partial) =>
                  ({| network := network st; RESULTS := RESULTS st;
                      printed := printed st;
                      saved_files :=
                        left_behind partial raw_path (saved_files st) |},
                   Raise (LibraryError name))
              | None =>
                  (say (MsgSaved (length (RESULTS st)) raw_path)
                     {| network := network st; RESULTS := RESULTS st;
                        printed := printed st;
                        saved_files :=
                          <[raw_path := json_dump (RESULTS st)]>
                            (saved_files st) |},
                   Ok tt)
              end
          end
      end
  end.

(** [scrape_stackoverflow(pages)] *)
Definition scrape_stackoverflow (pages : option Z) (st : Scraping)
    : Scraping * result unit :=
  let pages := pages_or_default pages in
  let st := say (MsgStarting pages) st in
  match scrape_list_pages (seq 1 (Z.to_nat pages)) st with
  | (st, Raise e) => (st, Raise e)
  | (st, Ok _) => save_results st
  end.

(** The path of the raw file, when the configuration has its two
    entries. *)
Definition raw_path : option string :=
  match scraper_output_folder config, scraper_raw_file config with
  | Some output_folder, Some raw_file => Some (path_join output_folder raw_file)
  | _, _ => None
  end.

(** The exceptions that escape the loops: the [KeyError] of a link
    without [href] or of a missing sleep entry, and what [BeautifulSoup]
    and [rate_limit] raise. *)
Definition loop_exception (e : exn) : Prop :=
  match e with
  | KeyError key =>
      key = "href"
      ∨ (key = "sleep_between_questions"
         ∧ sleep_between_questions config = None)
      ∨ (key = "sleep_between_pages" ∧ sleep_between_pages config = None)
  | LibraryError _ => True
  | JSONDecodeError => False
  end.

Lemma rate_limit_results key entry st st' r :
  rate_limit key entry st = (st', r) →
  RESULTS st' = RESULTS st
  ∧ saved_files st' = saved_files st
  ∧ match r with
    | Ok _ => True
    | Raise (KeyError key') => key' = key ∧ entry = None
    | Raise (LibraryError _) => True
    | Raise JSONDecodeError => False
    end.
Proof.
  unfold rate_limit. destruct entry as [range|]; [|by intros [= <- <-]].
  destruct (sleep range (network st)) as [n [|said name]].
  - by intros [= <- <-].
  - intros [= <- <-]. by destruct said.
Qed.

Lemma scrape_questions_results questions st st' r :
  scrape_questions questions st = (st', r) →
  (∃ links, RESULTS st' = RESULTS st ++ scraped links
            ∧ (length links ≤ length questions)%nat)
  ∧ saved_files st' = saved_files st
  ∧ match r with Ok _ => True | Raise e => loop_exception e end.
Proof.
  revert st. induction questions as [|q rest IH]; intros st; simpl.
  { intros [= <- <-]. split; [|done].
    exists []. by rewrite app_nil_r. }
  destruct q as [href|].
  2:{ intros [= <- <-]. split; [|by split; [|left]].
      exists []. rewrite app_nil_r. split; [done|simpl; lia]. }
  destruct (get_page (question_url href) (network st)) as [n [page|]].
  - destruct (rate_limit _ _ _) as [st1 [[]|e]] eqn:Er;
      apply rate_limit_results in Er as (Hres1 & Hfiles1 & Hr1);
      cbn [RESULTS saved_files] in Hres1, Hfiles1.
    + intros ([links [Hres Hlen]] & Hfiles & Hr)%IH.
      split; [|split; [congruence|done]]. exists ((href, page) :: links).
      split; [|simpl; lia]. rewrite Hres, Hres1. by rewrite <- app_assoc.
    + intros [= <- <-]. split; [|split; [done|]].
      * exists [(href, page)]. split; [done|simpl; lia].
      * destruct e as [key| |name]; [|done|done].
        destruct Hr1 as [-> ?]. right. by left.
  - destruct (rate_limit _ _ _) as [st1 [[]|e]] eqn:Er;
      apply rate_limit_results in Er as (Hres1 & Hfiles1 & Hr1);
      cbn [RESULTS saved_files say connected] in Hres1, Hfiles1.
    + intros ([links [Hres Hlen]] & Hfiles & Hr)%IH.
      split; [|split; [congruence|done]]. exists links.
      split; [congruence|lia].
    + intros [= <- <-]. split; [|split; [done|]].
      * exists []. rewrite app_nil_r. split; [done|simpl; lia].
      * destruct e as [key| |name]; [|done|done].
        destruct Hr1 as [-> ?]. right. by left.
Qed.

Lemma scrape_list_pages_results pages st st' r :
  scrape_list_pages pages st = (st', r) →
  (∃ links, RESULTS st' = RESULTS st ++ scraped links)
  ∧ saved_files st' = saved_files st
  ∧ match r with Ok _ => True | Raise e => loop_exception e end.
Proof.
  revert st. induction pages as [|page rest IH]; intros st; simpl.
  { intros [= <- <-]. split; [|done].
    exists []. by rewrite app_nil_r. }
  destruct (get_list (list_url page) (network st)) as [n [|name|questions]].
  - intros ([links Hres] & Hfiles & Hr)%IH; simpl in *.
    split; [by exists links|done].
  - intros [= <- <-]. split; [|done]. exists []. by rewrite app_nil_r.
  - destruct (scrape_questions questions _) as [st1 [[]|e]] eqn:Eq;
      apply scrape_questions_results in Eq
        as ([links1 [Hres1 _]] & Hfiles1 & Hr1);
      cbn [RESULTS saved_files say connected] in Hres1, Hfiles1.
    + destruct (rate_limit _ _ _) as [st2 [[]|e]] eqn:Er;
        apply rate_limit_results in Er as (Hres2 & Hfiles2 & Hr2).
      * intros ([links Hres] & Hfiles & Hr)%IH.
        split; [|split; [congruence|done]]. exists (links1 ++ links).
        unfold scraped in *. rewrite fmap_app, app_assoc, <- Hres1.
        congruence.
      * intros [= <- <-]. split; [|split; [congruence|]].
        -- exists links1. congruence.
        -- destruct e as [key| |name]; [|done|done].
           destruct Hr2 as [-> ?]. right. by right.
    + intros [= <- <-]. split; [by exists links1|]. by split.
Qed.

Lemma save_results_spec st st' r :
  save_results st = (st', r) →
  RESULTS st' = RESULTS st
  ∧ match r with
    | Ok _ =>
        ∃ p, raw_path = Some p
          ∧ saved_files st' = <[p := json_dump (RESULTS st)]> (saved_files st)
          ∧ last (printed st') = Some (MsgSaved (length (RESULTS st)) p)
    | Raise (KeyError key) =>
        saved_files st' = saved_files st
        ∧ ((key = "output_folder" ∧ scraper_output_folder config = None)
           ∨ (key = "raw_file" ∧ scraper_raw_file config = None))
    | Raise (LibraryError _) =>
        ∀ p, raw_path ≠ Some p → saved_files st' !! p = saved_files st !! p
    | Raise JSONDecodeError => False
    end.
Proof.
  unfold save_results, raw_path.
  destruct (scraper_output_folder config) as [folder|];
    [|intros [= <- <-]; split; [done|]; split; [done|by left]].
  destruct (mkdir_error _ _) as [name|]; [by intros [= <- <-]|].
  destruct (scraper_raw_file config) as [file|];
    [|intros [= <- <-]; split; [done|]; split; [done|by right]].
  destruct (dump_error _ _ _) as [[name partial]|]; intros [= <- <-].
  - split; [done|]. intros p Hp. cbn [saved_files].
    destruct partial as [c|]; cbn [left_behind]; [|done].
    rewrite lookup_insert_ne; [done|]. congruence.
  - split; [done|]. eexists. split; [reflexivity|]. split; [done|].
    apply last_snoc.
Qed.

Lemma scrape_stackoverflow_links (pages : option Z) st st' r :
  scrape_stackoverflow pages st = (st', r) →
  ∃ links, RESULTS st' = RESULTS st ++ scraped links.
Proof.
  unfold scrape_stackoverflow.
  destruct (scrape_list_pages _ _) as [st1 [[]|e]] eqn:E;
    apply scrape_list_pages_results in E as ([links Hres] & _);
    cbn [RESULTS say] in Hres.
  - intros [Hres' _]%save_results_spec. exists links. congruence.
  - intros [= <- _]. by exists links.
Qed.

Lemma scrape_stackoverflow_files (pages : option Z) st st' :
  scrape_stackoverflow pages st = (st', Ok tt) →
  ∃ p, raw_path = Some p
    ∧ saved_files st' = <[p := json_dump (RESULTS st')]> (saved_files st).
Proof.
  unfold scrape_stackoverflow.
  destruct (scrape_list_pages _ _) as [st1 [[]|e]] eqn:E; [|done].
  apply scrape_list_pages_results in E as (_ & Hfiles & _).
  cbn [saved_files say] in Hfiles.
  intros [Hres (p & Hp & Hsaved & _)]%save_results_spec.
  exists p. split; [done|]. by rewrite Hres, Hsaved, Hfiles.
Qed.


End Scraper.

Arguments network {net content} _.
Arguments RESULTS {net content} _.
Arguments printed {net content} _.
Arguments saved_files {net content} _.

(** * Scraping, then cleaning *)

Section ScrapeThenClean.

Variable uni_isspace : N → bool.
Variable uni_isalnum : N → bool.
Variable uni_lower : list N → list N.
Variable net : Type.
Variable get_list : list N → net → net * list_response.
Variable get_page : list N → net → net * option Page.
Variable wait : Type.
Variable sleep : wait → net → net * sleep_outcome.
Variable content : Type.
Variable json_dump : list (gmap string pyval) → content.
Variable json_load : content → option (list (gmap string pyval)).
Variable to_csv : DataFrame → content.
Variable open_error : gmap string content → string → option string.
Variable mkdir_error : gmap string content → string → option string.
Variable dump_error :
  gmap string content → string → list (gmap string pyval)
  → option (string * option content).
Variable to_csv_error :
  gmap string content → string → DataFrame → option (string * option content).
Variable path_join : string → string → string.
Variable scraper_config : ScraperConfig wait.
Variable config : Config.

(** [json.load] reads back what [json.dump] wrote. *)
Hypothesis json_round_trip : ∀ data, json_load (json_dump data) = Some data.

(** Both scripts read the same [config.json]. *)
Hypothesis same_folder :
  scraper_output_folder scraper_config = Some (output_folder config).
Hypothesis same_raw_file :
  scraper_raw_file scraper_config = Some (raw_file config).


End ScrapeThenClean.

(** * [dataset_creation]: intents and dialogues *)

(** ** [config.py] *)

Definition LOGGING_INTERVAL : nat := 20.

Definition CLEANED_DATA_PATH : string := "../web_scrapping/data/cleaned_data.csv".
Definition INTENT_DATA_PATH : string := "data/dataset_with_intents.csv".
Definition STRUCTURED_DATA_PATH : string := "data/structured_dataset.jsonl".

Definition INTENT_LABELS : list str :=
  [ py "greeting"; py "pricing"; py "setup"; py "troubleshooting";
    py "feature_information"; py "general_query" ].

Definition OPENAI_API_KEY : str := empty_str.

(** Exceptions of the two scripts: a file that [read_csv] does not find
    or cannot parse, a method or [len] applied to the float [NaN], a
    column that is not there, and the [ValueError] of the missing API
    key. *)
Inductive raised :=
| NoSuchFile (path : string)
| ParserError
| AttributeError
| TypeError
| NoSuchKey (key : string)
| ValueError.

(** [sep.join(parts)] *)
Fixpoint join (sep : str) (parts : list str) : str :=
  match parts with
  | [] => []
  | [p] => p
  | p :: rest => p ++ sep ++ join sep rest
  end.

Definition quote : codepoint := 34.

(** The prompt of [classify_intent_llm]. *)
Definition prompt (question body_summary : str) : str :=
  py "
You are an expert technical Q&A assistant. You will classify the input into one of these intents:
" ++ join (py ", ") INTENT_LABELS ++ py "

Steps:
1. Carefully read the Question and Body.
2. Analyze the technical context (code snippets, frameworks, data structures, etc.).
3. Compare it with each intent and determine the closest match.
4. If it matches one intent clearly, return ONLY that intent.
5. Only if there is absolutely no match, fallback to "
  ++ [quote] ++ py "general_query" ++ [quote] ++ py ".
6. Respond with a single intent label, lowercase, no punctuation, no explanation.

Input:
Question: " ++ [quote] ++ question ++ [quote] ++ py "
Body: " ++ [quote] ++ body_summary ++ [quote] ++ py "
".

(** Lines that the two scripts print. *)
Inductive creation_message :=
| MsgLLMFailed
| MsgLoadingDataset (path : string)
| MsgProcessed (done total : nat)
| MsgIntentsSaved (path : string)
| MsgDistribution (intents : list pyval)
| MsgBuilding
| MsgStructured (path : string)
| MsgTotalPairs (n : nat).

(** One line of the structured dataset: [id], [intent], and the
    contents of the user and the assistant message. *)
Record Dialogue := {
  dialogue_id : nat;
  dialogue_intent : pyval;
  user_content : pyval;
  assistant_content : pyval
}.

(** [pd.isna] on a cell. *)
Definition isna (v : pyval) : bool :=
  match v with
  | PyStr _ => false
  | _ => true
  end.

(** The frame that [pd.read_csv] builds from a header and the parsed
    lines: the columns are the header, the index is [0 .. n - 1], and
    every row holds exactly the header's columns, [NaN] where the line
    has no value. *)
Definition csv_row (header : gset string) (line : gmap string pyval)
    : gmap string pyval :=
  map_imap (λ col _, Some (cell line col)) (gset_to_gmap PyNaN header).

Definition csv_frame (header : gset string) (lines : list (gmap string pyval))
    : DataFrame :=
  {| columns := header; rows := imap (λ i line, (i, csv_row header line)) lines |}.

(** [df.dropna(subset=[col])] *)
Definition dropna (col : string) (df : DataFrame) : raised + DataFrame :=
  if bool_decide (col ∈ columns df)
  then inr {| columns := columns df;
              rows := filter (λ ir, isna (cell ir.2 col) = false) (rows df) |}
  else inl (NoSuchKey col).

(** [df["intent"] = intents], for a list as long as the frame. *)
Definition assign_intents (df : DataFrame) (intents : list str) : DataFrame :=
  {| columns := {["intent"]} ∪ columns df;
     rows := zip_with (λ ir intent, (ir.1, <["intent" := PyStr intent]> ir.2))
               (rows df) intents |}.

(** The loop of [build_dialogue_dataset] over the rows, with the list
    [records] built so far. *)
Fixpoint dialogue_records (l : list (nat * gmap string pyval))
    (records : list Dialogue) : raised + list Dialogue :=
  match l with
  | [] => inr records
  | (i, row) :: rest =>
      let intent := get row "intent" (PyStr (py "general_query")) in
      match row !! "question" with
      | None => inl (NoSuchKey "question")
      | Some question =>
          match row !! "answer" with
          | None => inl (NoSuchKey "answer")
          | Some answer =>
              dialogue_records rest
                (records ++ [ {| dialogue_id := i + 1;
                                 dialogue_intent := intent;
                                 user_content := question;
                                 assistant_content := answer |} ])
          end
      end
  end.

Section DatasetCreation.

Variable uni_isspace : codepoint → bool.
Variable uni_lower : str → str.

(** The hosted model: a request with a prompt may change its state and
    returns [output_text], or [None] when anything in the [try] block
    raises. *)
Variable llm : Type.
Variable responses_create : str → llm → llm * option str.

(** Files: what a CSV file parses to, and what is written. *)
Variable content : Type.
Variable csv_parse : content → option (gset string * list (gmap string pyval)).
Variable to_csv : DataFrame → content.
Variable jsonl : list Dialogue → content.

Record Creation := {
  model : llm;
  stored : gmap string content;
  shown : list creation_message
}.

Definition show (msg : creation_message) (st : Creation) : Creation :=
  {| model := model st; stored := stored st; shown := shown st ++ [msg] |}.

Definition store (path : string) (f : content) (st : Creation) : Creation :=
  {| model := model st; stored := <[path := f]> (stored st);
     shown := shown st |}.

(** [pd.read_csv(path)] *)
Definition read_csv (path : string) (st : Creation) : raised + DataFrame :=
  match stored st !! path with
  | None => inl (NoSuchFile path)
  | Some f =>
      match csv_parse f with
      | None => inl ParserError
      | Some (header, lines) => inr (csv_frame header lines)
      end
  end.

(** The truncation of [body] to 500 characters, for a [body] that is a
    string: [(body[:500] + "...") if body and len(body) > 500 else body]. *)
Definition body_summary (body : str) : str :=
  if negb (is_empty body) && (500 <? length body)%nat
  then take 500 body ++ py "..."
  else body.

(** [classify_intent_llm(question, body)]; the arguments are cells of a
    frame.  The float [NaN] is truthy, has no [strip] and no [len]. *)
Definition classify_intent_llm (question body : pyval) (st : Creation)
    : Creation * (raised + str) :=
  let general := (st, inr (py "general_query")) in
  match question with
  | PyNone => general
  | PyNaN => (st, inl AttributeError)
  | PyStr q =>
      if is_empty q || (length (strip uni_isspace q) <? 5)%nat then general
      else
        let summary :=
          match body with
          | PyNone => inr empty_str
          | PyNaN => inl TypeError
          | PyStr b => inr (body_summary b)
          end in
        match summary with
        | inl e => (st, inl e)
        | inr summary =>
            let '(m, response) :=
              responses_create (prompt q summary) (model st) in
            let st := {| model := m; stored := stored st;
                         shown := shown st |} in
            match response with
            | Some output_text =>
                let intent :=
                  lower uni_lower (strip uni_isspace output_text) in
                (st, inr (if bool_decide (intent ∈ INTENT_LABELS)
                          then intent else py "general_query"))
            | None => (show MsgLLMFailed st, inr (py "general_query"))
            end
        end
  end.

(** The loop of [add_intents_to_dataset] over the rows, with the list
    [intents] built so far; [total] is [len(df)]. *)
Fixpoint classify_rows (total : nat) (l : list (nat * gmap string pyval))
    (intents : list str) (st : Creation) : Creation * (raised + list str) :=
  match l with
  | [] => (st, inr intents)
  | (i, row) :: rest =>
      let question := get row "question" (PyStr empty_str) in
      let body := get row "body" (PyStr empty_str) in
      match classify_intent_llm question body st with
      | (st, inl e) => (st, inl e)
      | (st, inr intent) =>
          let st :=
            if ((i + 1) mod LOGGING_INTERVAL =? 0)%nat
            then show (MsgProcessed (i + 1) total) st else st in
          classify_rows total rest (intents ++ [intent]) st
      end
  end.

(** [add_intents_to_dataset()] *)
Definition add_intents_to_dataset (st : Creation) : Creation * (raised + unit) :=
  let st := show (MsgLoadingDataset CLEANED_DATA_PATH) st in
  match read_csv CLEANED_DATA_PATH st with
  | inl e => (st, inl e)
  | inr df =>
      match classify_rows (length (rows df)) (rows df) [] st with
      | (st, inl e) => (st, inl e)
      | (st, inr intents) =>
          let df := assign_intents df intents in
          let st := store INTENT_DATA_PATH (to_csv df) st in
          let st := show (MsgIntentsSaved INTENT_DATA_PATH) st in
          (show (MsgDistribution ((λ ir, cell ir.2 "intent") <$> rows df)) st,
           inr tt)
      end
  end.

(** [intent_classifier.py] run as a script with the key [key] in
    [config.py]: the module raises before it defines anything when the
    key is empty. *)
Definition intent_classifier_script (key : str) (st : Creation)
    : Creation * (raised + unit) :=
  if is_empty key then (st, inl ValueError)
  else add_intents_to_dataset st.

(** [build_dialogue_dataset()] *)
Definition build_dialogue_dataset (st : Creation) : Creation * (raised + unit) :=
  let st := show MsgBuilding st in
  match read_csv INTENT_DATA_PATH st with
  | inl e => (st, inl e)
  | inr df =>
      match dropna "answer" df with
      | inl e => (st, inl e)
      | inr df =>
          match dialogue_records (rows df) [] with
          | inl e => (st, inl e)
          | inr records =>
              let st := store STRUCTURED_DATA_PATH (jsonl records) st in
              let st := show (MsgStructured STRUCTURED_DATA_PATH) st in
              (show (MsgTotalPairs (length records)) st, inr tt)
          end
      end
  end.

(** ** Properties of the intent classifier *)

Lemma general_query_label : py "general_query" ∈ INTENT_LABELS.
Proof.
  unfold INTENT_LABELS. rewrite !elem_of_cons.
  do 5 right. left. reflexivity.
Qed.

(** What a call of [classify_intent_llm] that returns leaves behind. *)
Lemma classify_intent_llm_returns question body st st' intent :
  classify_intent_llm question body st = (st', inr intent) →
  intent ∈ INTENT_LABELS
  ∧ stored st' = stored st
  ∧ (shown st' = shown st ∨ shown st' = shown st ++ [MsgLLMFailed]).
Proof.
  unfold classify_intent_llm.
  destruct question as [| |q].
  - intros [= <- <-]. split; [apply general_query_label|]. by split; [|left].
  - discriminate.
  - destruct (is_empty q || (length (strip uni_isspace q) <? 5)%nat).
    { intros [= <- <-]. split; [apply general_query_label|].
      by split; [|left]. }
    assert (∀ summary,
      (let '(m, response) :=
         responses_create (prompt q summary) (model st) in
       let st0 := {| model := m; stored := stored st; shown := shown st |} in
       match response with
       | Some output_text =>
           let intent := lower uni_lower (strip uni_isspace output_text) in
           (st0, inr (if bool_decide (intent ∈ INTENT_LABELS)
                      then intent else py "general_query"))
       | None => (show MsgLLMFailed st0, inr (py "general_query"))
       end) = (st', @inr raised str intent) →
      intent ∈ INTENT_LABELS ∧ stored st' = stored st
      ∧ (shown st' = shown st ∨ shown st' = shown st ++ [MsgLLMFailed]))
      as Hcall.
    { intros summary.
      destruct (responses_create (prompt q summary) (model st))
        as [m [output_text|]]; cbv zeta.
      - intros [= <- <-]. split; [|by split; [|left]].
        case_bool_decide; [assumption|apply general_query_label].
      - intros [= <- <-]. split; [apply general_query_label|].
        by split; [|right]. }
    destruct body as [| |b]; [apply Hcall|discriminate|apply Hcall].
Qed.

(** A call that raises changes nothing, and raises for a [NaN]. *)
Lemma classify_intent_llm_raises question body st st' e :
  classify_intent_llm question body st = (st', inl e) →
  st' = st
  ∧ ((question = PyNaN ∧ e = AttributeError)
     ∨ (∃ q, question = PyStr q
             ∧ (5 ≤ length (strip uni_isspace q))%nat
             ∧ body = PyNaN ∧ e = TypeError)).
Proof.
  unfold classify_intent_llm.
  destruct question as [| |q]; [discriminate| |].
  - intros [= <- <-]. split; [reflexivity|]. by left.
  - destruct (is_empty q) eqn:Hq; [discriminate|].
    destruct (length (strip uni_isspace q) <? 5)%nat eqn:Hlen;
      [discriminate|].
    apply Nat.ltb_ge in Hlen. cbn [orb].
    destruct body as [| |b].
    + destruct (responses_create _ _) as [m [output_text|]]; discriminate.
    + intros [= <- <-]. split; [reflexivity|]. right. by exists q.
    + destruct (responses_create _ _) as [m [output_text|]]; discriminate.
Qed.

Lemma strip_empty : strip uni_isspace empty_str = empty_str.
Proof. reflexivity. Qed.

(** X18: [classify_intent_llm] answers with one of the six intent labels
    whatever the model says or however it fails, writes no file, and
    prints at most the line of a failed request. *)
Theorem classify_intent_llm_label question body st st' intent :
  classify_intent_llm question body st = (st', inr intent) →
  intent ∈ INTENT_LABELS
  ∧ stored st' = stored st
  ∧ (shown st' = shown st ∨ shown st' = shown st ++ [MsgLLMFailed]).
Proof. apply classify_intent_llm_returns. Qed.

(** X19: [classify_intent_llm] raises exactly for a [NaN]: an
    [AttributeError] for a question that is [NaN], a [TypeError] for a
    body that is [NaN] under a question of five characters or more once
    stripped; the model is not asked then.  A [NaN] body under a shorter
    question goes unnoticed. *)
Theorem classify_intent_llm_nan question body st st' e :
  classify_intent_llm question body st = (st', inl e)
  ↔ st' = st
    ∧ ((question = PyNaN ∧ e = AttributeError)
       ∨ (∃ q, question = PyStr q
               ∧ (5 ≤ length (strip uni_isspace q))%nat
               ∧ body = PyNaN ∧ e = TypeError)).
Proof.
  split; [apply classify_intent_llm_raises|].
  intros [-> [[-> ->]|(q & -> & Hlen & -> & ->)]]; [reflexivity|].
  unfold classify_intent_llm.
  destruct (is_empty q) eqn:Hq.
  { destruct q; [|discriminate]. rewrite strip_empty in Hlen.
    cbn in Hlen. lia. }
  apply Nat.ltb_ge in Hlen. rewrite Hlen. reflexivity.
Qed.

(** *** The loop over the rows *)

Lemma stored_logged (b : bool) msg st :
  stored (if b then show msg st else st) = stored st.
Proof. by destruct b. Qed.

Lemma classify_rows_returns total l : ∀ intents st st' out,
  classify_rows total l intents st = (st', inr out) →
  ∃ new, out = intents ++ new
         ∧ length new = length l
         ∧ Forall (λ intent, intent ∈ INTENT_LABELS) new
         ∧ stored st' = stored st.
Proof.
  induction l as [|[i row] rest IH]; intros intents st st' out.
  - intros [= <- <-]. exists []. by rewrite app_nil_r.
  - cbn [classify_rows].
    destruct (classify_intent_llm _ _ st) as [st1 [e|intent]] eqn:Hcall;
      [discriminate|].
    intros Hrest. apply IH in Hrest as (new & -> & Hlen & Hall & Hst).
    apply classify_intent_llm_returns in Hcall as (Hlabel & Hst1 & _).
    exists (intent :: new). rewrite <- app_assoc. split; [reflexivity|].
    split; [cbn; by rewrite Hlen|]. split; [by constructor|].
    by rewrite Hst, stored_logged.
Qed.

Lemma classify_rows_raises total l : ∀ intents st st' e,
  classify_rows total l intents st = (st', inl e) →
  stored st' = stored st ∧ (e = AttributeError ∨ e = TypeError).
Proof.
  induction l as [|[i row] rest IH]; intros intents st st' e.
  - discriminate.
  - cbn [classify_rows].
    destruct (classify_intent_llm _ _ st) as [st1 [e1|intent]] eqn:Hcall.
    + intros [= <- <-].
      apply classify_intent_llm_raises in Hcall
        as [-> [[_ ->]|(q & _ & _ & _ & ->)]]; split; auto.
    + intros Hrest. apply IH in Hrest as [Hst He].
      apply classify_intent_llm_returns in Hcall as (_ & Hst1 & _).
      split; [|assumption]. by rewrite Hst, stored_logged.
Qed.

Lemma classify_rows_nan_question total l : ∀ intents st i row,
  (i, row) ∈ l → row !! "question" = Some PyNaN →
  ∃ st' e, classify_rows total l intents st = (st', inl e).
Proof.
  induction l as [|[j row'] rest IH]; intros intents st i row Hin Hq.
  - by apply elem_of_nil in Hin.
  - cbn [classify_rows].
    destruct (classify_intent_llm _ _ st) as [st1 [e1|intent]] eqn:Hcall;
      [by eauto|].
    apply elem_of_cons in Hin as [[= <- <-]|Hin]; [|by eapply IH].
    unfold get in Hcall. rewrite Hq in Hcall. discriminate.
Qed.

(** *** Frames read from a file *)

Lemma lookup_csv_row header line col :
  csv_row header line !! col
  = if bool_decide (col ∈ header) then Some (cell line col) else None.
Proof.
  unfold csv_row. rewrite map_lookup_imap.
  case_bool_decide as Hcol.
  - by rewrite (proj2 (lookup_gset_to_gmap_Some PyNaN header col PyNaN)).
  - by rewrite (proj2 (lookup_gset_to_gmap_None PyNaN header col)).
Qed.

Lemma cell_csv_row header line col :
  col ∈ header → cell (csv_row header line) col = cell line col.
Proof.
  intros Hcol. unfold cell at 1. rewrite lookup_csv_row.
  by rewrite bool_decide_eq_true_2.
Qed.

Lemma read_csv_found path st f header lines :
  stored st !! path = Some f → csv_parse f = Some (header, lines) →
  read_csv path st = inr (csv_frame header lines).
Proof. intros Hf Hp. unfold read_csv. by rewrite Hf, Hp. Qed.

Lemma read_csv_returns path st df :
  read_csv path st = inr df →
  ∃ f header lines,
    stored st !! path = Some f ∧ csv_parse f = Some (header, lines)
    ∧ df = csv_frame header lines.
Proof.
  unfold read_csv. destruct (stored st !! path) as [f|]; [|discriminate].
  destruct (csv_parse f) as [[header lines]|] eqn:Hp; [|discriminate].
  intros [= <-]. by exists f, header, lines.
Qed.

Lemma add_intents_to_dataset_unfold st :
  add_intents_to_dataset st
  = let st := show (MsgLoadingDataset CLEANED_DATA_PATH) st in
    match read_csv CLEANED_DATA_PATH st with
    | inl e => (st, inl e)
    | inr df =>
        match classify_rows (length (rows df)) (rows df) [] st with
        | (st, inl e) => (st, inl e)
        | (st, inr intents) =>
            let df := assign_intents df intents in
            let st := store INTENT_DATA_PATH (to_csv df) st in
            let st := show (MsgIntentsSaved INTENT_DATA_PATH) st in
            (show (MsgDistribution ((λ ir, cell ir.2 "intent") <$> rows df))
               st, inr tt)
        end
    end.
Proof. reflexivity. Qed.

(** X20: a run of [add_intents_to_dataset] that returns has written one
    file, the frame of the input with the column [intent] added: every
    line of the input is there at its place, under its position as
    label, its cells unchanged, and with one of the six labels as
    intent. *)
Theorem add_intents_to_dataset_saves st st' :
  add_intents_to_dataset st = (st', inr tt) →
  ∃ f header lines df,
    stored st !! CLEANED_DATA_PATH = Some f
    ∧ csv_parse f = Some (header, lines)
    ∧ stored st' = <[INTENT_DATA_PATH := to_csv df]> (stored st)
    ∧ columns df = {["intent"]} ∪ header
    ∧ length (rows df) = length lines
    ∧ ∀ i line, lines !! i = Some line →
        ∃ label, label ∈ INTENT_LABELS
          ∧ rows df !! i
            = Some (i, <["intent" := PyStr label]> (csv_row header line)).
Proof.
  rewrite add_intents_to_dataset_unfold. cbv zeta.
  destruct (read_csv _ _) as [e|df] eqn:Hread; [discriminate|].
  apply read_csv_returns in Hread as (f & header & lines & Hf & Hp & ->).
  destruct (classify_rows _ _ _ _) as [st1 [e|intents]] eqn:Hrows;
    [discriminate|].
  apply classify_rows_returns in Hrows as (new & -> & Hlen & Hall & Hst).
  intros [= <-].
  exists f, header, lines, (assign_intents (csv_frame header lines) new).
  cbn [csv_frame rows] in Hlen. rewrite length_imap in Hlen.
  split; [exact Hf|]. split; [exact Hp|].
  split; [cbn [show store stored]; by rewrite Hst|].
  split; [reflexivity|].
  cbn [assign_intents csv_frame rows columns].
  split; [rewrite length_zip_with, length_imap; lia|].
  intros i line Hline.
  destruct (lookup_lt_is_Some_2 new i) as [label Hlabel].
  { rewrite Hlen. by eapply lookup_lt_Some. }
  exists label. split.
  - rewrite Forall_forall in Hall. apply Hall.
    by eapply list_elem_of_lookup_2.
  - rewrite lookup_zip_with, list_lookup_imap, Hline, Hlabel. reflexivity.
Qed.

(** X21: a line without a question (the cell reads [NaN]) makes
    [add_intents_to_dataset] raise, whatever the model answers for the
    other lines, and no file is written: the answers already obtained
    are lost. *)
Theorem add_intents_to_dataset_nan_question st f header lines line :
  stored st !! CLEANED_DATA_PATH = Some f →
  csv_parse f = Some (header, lines) →
  "question" ∈ header →
  line ∈ lines → cell line "question" = PyNaN →
  ∃ st' e, add_intents_to_dataset st = (st', inl e)
           ∧ (e = AttributeError ∨ e = TypeError)
           ∧ stored st' = stored st.
Proof.
  intros Hf Hp Hcol Hin Hnan.
  rewrite add_intents_to_dataset_unfold. cbv zeta.
  rewrite (read_csv_found _ _ f header lines); [|exact Hf|exact Hp].
  apply list_elem_of_lookup_1 in Hin as [i Hi].
  destruct (classify_rows_nan_question
              (length (rows (csv_frame header lines)))
              (rows (csv_frame header lines)) []
              (show (MsgLoadingDataset CLEANED_DATA_PATH) st)
              i (csv_row header line)) as (st1 & e & Hrows).
  { cbn [csv_frame rows]. apply list_elem_of_lookup_2 with i.
    by rewrite list_lookup_imap, Hi. }
  { rewrite lookup_csv_row, bool_decide_eq_true_2 by exact Hcol.
    by rewrite Hnan. }
  rewrite Hrows. exists st1, e. split; [reflexivity|].
  apply classify_rows_raises in Hrows as [Hst He]. by split.
Qed.

(** With the key that [config.py] holds, [intent_classifier.py] raises a
    [ValueError] on import: it reads no file, asks no model and prints
    nothing. *)
Lemma intent_classifier_script_no_key st :
  intent_classifier_script OPENAI_API_KEY st = (st, inl ValueError).
Proof. reflexivity. Qed.

(** ** Properties of the dataset builder *)

(** The record that the loop builds of a row. *)
Definition dialogue_of (ir : nat * gmap string pyval) : Dialogue :=
  {| dialogue_id := ir.1 + 1;
     dialogue_intent := get ir.2 "intent" (PyStr (py "general_query"));
     user_content := cell ir.2 "question";
     assistant_content := cell ir.2 "answer" |}.

Lemma dialogue_records_returns l : ∀ acc records,
  dialogue_records l acc = inr records →
  records = acc ++ (dialogue_of <$> l)
  ∧ Forall (λ ir, is_Some (ir.2 !! "question")) l.
Proof.
  induction l as [|[i row] rest IH]; intros acc records.
  - intros [= <-]. by rewrite app_nil_r.
  - cbn [dialogue_records].
    destruct (row !! "question") as [q|] eqn:Hq; [|discriminate].
    destruct (row !! "answer") as [a|] eqn:Ha; [|discriminate].
    intros Hrest. apply IH in Hrest as [-> Hall].
    split; [|constructor; [cbn [snd]; by rewrite Hq|assumption]].
    rewrite <- app_assoc. cbn [app fmap list_fmap]. do 3 f_equal.
    unfold dialogue_of, cell. cbn [fst snd]. by rewrite Hq, Ha.
Qed.

Lemma dialogue_records_total l : ∀ acc,
  Forall (λ ir, is_Some (ir.2 !! "question") ∧ is_Some (ir.2 !! "answer")) l →
  ∃ records, dialogue_records l acc = inr records.
Proof.
  induction l as [|[i row] rest IH]; intros acc Hall.
  - by eexists.
  - apply Forall_cons in Hall as [[[q Hq] [a Ha]] Hall].
    cbn [dialogue_records]. cbn in Hq, Ha. rewrite Hq, Ha. by apply IH.
Qed.

Lemma build_dialogue_dataset_unfold st :
  build_dialogue_dataset st
  = let st := show MsgBuilding st in
    match read_csv INTENT_DATA_PATH st with
    | inl e => (st, inl e)
    | inr df =>
        match dropna "answer" df with
        | inl e => (st, inl e)
        | inr df =>
            match dialogue_records (rows df) [] with
            | inl e => (st, inl e)
            | inr records =>
                let st := store STRUCTURED_DATA_PATH (jsonl records) st in
                let st := show (MsgStructured STRUCTURED_DATA_PATH) st in
                (show (MsgTotalPairs (length records)) st, inr tt)
            end
        end
    end.
Proof. reflexivity. Qed.

Lemma dropna_csv_frame col header lines :
  col ∈ header →
  dropna col (csv_frame header lines)
  = inr {| columns := header;
           rows := filter (λ ir, isna (cell ir.2 col) = false)
                     (imap (λ i line, (i, csv_row header line)) lines) |}.
Proof.
  intros Hcol. unfold dropna. cbn [csv_frame columns rows].
  by rewrite bool_decide_eq_true_2.
Qed.

Lemma elem_of_answered header lines i row :
  "answer" ∈ header →
  (i, row) ∈ filter (λ ir, isna (cell ir.2 "answer") = false)
               (imap (λ i line, (i, csv_row header line)) lines)
  ↔ ∃ line, lines !! i = Some line ∧ row = csv_row header line
            ∧ isna (cell line "answer") = false.
Proof.
  intros Hcol. rewrite list_elem_of_filter. cbn [snd]. split.
  - intros [Hna Hin]. apply list_elem_of_lookup_1 in Hin as [k Hk].
    apply list_lookup_imap_Some in Hk as (line & Hline & [= -> ->]).
    exists line. rewrite cell_csv_row in Hna by exact Hcol. done.
  - intros (line & Hline & -> & Hna). split.
    + by rewrite cell_csv_row.
    + apply list_elem_of_lookup_2 with i.
      by rewrite list_lookup_imap, Hline.
Qed.

(** X22: a run of [build_dialogue_dataset] that returns has written one
    file with one record for every line of the input that has an answer,
    and no other: the record's id is the line's position in the input
    counted from one, so the ids increase but skip the lines without an
    answer; the intent is the line's, or [general_query] when the input
    has no such column. *)
Theorem build_dialogue_dataset_records st st' :
  build_dialogue_dataset st = (st', inr tt) →
  ∃ f header lines records,
    stored st !! INTENT_DATA_PATH = Some f
    ∧ csv_parse f = Some (header, lines)
    ∧ stored st' = <[STRUCTURED_DATA_PATH := jsonl records]> (stored st)
    ∧ (∀ d, d ∈ records ↔
         ∃ i line, lines !! i = Some line
           ∧ isna (cell line "answer") = false
           ∧ d = {| dialogue_id := i + 1;
                    dialogue_intent :=
                      if bool_decide ("intent" ∈ header)
                      then cell line "intent"
                      else PyStr (py "general_query");
                    user_content := cell line "question";
                    assistant_content := cell line "answer" |})
    ∧ dialogue_id <$> records `sublist_of` seq 1 (length lines).
Proof.
  rewrite build_dialogue_dataset_unfold. cbv zeta.
  destruct (read_csv _ _) as [e|df] eqn:Hread; [discriminate|].
  apply read_csv_returns in Hread as (f & header & lines & Hf & Hp & ->).
  destruct (dropna _ _) as [e|df] eqn:Hdrop; [discriminate|].
  assert ("answer" ∈ header) as Hcol.
  { unfold dropna in Hdrop. cbn [csv_frame columns] in Hdrop.
    by case_bool_decide. }
  rewrite dropna_csv_frame in Hdrop by exact Hcol.
  injection Hdrop as <-. cbn [rows].
  destruct (dialogue_records _ _) as [e|records] eqn:Hrec; [discriminate|].
  apply dialogue_records_returns in Hrec as [-> Hall].
  intros [= <-]. exists f, header, lines. eexists.
  split; [exact Hf|]. split; [exact Hp|]. split; [reflexivity|].
  cbn [app]. split.
  - intros d. rewrite list_elem_of_fmap. split.
    + intros ([i row] & -> & Hin).
      pose proof Hin as Hq. rewrite Forall_forall in Hall.
      apply Hall in Hq. cbn in Hq.
      apply elem_of_answered in Hin as (line & Hline & -> & Hna);
        [|exact Hcol].
      rewrite lookup_csv_row in Hq.
      case_bool_decide as Hquestion; [|by destruct Hq].
      exists i, line. split; [exact Hline|]. split; [exact Hna|].
      unfold dialogue_of. cbn [fst snd].
      rewrite !cell_csv_row by assumption.
      unfold get. rewrite lookup_csv_row.
      by case_bool_decide.
    + intros (i & line & Hline & Hna & ->).
      assert ((i, csv_row header line)
              ∈ filter (λ ir, isna (cell ir.2 "answer") = false)
                  (imap (λ i line, (i, csv_row header line)) lines)) as Hin.
      { apply elem_of_answered; [exact Hcol|]. by exists line. }
      exists (i, csv_row header line). split; [|exact Hin].
      rewrite Forall_forall in Hall. apply Hall in Hin. cbn in Hin.
      rewrite lookup_csv_row in Hin.
      case_bool_decide as Hquestion; [|by destruct Hin].
      unfold dialogue_of. cbn [fst snd].
      rewrite !cell_csv_row by assumption.
      unfold get. rewrite lookup_csv_row.
      by case_bool_decide.
  - rewrite <- list_fmap_compose.
    etransitivity; [apply fmap_sublist, sublist_filter|].
    rewrite fmap_imap.
    rewrite (imap_ext _ (λ j _, S j) lines)
      by (intros j line _; cbn; lia).
    by rewrite (imap_seq_0 lines S), fmap_S_seq.
Qed.

(** X23: on an input without the column [question],
    [build_dialogue_dataset] raises a [KeyError] and writes nothing as
    soon as one line has an answer; with no such line it returns and
    writes a file without records. *)
Theorem build_dialogue_dataset_no_question st f header lines :
  stored st !! INTENT_DATA_PATH = Some f →
  csv_parse f = Some (header, lines) →
  "answer" ∈ header → "question" ∉ header →
  (Exists (λ line, isna (cell line "answer") = false) lines →
   build_dialogue_dataset st
   = (show MsgBuilding st, inl (NoSuchKey "question")))
  ∧ (Forall (λ line, isna (cell line "answer") = true) lines →
     ∃ st', build_dialogue_dataset st = (st', inr tt)
            ∧ stored st' = <[STRUCTURED_DATA_PATH := jsonl []]> (stored st)).
Proof.
  intros Hf Hp Hanswer Hquestion.
  rewrite build_dialogue_dataset_unfold. cbv zeta.
  rewrite (read_csv_found _ _ f header lines); [|exact Hf|exact Hp].
  rewrite dropna_csv_frame by exact Hanswer. cbn [rows].
  split.
  - intros Hex. apply Exists_exists in Hex as (line & Hin & Hna).
    apply list_elem_of_lookup_1 in Hin as [i Hi].
    assert ((i, csv_row header line)
            ∈ filter (λ ir, isna (cell ir.2 "answer") = false)
                (imap (λ i line, (i, csv_row header line)) lines)) as Hrow.
    { apply elem_of_answered; [exact Hanswer|]. by exists line. }
    destruct (filter _ _) as [|[j row] rest] eqn:Hrows.
    { by apply elem_of_nil in Hrow. }
    assert ((j, row) ∈ filter (λ ir, isna (cell ir.2 "answer") = false)
                (imap (λ i line, (i, csv_row header line)) lines)) as Hhead.
    { rewrite Hrows. apply list_elem_of_here. }
    apply elem_of_answered in Hhead as (line' & _ & -> & _);
      [|exact Hanswer].
    cbn [dialogue_records]. rewrite lookup_csv_row.
    by rewrite bool_decide_eq_false_2.
  - intros Hall.
    assert (filter (λ ir, isna (cell ir.2 "answer") = false)
              (imap (λ i line, (i, csv_row header line)) lines) = [])
      as ->.
    { destruct (filter _ _) as [|[j row] rest] eqn:Hrows; [reflexivity|].
      assert ((j, row) ∈ filter
                (λ ir : nat * gmap string pyval,
                   isna (cell ir.2 "answer") = false)
                (imap (λ i line, (i, csv_row header line)) lines)) as Hhead.
      { rewrite Hrows. apply list_elem_of_here. }
      apply elem_of_answered in Hhead as (line' & Hline & _ & Hna);
        [|exact Hanswer].
      rewrite Forall_forall in Hall.
      rewrite Hall in Hna; [discriminate|].
      by eapply list_elem_of_lookup_2. }
    cbn [dialogue_records]. eexists. split; reflexivity.
Qed.

End DatasetCreation.

(** * Instances of the script, scraper and dataset properties *)


Definition answered_page : Page :=
  {| title_text := Some (py "How do I sort a list?");
     body_text := Some (py "I have a list of numbers.");
     accepted_answer_text := None;
     first_answer_text := Some (py "Call sorted on the list.") |}.

Definition unanswered_page : Page :=
  {| title_text := None; body_text := None;
     accepted_answer_text := None; first_answer_text := None |}.

Definition sample_links : list (list N * Page) :=
  [ (py "/questions/1/sort", answered_page);
    (py "/questions/2/open", unanswered_page) ].

Lemma process_sample_links_returns :
  match process ascii_only ascii_only ascii_case sample_config
          (scraped sample_links) with
  | Ok _ => True
  | Raise _ => False
  end.
Proof. by vm_compute. Defined.

Lemma scraped_process_witness :
  sample_links ≠ []
  ∧ ∃ df clean_df unclean_df,
      process ascii_only ascii_only ascii_case sample_config
        (scraped sample_links) = Ok (df, clean_df, unclean_df)
      ∧ ∀ i r, (i, r) ∈ rows df →
          (∃ href page, sample_links !! i = Some (href, page)
                        ∧ cell r "url" = PyStr (question_url href))
          ∧ cell r "reason" ≠ PyStr (py "Malformed Entry").
Proof.
  assert (sample_links ≠ []) as H by discriminate.
  split; [exact H|].
  exact (scraped_process ascii_only ascii_only ascii_case sample_config
           sample_links H).
Defined.

Lemma scraped_unanswered_witness :
  ∃ df clean_df unclean_df,
    process ascii_only ascii_only ascii_case sample_config
      (scraped sample_links) = Ok (df, clean_df, unclean_df)
    ∧ ∃ r, (1%nat, r) ∈ rows unclean_df
           ∧ cell r "answer" = PyStr (py "None")
           ∧ cell r "reason" = PyStr (py "No Answer").
Proof.
  destruct (process ascii_only ascii_only ascii_case sample_config
              (scraped sample_links))
    as [[[df clean_df] unclean_df]|e] eqn:E.
  - exists df, clean_df, unclean_df. split; [reflexivity|].
    apply (scraped_unanswered ascii_only ascii_only ascii_case sample_config
             sample_links 1 (py "/questions/2/open") unanswered_page
             df clean_df unclean_df);
      [reflexivity|reflexivity|reflexivity| |exact E].
    intros [|j] href' page' Hj; [|lia].
    intros [= <- _]. discriminate.
  - exfalso. pose proof process_sample_links_returns as H.
    rewrite E in H. exact H.
Defined.

(** A configuration with all entries; the sleep entries hold a pair of
    bounds. *)
Definition sample_scraper_config : ScraperConfig (Z * Z) :=
  {| base_url := py "https://stackoverflow.com/questions/tagged/python";
     scrape_pages := Some 1%Z;
     sleep_between_questions := Some (2, 5)%Z;
     sleep_between_pages := Some (5, 10)%Z;
     scraper_output_folder := Some "data";
     scraper_raw_file := Some "raw_data.json" |}.

(** A world that answers every list request with two question links and
    every question request with the same page, and in which [rate_limit]
    sleeps. *)
Definition sample_get_list (url : list N) (n : unit) : unit * list_response :=
  (n, Questions [ Some (py "/questions/1/sort");
                  Some (py "/questions/2/open") ]).

Definition sample_get_page (url : list N) (n : unit) : unit * option Page :=
  (n, Some answered_page).

Definition sample_sleep (range : Z * Z) (n : unit) : unit * sleep_outcome :=
  (n, Slept).

Definition dump_works {content : Type}
    : gmap string content → string → list (gmap string pyval)
      → option (string * option content) :=
  λ _ _ _, None.

Definition fresh_scraping : Scraping unit (list (gmap string pyval)) :=
  {| network := tt; RESULTS := []; printed := []; saved_files := ∅ |}.

Definition sample_scrape
    : Scraping unit (list (gmap string pyval)) * result unit :=
  scrape_stackoverflow unit sample_get_list sample_get_page _ sample_sleep
    _ id mkdir_works dump_works slash sample_scraper_config None
    fresh_scraping.

Lemma scrape_sample_returns :
  match sample_scrape.2 with
  | Ok _ => True
  | Raise _ => False
  end.
Proof. by vm_compute. Defined.



(** Files of the dataset scripts: a CSV file is kept as its header and
    its lines, a JSONL file as its records. *)
Inductive sample_file :=
| CsvFile (header : gset string) (lines : list (gmap string pyval))
| JsonlFile (records : list Dialogue).

Definition sample_csv_parse (f : sample_file)
    : option (gset string * list (gmap string pyval)) :=
  match f with
  | CsvFile header lines => Some (header, lines)
  | JsonlFile _ => None
  end.

Definition sample_to_csv (df : DataFrame) : sample_file :=
  CsvFile (columns df) ((rows df).*2).

(** A model that answers every prompt with the same text. *)
Definition sample_llm (prompt : list N) (m : unit) : unit * option (list N) :=
  (m, Some (py "  Setup
")).

Definition sample_header : gset string :=
  {[ "url"; "question"; "body"; "answer" ]}.

Definition sample_lines : list (gmap string pyval) :=
  [ qa "https://x" "this is a sufficiently long answer text";
    qa "https://w" "fifteen chars!!" ].

Definition cleaned_store : Creation unit sample_file :=
  {| model := tt;
     stored := {[ CLEANED_DATA_PATH := CsvFile sample_header sample_lines ]};
     shown := [] |}.

Lemma classify_intent_llm_label_witness :
  ∃ st' intent,
    classify_intent_llm ascii_only ascii_case unit sample_llm sample_file
      (PyStr (py "How do I install it?")) PyNone cleaned_store
    = (st', inr intent)
    ∧ intent ∈ INTENT_LABELS
    ∧ stored _ _ st' = stored _ _ cleaned_store.
Proof.
  assert (classify_intent_llm ascii_only ascii_case unit sample_llm
            sample_file (PyStr (py "How do I install it?")) PyNone
            cleaned_store
          = (cleaned_store, inr (py "setup"))) as H by (by vm_compute).
  eexists _, _. split; [exact H|].
  destruct (classify_intent_llm_label _ _ _ _ _ _ _ _ _ _ H)
    as (Hlabel & Hstored & _).
  split; [exact Hlabel|exact Hstored].
Defined.

Lemma add_intents_sample_returns :
  match (add_intents_to_dataset ascii_only ascii_case unit sample_llm
           sample_file sample_csv_parse sample_to_csv cleaned_store).2 with
  | inr _ => True
  | inl _ => False
  end.
Proof. by vm_compute. Defined.

Lemma add_intents_to_dataset_saves_witness :
  ∃ st' df,
    add_intents_to_dataset ascii_only ascii_case unit sample_llm
      sample_file sample_csv_parse sample_to_csv cleaned_store
    = (st', inr tt)
    ∧ stored _ _ st'
      = <[INTENT_DATA_PATH := sample_to_csv df]> (stored _ _ cleaned_store)
    ∧ columns df = {["intent"]} ∪ sample_header
    ∧ length (rows df) = length sample_lines.
Proof.
  destruct (add_intents_to_dataset ascii_only ascii_case unit sample_llm
              sample_file sample_csv_parse sample_to_csv cleaned_store)
    as [st' [e|[]]] eqn:E.
  - exfalso. pose proof add_intents_sample_returns as H.
    rewrite E in H. exact H.
  - destruct (add_intents_to_dataset_saves _ _ _ _ _ _ _ _ _ E)
      as (f & header & lines & df & Hf & Hp & Hst & Hcols & Hlen & _).
    assert (f = CsvFile sample_header sample_lines) as ->.
    { apply (inj Some). rewrite <- Hf. reflexivity. }
    injection Hp as <- <-.
    exists st', df. split; [reflexivity|]. split; [exact Hst|].
    split; [exact Hcols|exact Hlen].
Defined.

Definition unasked_line : gmap string pyval :=
  {[ "url" := PyStr (py "https://v");
     "answer" := PyStr (py "an answer to no question") ]}.

Definition unasked_store : Creation unit sample_file :=
  {| model := tt;
     stored := {[ CLEANED_DATA_PATH
                  := CsvFile sample_header (sample_lines ++ [unasked_line]) ]};
     shown := [] |}.

Lemma sample_header_question : "question" ∈ sample_header.
Proof. unfold sample_header. set_solver. Defined.

Lemma add_intents_to_dataset_nan_question_witness :
  ∃ st' e,
    add_intents_to_dataset ascii_only ascii_case unit sample_llm
      sample_file sample_csv_parse sample_to_csv unasked_store
    = (st', inl e)
    ∧ (e = AttributeError ∨ e = TypeError)
    ∧ stored _ _ st' = stored _ _ unasked_store.
Proof.
  apply (add_intents_to_dataset_nan_question ascii_only ascii_case unit
           sample_llm sample_file sample_csv_parse sample_to_csv
           unasked_store (CsvFile sample_header (sample_lines ++ [unasked_line]))
           sample_header (sample_lines ++ [unasked_line]) unasked_line).
  - reflexivity.
  - reflexivity.
  - exact sample_header_question.
  - do 2 right. left.
  - reflexivity.
Defined.

Definition intents_header : gset string :=
  {[ "question"; "answer"; "intent" ]}.

Definition intents_lines : list (gmap string pyval) :=
  [ {[ "question" := PyStr (py "q1"); "answer" := PyStr (py "a1");
       "intent" := PyStr (py "setup") ]};
    {[ "question" := PyStr (py "q2"); "answer" := PyNaN;
       "intent" := PyStr (py "pricing") ]};
    {[ "question" := PyStr (py "q3"); "answer" := PyStr (py "a3");
       "intent" := PyStr (py "general_query") ]} ].

Definition intents_store : Creation unit sample_file :=
  {| model := tt;
     stored := {[ INTENT_DATA_PATH := CsvFile intents_header intents_lines ]};
     shown := [] |}.

Lemma build_sample_returns :
  match (build_dialogue_dataset unit sample_file sample_csv_parse JsonlFile
           intents_store).2 with
  | inr _ => True
  | inl _ => False
  end.
Proof. by vm_compute. Defined.

Lemma build_dialogue_dataset_records_witness :
  ∃ st' records,
    build_dialogue_dataset unit sample_file sample_csv_parse JsonlFile
      intents_store = (st', inr tt)
    ∧ stored _ _ st'
      = <[STRUCTURED_DATA_PATH := JsonlFile records]> (stored _ _ intents_store)
    ∧ dialogue_id <$> records `sublist_of` seq 1 (length intents_lines).
Proof.
  destruct (build_dialogue_dataset unit sample_file sample_csv_parse JsonlFile
              intents_store) as [st' [e|[]]] eqn:E.
  - exfalso. pose proof build_sample_returns as H.
    rewrite E in H. exact H.
  - destruct (build_dialogue_dataset_records _ _ _ _ _ _ E)
      as (f & header & lines & records & Hf & Hp & Hst & _ & Hids).
    assert (f = CsvFile intents_header intents_lines) as ->.
    { apply (inj Some). rewrite <- Hf. reflexivity. }
    injection Hp as <- <-.
    exists st', records. split; [reflexivity|].
    split; [exact Hst|exact Hids].
Defined.

Definition answers_store : Creation unit sample_file :=
  {| model := tt;
     stored := {[ INTENT_DATA_PATH
                  := CsvFile {[ "answer" ]} [ {[ "answer" := PyStr (py "a") ]} ] ]};
     shown := [] |}.

Lemma build_dialogue_dataset_no_question_witness :
  build_dialogue_dataset unit sample_file sample_csv_parse JsonlFile
    answers_store
  = (show _ _ MsgBuilding answers_store, inl (NoSuchKey "question")).
Proof.
  apply (build_dialogue_dataset_no_question unit sample_file sample_csv_parse
           JsonlFile answers_store
           (CsvFile {[ "answer" ]} [ {[ "answer" := PyStr (py "a") ]} ])
           {[ "answer" ]} [ {[ "answer" := PyStr (py "a") ]} ]).
  - reflexivity.
  - reflexivity.
  - by apply elem_of_singleton.
  - intros H. by apply elem_of_singleton in H.
  - by left.
Defined.
